(** * todoist-ai: the query-construction and result-shaping core

    A shallow embedding of the TypeScript sources and the properties
    they satisfy.  A JavaScript string is a sequence of code units; the
    model carries the code units below 256, one [ascii] per unit, that
    is Basic Latin and the Latin-1 Supplement: [ascii_of_nat 201] is
    the capital E with an acute accent, U+00C9, and not a byte of an
    encoding.  That range holds the filter language and the headers,
    and on it the string primitives below are those of JavaScript; a
    text with a code unit of 256 or more has no counterpart here.
    Arrays are [list]s, [undefined]/[null] are [None] where a field is
    optional, and the upstream client is a record of responses threaded
    through a small trace-and-exception monad. *)

From Stdlib Require Import ZArith List String Ascii Bool Lia DecimalString.
Set Warnings "-register-all".
Import ListNotations.
Open Scope string_scope.

(** ** JavaScript primitives used by the sources *)
Module Js.

(** A double-quote character, for the messages that contain one. *)
Definition dq : string := String (ascii_of_nat 34) EmptyString.

(** [s.length === 0] *)
Definition isEmpty (s : string) : bool :=
  Nat.eqb (String.length s) 0.

(** Truthiness of a string: the empty string is falsy. *)
Definition truthy (s : string) : bool := negb (isEmpty s).

(** Truthiness of [string | undefined] and [string | null]. *)
Definition truthyOpt (o : option string) : bool :=
  match o with
  | Some s => truthy s
  | None => false
  end.

(** [s.startsWith(p)] *)
Fixpoint startsWith (p s : string) : bool :=
  match p with
  | EmptyString => true
  | String a p' =>
      match s with
      | EmptyString => false
      | String b s' => Ascii.eqb a b && startsWith p' s'
      end
  end.

(** [s.endsWith(p)] for a one-character [p]. *)
Fixpoint endsWithChar (c : ascii) (s : string) : bool :=
  match s with
  | EmptyString => false
  | String a EmptyString => Ascii.eqb a c
  | String _ rest => endsWithChar c rest
  end.

(** [s.includes(sub)] *)
Fixpoint includes (sub s : string) : bool :=
  startsWith sub s ||
  match s with
  | EmptyString => false
  | String _ rest => includes sub rest
  end.

(** [c.toLowerCase()] on one code unit.  Below 256 the units with a
    lower-case form are [A]..[Z] (65..90) and the capitals of the
    Latin-1 Supplement, U+00C0..U+00DE (192..222) without the
    multiplication sign U+00D7 (215); the lower-case form is 32 above.
    The sharp s U+00DF, the micro sign U+00B5 and the y with diaeresis
    U+00FF are lower-case already. *)
Definition lowerChar (c : ascii) : ascii :=
  let n := nat_of_ascii c in
  if ((Nat.leb 65 n && Nat.leb n 90)
      || (Nat.leb 192 n && Nat.leb n 222 && negb (Nat.eqb n 215)))%bool
  then ascii_of_nat (n + 32) else c.

(** [s.toLowerCase()]: unit by unit, since no unit of the range has a
    lower-case form of another length or one that depends on its
    neighbours. *)
Fixpoint toLowerCase (s : string) : string :=
  match s with
  | EmptyString => EmptyString
  | String c rest => String (lowerChar c) (toLowerCase rest)
  end.

(** [parts.join(sep)] *)
Definition join (sep : string) (parts : list string) : string :=
  String.concat sep parts.

(** [s.split(sep)] for a one-character separator: every occurrence
    of the separator cuts, so the result has one more piece than the
    string has separators. *)
Fixpoint split (sep : ascii) (s : string) : list string :=
  match s with
  | EmptyString => [EmptyString]
  | String c rest =>
      if Ascii.eqb c sep then EmptyString :: split sep rest
      else match split sep rest with
           | [] => [String c EmptyString]
           | piece :: pieces => String c piece :: pieces
           end
  end.

(** [s.split(sep, limit)]: the pieces of [split], cut after [limit]. *)
Definition splitLimit (sep : ascii) (limit : nat) (s : string) : list string :=
  firstn limit (split sep s).

End Js.

(** ** src/filter-helpers.ts

    [filterTasksByResponsibleUser] stands word for word in
    [src/tool-helpers.ts] as well. *)
Module FilterHelpers.

(** [RESPONSIBLE_USER_FILTERING] *)
Inductive ResponsibleUserFiltering : Type :=
  | assigned
  | unassignedOrMe
  | all.

Definition ResponsibleUserFiltering_eqb (a b : ResponsibleUserFiltering) : bool :=
  match a, b with
  | assigned, assigned | unassignedOrMe, unassignedOrMe | all, all => true
  | _, _ => false
  end.

(** A parameter with a default value: [undefined] takes the default. *)
Definition withDefault {A : Type} (d : A) (o : option A) : A :=
  match o with
  | Some a => a
  | None => d
  end.

Definition appendToQuery (query filterComponent : string) : string :=
  if Nat.eqb (String.length filterComponent) 0 then query
  else if Nat.eqb (String.length query) 0 then filterComponent
  else query ++ " & " ++ filterComponent.

Definition buildResponsibleUserQueryFilter
    (resolvedAssigneeId assigneeEmail : option string)
    (responsibleUserFiltering : option ResponsibleUserFiltering) : string :=
  let mode := withDefault unassignedOrMe responsibleUserFiltering in
  match assigneeEmail with
  | Some email =>
      if (Js.truthyOpt resolvedAssigneeId && Js.truthy email)%bool
      then "assigned to: " ++ email
      else match mode with
           | unassignedOrMe => "!assigned to: others"
           | assigned => "assigned to: others"
           | all => ""
           end
  | None =>
      match mode with
      | unassignedOrMe => "!assigned to: others"
      | assigned => "assigned to: others"
      | all => ""
      end
  end.

Section Filter.
(** [T extends { responsibleUid: string | null }] *)
Context {T : Type} (responsibleUid : T -> option string).

(** [task.responsibleUid === id] *)
Definition assignedTo (id : string) (task : T) : bool :=
  match responsibleUid task with
  | Some uid => String.eqb uid id
  | None => false
  end.

(** [!task.responsibleUid || task.responsibleUid === currentUserId] *)
Definition unassignedOrMine (currentUserId : string) (task : T) : bool :=
  (negb (Js.truthyOpt (responsibleUid task)) || assignedTo currentUserId task)%bool.

Definition filterTasksByResponsibleUser
    (tasks : list T) (resolvedAssigneeId : option string)
    (currentUserId : string)
    (responsibleUserFiltering : option ResponsibleUserFiltering) : list T :=
  let mode := withDefault unassignedOrMe responsibleUserFiltering in
  match resolvedAssigneeId with
  | Some id =>
      if Js.truthy id then filter (assignedTo id) tasks
      else if ResponsibleUserFiltering_eqb mode unassignedOrMe
           then filter (unassignedOrMine currentUserId) tasks
           else tasks
  | None =>
      if ResponsibleUserFiltering_eqb mode unassignedOrMe
      then filter (unassignedOrMine currentUserId) tasks
      else tasks
  end.
End Filter.

End FilterHelpers.

(** ** src/utils/labels.ts *)
Module Labels.

Inductive LabelsOperator : Type :=
  | opAnd
  | opOr.

(** Strip one leading [@] from a label name. *)
Definition stripAt (label : string) : string :=
  match label with
  | String "@" rest => rest
  | _ => label
  end.

(** Modelled from the spec: [generateLabelsFilter] lives in
    [utils/labels.ts], which is not among the sources; only its callers
    and their tests are.  Section 4.1 of the specification: each label
    is normalised by stripping a leading [@] before re-adding it; the
    labels are joined by the operator with a double space on each side
    and wrapped in one pair of parentheses; the default operator is
    [or]; the empty list gives the empty string. *)
Definition generateLabelsFilter
    (labels : option (list string)) (labelsOperator : option LabelsOperator) : string :=
  match FilterHelpers.withDefault [] labels with
  | [] => ""
  | ls =>
      let joiner :=
        match FilterHelpers.withDefault opOr labelsOperator with
        | opAnd => "  &  "
        | opOr => "  |  "
        end in
      "(" ++ Js.join joiner (map (fun l => "@" ++ stripAt l) ls) ++ ")"
  end.

End Labels.

(** ** JavaScript values and [JSON.stringify] *)
Module Json.

(** Plain data as the tools build and receive it.  Numbers are the
    integers the API uses for priorities, status and error codes: a
    JavaScript number is a double, which holds the integers up to
    [Number.MAX_SAFE_INTEGER] in magnitude exactly (see
    [isSafeInteger]); a fraction has no counterpart here.  The fields
    of an object are in [Object.entries] order. *)
Inductive JsVal : Type :=
  | VUndefined
  | VNull
  | VBool (b : bool)
  | VNum (n : Z)
  | VStr (s : string)
  | VArr (items : list JsVal)
  | VObj (fields : list (string * JsVal)).

(** [obj[key]] on the fields of an object. *)
Fixpoint lookup (key : string) (fields : list (string * JsVal)) : option JsVal :=
  match fields with
  | [] => None
  | (k, v) :: rest => if String.eqb k key then Some v else lookup key rest
  end.

(** [string | null] and [string | undefined] as values. *)
Definition ofNullable (o : option string) : JsVal :=
  match o with
  | Some s => VStr s
  | None => VNull
  end.

(** [Number.isSafeInteger(n)]: the magnitude is at most 2^53 - 1. *)
Definition isSafeInteger (n : Z) : bool :=
  (Z.abs n <=? 9007199254740991)%Z.

(** [String(n)] and [`${n}`] for a safe integer: all its digits, after
    a minus sign for a negative one.  (JavaScript turns to the exponent
    form, [1e+21], only from 10^21 on, far outside the safe
    integers.) *)
Definition numberToString (n : Z) : string :=
  DecimalString.NilZero.string_of_int (Z.to_int n).

Definition hexDigit (n : nat) : ascii :=
  ascii_of_nat (if Nat.ltb n 10 then 48 + n else 87 + n).

(** One code unit inside a JSON string literal. *)
Definition escapeChar (c : ascii) : string :=
  let n := nat_of_ascii c in
  if Nat.eqb n 34 then String "\" (String c "")
  else if Nat.eqb n 92 then "\\"
  else if Nat.eqb n 8 then "\b"
  else if Nat.eqb n 9 then "\t"
  else if Nat.eqb n 10 then "\n"
  else if Nat.eqb n 12 then "\f"
  else if Nat.eqb n 13 then "\r"
  else if Nat.ltb n 32
       then "\u00" ++ String (hexDigit (n / 16)) (String (hexDigit (n mod 16)) "")
       else String c "".

Fixpoint escape (s : string) : string :=
  match s with
  | EmptyString => EmptyString
  | String c rest => escapeChar c ++ escape rest
  end.

Definition quote (s : string) : string :=
  String (ascii_of_nat 34) (escape s ++ String (ascii_of_nat 34) "").

(** [JSON.stringify(v)] without indentation: an [undefined] array
    element prints as [null], a field holding [undefined] is left
    out. *)
Fixpoint stringify (v : JsVal) : string :=
  match v with
  | VUndefined => "null"
  | VNull => "null"
  | VBool true => "true"
  | VBool false => "false"
  | VNum n => numberToString n
  | VStr s => quote s
  | VArr items => "[" ++ String.concat "," (map stringify items) ++ "]"
  | VObj fields =>
      "{" ++
      String.concat ","
        ((fix members (fs : list (string * JsVal)) : list string :=
            match fs with
            | [] => []
            | (k, VUndefined) :: rest => members rest
            | (k, x) :: rest => (quote k ++ ":" ++ stringify x) :: members rest
            end) fields)
      ++ "}"
  end.

Section Induction.
Variable P : JsVal -> Prop.
Hypothesis P_undefined : P VUndefined.
Hypothesis P_null : P VNull.
Hypothesis P_bool : forall b, P (VBool b).
Hypothesis P_num : forall n, P (VNum n).
Hypothesis P_str : forall s, P (VStr s).
Hypothesis P_arr : forall items, Forall P items -> P (VArr items).
Hypothesis P_obj : forall fields, Forall (fun kv => P (snd kv)) fields -> P (VObj fields).

(** Induction on values that reaches the elements of arrays and the
    fields of objects. *)
Fixpoint JsVal_nested_ind (v : JsVal) : P v :=
  match v with
  | VUndefined => P_undefined
  | VNull => P_null
  | VBool b => P_bool b
  | VNum n => P_num n
  | VStr s => P_str s
  | VArr items =>
      P_arr items
        ((fix all (l : list JsVal) : Forall P l :=
            match l with
            | [] => Forall_nil P
            | x :: rest => Forall_cons x (JsVal_nested_ind x) (all rest)
            end) items)
  | VObj fields =>
      P_obj fields
        ((fix all (l : list (string * JsVal)) : Forall (fun kv => P (snd kv)) l :=
            match l with
            | [] => Forall_nil _
            | (k, x) :: rest =>
                Forall_cons (P := fun kv => P (snd kv)) (k, x) (JsVal_nested_ind x) (all rest)
            end) fields)
  end.
End Induction.

End Json.

(** ** src/utils/sanitize-data.ts *)
Module Sanitize.
Import Json.

(** [v === null] *)
Definition isNull (v : JsVal) : bool :=
  match v with
  | VNull => true
  | _ => false
  end.

(** [Array.isArray(v) && v.length === 0] *)
Definition isEmptyArray (v : JsVal) : bool :=
  match v with
  | VArr [] => true
  | _ => false
  end.

(** [v !== null && typeof v === 'object' && !Array.isArray(v) &&
    Object.keys(v).length === 0] *)
Definition isEmptyObject (v : JsVal) : bool :=
  match v with
  | VObj [] => true
  | _ => false
  end.

Fixpoint removeNullFields (obj : JsVal) : JsVal :=
  match obj with
  | VNull => obj
  | VUndefined => obj
  | VArr items => VArr (map removeNullFields items)
  | VObj fields =>
      VObj
        ((fix sanitized (entries : list (string * JsVal)) : list (string * JsVal) :=
            match entries with
            | [] => []
            | (key, VNull) :: rest => sanitized rest
            | (key, value) :: rest =>
                let cleanedValue := removeNullFields value in
                if isEmptyArray cleanedValue then sanitized rest
                else if isEmptyObject cleanedValue then sanitized rest
                else (key, cleanedValue) :: sanitized rest
            end) fields)
  | _ => obj
  end.

(** The loop of [removeNullFields] over the entries of an object, as a
    function of its own. *)
Fixpoint sanitizeEntries (entries : list (string * JsVal)) : list (string * JsVal) :=
  match entries with
  | [] => []
  | (key, value) :: rest =>
      match value with
      | VNull => sanitizeEntries rest
      | _ =>
          let cleanedValue := removeNullFields value in
          if isEmptyArray cleanedValue then sanitizeEntries rest
          else if isEmptyObject cleanedValue then sanitizeEntries rest
          else (key, cleanedValue) :: sanitizeEntries rest
      end
  end.

(** What the documentation of [removeNullFields] promises of a value:
    at every depth, through arrays as well, no field of an object holds
    [null], an empty object or an empty array. *)
Fixpoint sanitizedValue (v : JsVal) : bool :=
  match v with
  | VArr items => forallb sanitizedValue items
  | VObj fields =>
      forallb
        (fun kv : string * JsVal =>
           let '(_, x) := kv in
           negb (isNull x) && negb (isEmptyArray x) && negb (isEmptyObject x) &&
           sanitizedValue x)
        fields
  | _ => true
  end.

(** The fields the documentation says survive: those whose value is not
    [null] and does not clean to an empty array or an empty object. *)
Definition survives (kv : string * JsVal) : bool :=
  negb (isNull (snd kv)) &&
  negb (isEmptyArray (removeNullFields (snd kv))) &&
  negb (isEmptyObject (removeNullFields (snd kv))).

End Sanitize.

(** ** @doist/todoist-api-typescript: the entities the client returns *)
Module Task.

Record Due : Type := {
  date : string;
  isRecurring : bool;
  string : String.string
}.

Record Duration : Type := {
  amount : Z;
  unit : String.string
}.

(** The fields of an API task that the tools read.  [priority] is in
    the API's convention, where 4 is the highest. *)
Record t : Type := {
  id : String.string;
  content : String.string;
  description : String.string;
  due : option Due;
  priority : Z;
  projectId : String.string;
  sectionId : option String.string;
  parentId : option String.string;
  labels : list String.string;
  duration : option Duration;
  responsibleUid : option String.string;
  assignedByUid : option String.string
}.

End Task.

Module Project.

(** What tells the two kinds of project apart: a personal project has
    the keys [parentId] and [inboxProject], a workspace project has
    [accessLevel]. *)
Inductive Variant : Type :=
  | PersonalProject (parentId : option string) (inboxProject : option bool)
  | WorkspaceProject (accessLevel : string).

Record t : Type := {
  id : string;
  name : string;
  color : string;
  isFavorite : bool;
  isShared : bool;
  viewStyle : string;
  variant : Variant
}.

End Project.

(** ** The upstream client, exceptions and promises *)
Module Api.
Import Json.

(** What [throw] raises and a rejected promise carries: an instance of
    [Error] with its message and own properties, or any other value. *)
Inductive Thrown : Type :=
  | ErrorInstance (message : string) (props : list (string * JsVal))
  | ThrownValue (v : JsVal).

(** [new Error(message)] *)
Definition newError (message : string) : Thrown := ErrorInstance message [].

(** [error[key]] *)
Definition thrownField (key : string) (e : Thrown) : option JsVal :=
  match e with
  | ErrorInstance message props =>
      match lookup key props with
      | Some v => Some v
      | None => if String.eqb key "message" then Some (VStr message) else None
      end
  | ThrownValue (VObj fields) => lookup key fields
  | ThrownValue _ => None
  end.

Record User : Type := {
  userId : string;
  email : string
}.

Record GetTasksArgs : Type := {
  tasksLimit : Z;
  tasksCursor : option string;
  tasksProjectId : option string;
  tasksSectionId : option string;
  tasksParentId : option string
}.

Record GetTasksByFilterArgs : Type := {
  query : string;
  lang : option string;
  limit : option Z;
  cursor : option string
}.

(** One page of results with the cursor of the next. *)
Record Page (A : Type) : Type := {
  results : list A;
  nextCursor : option string
}.
Arguments results {A}.
Arguments nextCursor {A}.

(** The requests the tools send upstream. *)
Inductive Call : Type :=
  | CallGetUser
  | CallGetTask (id : string)
  | CallGetProject (id : string)
  | CallGetProjects (limit : Z)
  | CallGetTasks (args : GetTasksArgs)
  | CallGetTasksByFilter (args : GetTasksByFilterArgs)
  | CallResolveUser (nameOrEmail : string).

(** The answers of the upstream service: each request either rejects
    with a thrown value or resolves.  [resolveUserNameToId] is the
    collaborator directory behind [utils/user-resolver.js]. *)
Record TodoistApi : Type := {
  getUser : Thrown + User;
  getTask : string -> Thrown + Task.t;
  getProject : string -> Thrown + Project.t;
  getProjects : Z -> Thrown + Page Project.t;
  getTasks : GetTasksArgs -> Thrown + Page Task.t;
  getTasksByFilter : GetTasksByFilterArgs -> Thrown + Page Task.t;
  resolveUserNameToId : string -> Thrown + option User
}.

(** An asynchronous computation: it extends the log of the requests sent
    so far and ends by resolving or by rejecting. *)
Definition Async (A : Type) : Type := list Call -> (Thrown + A) * list Call.

Definition ret {A : Type} (a : A) : Async A := fun log => (inr a, log).

Definition throw {A : Type} (e : Thrown) : Async A := fun log => (inl e, log).

Definition bind {A B : Type} (m : Async A) (k : A -> Async B) : Async B :=
  fun log =>
    match m log with
    | (inr a, log') => k a log'
    | (inl e, log') => (inl e, log')
    end.

(** [try { body } catch (error) { handler }] *)
Definition tryCatch {A : Type} (body : Async A) (handler : Thrown -> Async A) : Async A :=
  fun log =>
    match body log with
    | (inr a, log') => (inr a, log')
    | (inl e, log') => handler e log'
    end.

(** [await client.method(args)]: the request is logged, then answered. *)
Definition request {A : Type} (c : Call) (answer : Thrown + A) : Async A :=
  fun log => (answer, (log ++ [c])%list).

(** Which of the two promises handed to [Promise.all] settles first.
    The program does not decide it: it is the order in which the
    answers come in.  (With answers that are there already, as those of
    the test doubles, a promise that passes through an [async] function
    with a [catch] block settles after one that does not.) *)
Inductive Arrival : Type :=
  | FirstSettlesFirst
  | SecondSettlesFirst.

(** [await Promise.all([a, b])]: both computations are started before
    either is awaited, so both send their requests, in argument order.
    The result resolves when both resolve and rejects when one rejects,
    with the rejection of that one; when both reject, with the
    rejection that comes first. *)
Definition promiseAll2 {A B : Type}
    (arrival : Arrival) (a : Async A) (b : Async B) : Async (A * B) :=
  fun log =>
    let (ra, log1) := a log in
    let (rb, log2) := b log1 in
    match ra, rb with
    | inr x, inr y => (inr (x, y), log2)
    | inl e, inr _ => (inl e, log2)
    | inr _, inl e => (inl e, log2)
    | inl ea, inl eb =>
        (inl match arrival with
             | FirstSettlesFirst => ea
             | SecondSettlesFirst => eb
             end, log2)
    end.

(** Run a tool from an empty log. *)
Definition run {A : Type} (m : Async A) : (Thrown + A) * list Call := m [].

End Api.

Declare Scope async_scope.
Delimit Scope async_scope with async.
Notation "x <- m ;; k" := (Api.bind m (fun x => k))
  (at level 61, m at next level, right associativity) : async_scope.

(** ** src/utils/constants.ts *)
Module ApiLimits.

(** The page sizes the search test expects in the requests. *)
Definition TASKS_MAX : Z := 100.
Definition PROJECTS_MAX : Z := 100.

End ApiLimits.

(** ** src/utils/priorities.ts *)
Module Priorities.

Inductive Priority : Type :=
  | p1
  | p2
  | p3
  | p4.

Definition convertPriorityToNumber (priority : Priority) : Z :=
  match priority with
  | p1 => 4
  | p2 => 3
  | p3 => 2
  | p4 => 1
  end.

Definition convertNumberToPriority (priority : Z) : option Priority :=
  match priority with
  | 4 => Some p1
  | 3 => Some p2
  | 2 => Some p3
  | 1 => Some p4
  | _ => None
  end%Z.

Definition formatPriorityForDisplay (priority : Z) : string :=
  match priority with
  | 4 => "P1"
  | 3 => "P2"
  | 2 => "P3"
  | 1 => "P4"
  | _ => ""
  end%Z.

(** The rank a priority has in the user-facing enumeration, where 1 is
    the highest. *)
Definition rank (priority : Priority) : Z :=
  match priority with
  | p1 => 1
  | p2 => 2
  | p3 => 3
  | p4 => 4
  end.

End Priorities.

(** ** src/utils/duration-parser.ts *)
Module DurationParser.

(** Modelled from the spec: [formatDuration] is not among the sources.
    Section 4.4: a duration in minutes becomes a compact string, with
    zero, sub-hour, exact-hour and mixed durations told apart and no
    trailing [0m] ([0m], [45m], [2h], [1h30m]). *)
Definition formatDuration (minutes : Z) : string :=
  if (minutes <=? 0)%Z then "0m"
  else
    let hours := (minutes / 60)%Z in
    let remainingMinutes := (minutes mod 60)%Z in
    if (hours =? 0)%Z then Json.numberToString remainingMinutes ++ "m"
    else if (remainingMinutes =? 0)%Z then Json.numberToString hours ++ "h"
    else Json.numberToString hours ++ "h" ++ Json.numberToString remainingMinutes ++ "m".

End DurationParser.

(** ** src/mcp-helpers.ts *)
Module McpHelpers.

(** A content item of type [text]. *)
Record TextContent : Type := {
  text : string
}.

(** The envelope the [search] and [fetch] tools return. *)
Record ToolOutput : Type := {
  content : list TextContent;
  isError : option bool
}.

(** Modelled from the spec: [getErrorOutput] lives in [mcp-helpers.ts],
    which is not among the sources.  Section 6: on failure the tool
    returns a single text item with [isError: true] and the raw error
    message as payload. *)
Definition getErrorOutput (error : string) : ToolOutput :=
  {| content := [{| text := error |}]; isError := Some true |}.

End McpHelpers.

(** ** src/tool-helpers.ts *)
Module MappedTask.

(** The result of [mapTask].  [recurring] is [false] ([None]) or the
    recurrence phrase; [dueDate] is [undefined] ([None]) without a due
    date. *)
Record t : Type := {
  id : string;
  content : string;
  description : string;
  dueDate : option string;
  recurring : option string;
  priority : Z;
  projectId : string;
  sectionId : option string;
  parentId : option string;
  labels : list string;
  duration : option string;
  responsibleUid : option string;
  assignedByUid : option string
}.

End MappedTask.

Module MappedProject.

Record t : Type := {
  id : string;
  name : string;
  color : string;
  isFavorite : bool;
  isShared : bool;
  parentId : option string;
  inboxProject : bool;
  viewStyle : string
}.

End MappedProject.

Module ToolHelpers.
Import Json Api.
Local Open Scope async_scope.

(** ['inboxProject' in project] *)
Definition isPersonalProject (project : Project.t) : bool :=
  match Project.variant project with
  | Project.PersonalProject _ _ => true
  | Project.WorkspaceProject _ => false
  end.

(** ['accessLevel' in project] *)
Definition isWorkspaceProject (project : Project.t) : bool :=
  match Project.variant project with
  | Project.PersonalProject _ _ => false
  | Project.WorkspaceProject _ => true
  end.

Definition mapTask (task : Task.t) : MappedTask.t :=
  {| MappedTask.id := Task.id task;
     MappedTask.content := Task.content task;
     MappedTask.description := Task.description task;
     MappedTask.dueDate := option_map Task.date (Task.due task);
     MappedTask.recurring :=
       match Task.due task with
       | Some due =>
           if Task.isRecurring due && Js.truthy (Task.string due)
           then Some (Task.string due)
           else None
       | None => None
       end;
     MappedTask.priority := Task.priority task;
     MappedTask.projectId := Task.projectId task;
     MappedTask.sectionId := Task.sectionId task;
     MappedTask.parentId := Task.parentId task;
     MappedTask.labels := Task.labels task;
     MappedTask.duration :=
       match Task.duration task with
       | Some d => Some (DurationParser.formatDuration (Task.amount d))
       | None => None
       end;
     MappedTask.responsibleUid := Task.responsibleUid task;
     MappedTask.assignedByUid := Task.assignedByUid task |}.

Definition mapProject (project : Project.t) : MappedProject.t :=
  {| MappedProject.id := Project.id project;
     MappedProject.name := Project.name project;
     MappedProject.color := Project.color project;
     MappedProject.isFavorite := Project.isFavorite project;
     MappedProject.isShared := Project.isShared project;
     MappedProject.parentId :=
       match Project.variant project with
       | Project.PersonalProject parentId _ => parentId
       | Project.WorkspaceProject _ => None
       end;
     MappedProject.inboxProject :=
       match Project.variant project with
       | Project.PersonalProject _ (Some inboxProject) => inboxProject
       | Project.PersonalProject _ None => false
       | Project.WorkspaceProject _ => false
       end;
     MappedProject.viewStyle := Project.viewStyle project |}.

(** What [ErrorSchema] extracts. *)
Record ErrorData : Type := {
  httpStatusCode : Z;
  error : string;
  errorCode : Z;
  errorTag : string
}.

(** [ErrorSchema.safeParse(error)]: the value must be an object (an
    [Error] instance is one) whose [httpStatusCode] is a number and whose
    [responseData] is an object with a string [error], a number
    [errorCode] and a string [errorTag]; [None] is [success: false]. *)
Definition ErrorSchema_safeParse (e : Thrown) : option ErrorData :=
  match e with
  | ThrownValue (VObj _) | ErrorInstance _ _ =>
      match thrownField "httpStatusCode" e, thrownField "responseData" e with
      | Some (VNum status), Some (VObj responseData) =>
          match lookup "error" responseData,
                lookup "errorCode" responseData,
                lookup "errorTag" responseData with
          | Some (VStr err), Some (VNum code), Some (VStr tag) =>
              Some {| httpStatusCode := status; error := err;
                      errorCode := code; errorTag := tag |}
          | _, _, _ => None
          end
      | _, _ => None
      end
  | ThrownValue _ => None
  end.

Record TasksResult : Type := {
  tasks : list MappedTask.t;
  nextCursor : option string
}.

Definition getTasksByFilter
    (client : TodoistApi) (query : string) (limit : option Z) (cursor : option string)
    : Async TasksResult :=
  tryCatch
    (let args := {| Api.query := query; Api.lang := None;
                    Api.limit := limit; Api.cursor := cursor |} in
     page <- request (CallGetTasksByFilter args) (Api.getTasksByFilter client args) ;;
     ret {| tasks := map mapTask (Api.results page);
            nextCursor := Api.nextCursor page |})
    (fun error =>
       match ErrorSchema_safeParse error with
       | None => throw error
       | Some responseData =>
           if String.eqb (errorTag responseData) "INVALID_SEARCH_QUERY"
           then throw (newError ("Invalid filter query: " ++ query))
           else throw (newError (ToolHelpers.error responseData ++ " (tag: "
                                 ++ errorTag responseData ++ ", code: "
                                 ++ numberToString (errorCode responseData) ++ ")"))
       end).

End ToolHelpers.

(** ** src/tools/search.ts *)
Module Search.
Import Json Api McpHelpers.
Local Open Scope async_scope.

Record SearchResult : Type := {
  id : string;
  title : string;
  url : string
}.

Definition resultToJson (r : SearchResult) : JsVal :=
  VObj [("id", VStr (id r)); ("title", VStr (title r)); ("url", VStr (url r))].

Section WithUrls.
(** [buildTodoistUrl(kind, id)], from a part of [tool-helpers.ts] that is
    not among the sources. *)
Variable buildTodoistUrl : string -> string -> string.

(** [project.name.toLowerCase().includes(searchLower)] *)
Definition matchesQuery (searchLower : string) (project : Project.t) : bool :=
  Js.includes searchLower (Js.toLowerCase (Project.name project)).

(** The body of [execute] between the two requests and the encoding:
    the [results] array. *)
Definition buildResults
    (query : string) (tasks : list MappedTask.t) (projects : list Project.t)
    : list SearchResult :=
  let searchLower := Js.toLowerCase query in
  let matchingProjects := filter (matchesQuery searchLower) projects in
  let results : list SearchResult := [] in
  let results :=
    fold_left
      (fun (results : list SearchResult) (task : MappedTask.t) =>
         results ++ [{| id := "task:" ++ MappedTask.id task;
                        title := MappedTask.content task;
                        url := buildTodoistUrl "task" (MappedTask.id task) |}])%list
      tasks results in
  let results :=
    fold_left
      (fun (results : list SearchResult) (project : Project.t) =>
         results ++ [{| id := "project:" ++ Project.id project;
                        title := Project.name project;
                        url := buildTodoistUrl "project" (Project.id project) |}])%list
      matchingProjects results in
  results.

(** [arrival] is the order in which the two requests of the
    [Promise.all] are answered. *)
Definition execute (arrival : Arrival) (query : string) (client : TodoistApi)
    : Async ToolOutput :=
  tryCatch
    (both <-
       promiseAll2 arrival
         (ToolHelpers.getTasksByFilter
            client ("search: " ++ query) (Some ApiLimits.TASKS_MAX) None)
         (request (CallGetProjects ApiLimits.PROJECTS_MAX)
                  (getProjects client ApiLimits.PROJECTS_MAX)) ;;
     let tasksResult := fst both in
     let projectsResponse := snd both in
     let results :=
       buildResults query (ToolHelpers.tasks tasksResult) (results projectsResponse) in
     let jsonText := stringify (VObj [("results", VArr (map resultToJson results))]) in
     ret {| content := [{| text := jsonText |}]; isError := None |})
    (fun error =>
       let message :=
         match error with
         | ErrorInstance message _ => message
         | ThrownValue _ => "An unknown error occurred"
         end in
       ret (getErrorOutput message)).

End WithUrls.

End Search.

(** ** src/tools/fetch.ts *)
Module Fetch.
Import Json Api McpHelpers.
Local Open Scope async_scope.

Definition invalidIdMessage : string :=
  "Invalid ID format. Expected " ++ Js.dq ++ "task:{id}" ++ Js.dq ++ " or " ++ Js.dq
  ++ "project:{id}" ++ Js.dq ++ ". Example: " ++ Js.dq ++ "task:8485093748" ++ Js.dq
  ++ " or " ++ Js.dq ++ "project:6cfCcrrCFg2xP94Q" ++ Js.dq.

(** [textParts.push(part)] under a condition. *)
Definition pushIf (cond : bool) (part : string) (textParts : list string) : list string :=
  if cond then (textParts ++ [part])%list else textParts.

Section WithUrls.
Variable buildTodoistUrl : string -> string -> string.

Definition taskResult (mappedTask : MappedTask.t) : JsVal :=
  let textParts := [MappedTask.content mappedTask] in
  let textParts :=
    pushIf (Js.truthy (MappedTask.description mappedTask))
      (String (ascii_of_nat 10) (String (ascii_of_nat 10) "Description: ")
       ++ MappedTask.description mappedTask) textParts in
  let textParts :=
    match MappedTask.dueDate mappedTask with
    | Some dueDate =>
        pushIf (Js.truthy dueDate) (String (ascii_of_nat 10) "Due: " ++ dueDate) textParts
    | None => textParts
    end in
  let textParts :=
    pushIf (Nat.ltb 0 (List.length (MappedTask.labels mappedTask)))
      (String (ascii_of_nat 10) "Labels: " ++ Js.join ", " (MappedTask.labels mappedTask))
      textParts in
  VObj
    [("id", VStr ("task:" ++ MappedTask.id mappedTask));
     ("title", VStr (MappedTask.content mappedTask));
     ("text", VStr (Js.join "" textParts));
     ("url", VStr (buildTodoistUrl "task" (MappedTask.id mappedTask)));
     ("metadata",
      VObj
        [("priority", VNum (MappedTask.priority mappedTask));
         ("projectId", VStr (MappedTask.projectId mappedTask));
         ("sectionId", ofNullable (MappedTask.sectionId mappedTask));
         ("parentId", ofNullable (MappedTask.parentId mappedTask));
         ("recurring",
          match MappedTask.recurring mappedTask with
          | Some phrase => VStr phrase
          | None => VBool false
          end);
         ("duration", ofNullable (MappedTask.duration mappedTask));
         ("responsibleUid", ofNullable (MappedTask.responsibleUid mappedTask));
         ("assignedByUid", ofNullable (MappedTask.assignedByUid mappedTask))])].

Definition projectResult (mappedProject : MappedProject.t) : JsVal :=
  let textParts := [MappedProject.name mappedProject] in
  let textParts :=
    pushIf (MappedProject.isShared mappedProject)
      (String (ascii_of_nat 10) (String (ascii_of_nat 10) "Shared project")) textParts in
  let textParts :=
    pushIf (MappedProject.isFavorite mappedProject)
      (String (ascii_of_nat 10) "Favorite: Yes") textParts in
  VObj
    [("id", VStr ("project:" ++ MappedProject.id mappedProject));
     ("title", VStr (MappedProject.name mappedProject));
     ("text", VStr (Js.join "" textParts));
     ("url", VStr (buildTodoistUrl "project" (MappedProject.id mappedProject)));
     ("metadata",
      VObj
        [("color", VStr (MappedProject.color mappedProject));
         ("isFavorite", VBool (MappedProject.isFavorite mappedProject));
         ("isShared", VBool (MappedProject.isShared mappedProject));
         ("parentId", ofNullable (MappedProject.parentId mappedProject));
         ("inboxProject", VBool (MappedProject.inboxProject mappedProject));
         ("viewStyle", VStr (MappedProject.viewStyle mappedProject))])].

Definition execute (id : string) (client : TodoistApi) : Async ToolOutput :=
  tryCatch
    (let parts := Js.splitLimit ":" 2 id in
     let type := nth 0 parts "" in
     let objectId := nth_error parts 1 in
     match objectId with
     | Some objectId =>
         if negb (Js.truthy objectId)
            || (negb (String.eqb type "task") && negb (String.eqb type "project"))
         then throw (newError invalidIdMessage)
         else
           result <-
             (if String.eqb type "task"
              then
                task <- request (CallGetTask objectId) (getTask client objectId) ;;
                ret (taskResult (ToolHelpers.mapTask task))
              else
                project <- request (CallGetProject objectId) (getProject client objectId) ;;
                ret (projectResult (ToolHelpers.mapProject project))) ;;
           let jsonText := stringify result in
           ret {| content := [{| text := jsonText |}]; isError := None |}
     | None => throw (newError invalidIdMessage)
     end)
    (fun error =>
       let message :=
         match error with
         | ErrorInstance message _ => message
         | ThrownValue _ => "An unknown error occurred"
         end in
       ret (getErrorOutput message)).

End WithUrls.

(** The reading of a composite id the specification gives: the part
    before the first colon, and the remainder after it when there is a
    colon. *)
Fixpoint splitFirstColon (id : string) : string * option string :=
  match id with
  | EmptyString => (EmptyString, None)
  | String c rest =>
      if Ascii.eqb c ":" then (EmptyString, Some rest)
      else let (prefix, remainder) := splitFirstColon rest in
           (String c prefix, remainder)
  end.

(** A composite id the specification accepts. *)
Definition wellFormedId (id : string) : Prop :=
  let (prefix, remainder) := splitFirstColon id in
  (prefix = "task" \/ prefix = "project") /\
  exists objectId, remainder = Some objectId /\ objectId <> "".

(** "An envelope with [isError] true whose single text item contains
    [Invalid ID format]", returned (not thrown) before any request. *)
Definition invalidIdEnvelope (outcome : (Thrown + ToolOutput) * list Call) : Prop :=
  exists message,
    outcome = (inr {| content := [{| text := message |}]; isError := Some true |}, [])
    /\ Js.includes "Invalid ID format" message = true.

End Fetch.

(** ** The wording of the specification, for comparison with the code *)
Module Wording.
Import Json Api.

(** "The structured shape": an object carrying an HTTP status and a
    [responseData] object with an error message, an error code and an
    error tag. *)
Inductive StructuredError : Thrown -> Z -> string -> Z -> string -> Prop :=
  | structured_instance message props status responseData err code tag :
      thrownField "httpStatusCode" (ErrorInstance message props) = Some (VNum status) ->
      thrownField "responseData" (ErrorInstance message props) = Some (VObj responseData) ->
      lookup "error" responseData = Some (VStr err) ->
      lookup "errorCode" responseData = Some (VNum code) ->
      lookup "errorTag" responseData = Some (VStr tag) ->
      StructuredError (ErrorInstance message props) status err code tag
  | structured_object fields status responseData err code tag :
      lookup "httpStatusCode" fields = Some (VNum status) ->
      lookup "responseData" fields = Some (VObj responseData) ->
      lookup "error" responseData = Some (VStr err) ->
      lookup "errorCode" responseData = Some (VNum code) ->
      lookup "errorTag" responseData = Some (VStr tag) ->
      StructuredError (ThrownValue (VObj fields)) status err code tag.

(** The letters that come in two cases, each capital with its small
    letter: [A]..[Z] with [a]..[z], and the accented capitals
    U+00C0..U+00D6 and U+00D8..U+00DE with the small letters
    U+00E0..U+00F6 and U+00F8..U+00FE. *)
Definition casePairs : list (ascii * ascii) :=
  (combine (list_ascii_of_string "ABCDEFGHIJKLMNOPQRSTUVWXYZ")
           (list_ascii_of_string "abcdefghijklmnopqrstuvwxyz")
   ++ combine (map ascii_of_nat (seq 192 23)) (map ascii_of_nat (seq 224 23))
   ++ combine (map ascii_of_nat (seq 216 7)) (map ascii_of_nat (seq 248 7)))%list.

(** Two code units that are the same letter up to case: the same unit,
    or the two cases of one letter. *)
Definition sameLetter (a b : ascii) : Prop :=
  a = b \/ In (a, b) casePairs \/ In (b, a) casePairs.

(** The same, decided. *)
Definition isCasePair (a b : ascii) : bool :=
  existsb (fun pair => Ascii.eqb (fst pair) a && Ascii.eqb (snd pair) b) casePairs.

Definition sameLetterb (a b : ascii) : bool :=
  Ascii.eqb a b || isCasePair a b || isCasePair b a.

(** Every code unit of the model. *)
Definition codeUnits : list ascii := map ascii_of_nat (seq 0 256).

(** Two strings that are equal up to the case of their letters. *)
Fixpoint equalIgnoringCase (a b : string) : Prop :=
  match a, b with
  | EmptyString, EmptyString => True
  | String x a', String y b' => sameLetter x y /\ equalIgnoringCase a' b'
  | _, _ => False
  end.


(** "The mapped task's priority is inverted relative to the API": the mapped priority is the API
    priority inverted, so that the API's 4 becomes 1. *)
Definition mapTask_inverts_priority : Prop :=
  forall task : Task.t,
    (1 <= Task.priority task <= 4)%Z ->
    MappedTask.priority (ToolHelpers.mapTask task) = (5 - Task.priority task)%Z.

(** A raw task of the highest API priority. *)
Definition urgentTask : Task.t :=
  {| Task.id := "8485093748"; Task.content := "Pay the rent";
     Task.description := ""; Task.due := None; Task.priority := 4;
     Task.projectId := "6cfCcrrCFg2xP94Q"; Task.sectionId := None;
     Task.parentId := None; Task.labels := []; Task.duration := None;
     Task.responsibleUid := None; Task.assignedByUid := None |}.

End Wording.

(** ** Sample upstream services, for concrete runs *)
Module Samples.
Import Json Api.

(** The failure the API client raises for a filter it cannot parse. *)
Definition invalidQueryFailure : Thrown :=
  ErrorInstance "Request failed with status code 400"
    [("httpStatusCode", VNum 400);
     ("responseData",
      VObj [("error", VStr "Invalid search query"); ("errorCode", VNum 400);
            ("errorTag", VStr "INVALID_SEARCH_QUERY")])].

(** A structured failure with another tag. *)
Definition rateLimitFailure : Thrown :=
  ErrorInstance "Request failed with status code 429"
    [("httpStatusCode", VNum 429);
     ("responseData",
      VObj [("error", VStr "Too many requests"); ("errorCode", VNum 35);
            ("errorTag", VStr "LIMITS_REACHED")])].

(** A failure without the structured shape. *)
Definition networkFailure : Thrown := newError "socket hang up".

(** A service on which every request rejects with the same failure. *)
Definition unreachable (failure : Thrown) : TodoistApi :=
  {| getUser := inl failure;
     getTask := fun _ => inl failure;
     getProject := fun _ => inl failure;
     getProjects := fun _ => inl failure;
     getTasks := fun _ => inl failure;
     getTasksByFilter := fun _ => inl failure;
     resolveUserNameToId := fun _ => inl failure |}.

Definition task (id content : string) : Task.t :=
  {| Task.id := id; Task.content := content; Task.description := "";
     Task.due := None; Task.priority := 1; Task.projectId := "inbox";
     Task.sectionId := None; Task.parentId := None; Task.labels := [];
     Task.duration := None; Task.responsibleUid := None;
     Task.assignedByUid := None |}.

Definition project (id name : string) : Project.t :=
  {| Project.id := id; Project.name := name; Project.color := "blue";
     Project.isFavorite := false; Project.isShared := false;
     Project.viewStyle := "list";
     Project.variant := Project.PersonalProject None (Some false) |}.

(** The service of the search scenario: two tasks that match the
    filter and two projects, one of which has the query in its name. *)
Definition office : TodoistApi :=
  {| getUser := inr {| userId := "me"; email := "me@example.com" |};
     getTask := fun _ => inl networkFailure;
     getProject := fun _ => inl networkFailure;
     getProjects := fun _ =>
       inr {| results := [project "p-work" "Important Work Project";
                          project "p-test" "Test Project"];
              nextCursor := None |};
     getTasks := fun _ => inr {| results := []; nextCursor := None |};
     getTasksByFilter := fun _ =>
       inr {| results := [task "t-1" "Important meeting task";
                          task "t-2" "Another important item"];
              nextCursor := None |};
     resolveUserNameToId := fun _ => inr None |}.



(** [https://app.todoist.com/app/<kind>/<id>], the address the tests
    expect of [buildTodoistUrl]. *)
Definition appUrl (kind id : string) : string :=
  "https://app.todoist.com/app/" ++ kind ++ "/" ++ id.

End Samples.

(** ** The JavaScript [Date] and date-fns *)
Module JsDate.
Local Open Scope Z_scope.

Definition msPerDay : Z := 86400000.
Definition msPerMinute : Z := 60000.

(** A calendar date: year, month (1..12) and day of the month. *)
Record Civil : Type := {
  year : Z;
  month : Z;
  day : Z
}.

Definition isLeapYear (y : Z) : bool :=
  ((y mod 4 =? 0) && negb (y mod 100 =? 0)) || (y mod 400 =? 0).

Definition daysInMonth (y m : Z) : Z :=
  if m =? 2 then (if isLeapYear y then 29 else 28)
  else if (m =? 4) || (m =? 6) || (m =? 9) || (m =? 11) then 30
  else 31.

Definition validCivil (c : Civil) : bool :=
  (1 <=? month c) && (month c <=? 12) &&
  (1 <=? day c) && (day c <=? daysInMonth (year c) (month c)).

(** ECMAScript [DayFromYear]: the day number of 1 January of [y],
    counted from 1 January 1970. *)
Definition DayFromYear (y : Z) : Z :=
  365 * (y - 1970) + (y - 1969) / 4 - (y - 1901) / 100 + (y - 1601) / 400.

(** The days of the year [y] before its month [m]. *)
Definition daysBeforeMonth (y m : Z) : Z :=
  let leap := if isLeapYear y then 1 else 0 in
  if m <=? 1 then 0
  else if m =? 2 then 31
  else if m =? 3 then 59 + leap
  else if m =? 4 then 90 + leap
  else if m =? 5 then 120 + leap
  else if m =? 6 then 151 + leap
  else if m =? 7 then 181 + leap
  else if m =? 8 then 212 + leap
  else if m =? 9 then 243 + leap
  else if m =? 10 then 273 + leap
  else if m =? 11 then 304 + leap
  else 334 + leap.

(** ECMAScript [MakeDay] for a month within the year: the day number
    of the date; the day of the month may lie outside the month. *)
Definition MakeDay (y m d : Z) : Z :=
  DayFromYear y + daysBeforeMonth y m + d - 1.

Definition dayNumber (c : Civil) : Z := MakeDay (year c) (month c) (day c).

Definition nextDay (c : Civil) : Civil :=
  if day c <? daysInMonth (year c) (month c)
  then {| year := year c; month := month c; day := day c + 1 |}
  else if month c <? 12
       then {| year := year c; month := month c + 1; day := 1 |}
       else {| year := year c + 1; month := 1; day := 1 |}.

Definition prevDay (c : Civil) : Civil :=
  if 1 <? day c
  then {| year := year c; month := month c; day := day c - 1 |}
  else if 1 <? month c
       then {| year := year c; month := month c - 1;
               day := daysInMonth (year c) (month c - 1) |}
       else {| year := year c - 1; month := 12; day := 31 |}.

Definition epoch : Civil := {| year := 1970; month := 1; day := 1 |}.

(** ECMAScript [YearFromTime], [MonthFromTime] and [DateFromTime] of
    a day number: the calendar date that many days from the epoch. *)
Definition civilFromDay (d : Z) : Civil :=
  if 0 <=? d then Nat.iter (Z.to_nat d) nextDay epoch
  else Nat.iter (Z.to_nat (- d)) prevDay epoch.

(** A [Date]: its time value in milliseconds since the epoch, in UTC;
    [None] is the invalid date. *)
Definition Date : Type := option Z.

Definition digit (c : ascii) : option Z :=
  let n := Z.of_nat (nat_of_ascii c) in
  if (48 <=? n) && (n <=? 57) then Some (n - 48) else None.

Definition number2 (a b : ascii) : option Z :=
  match digit a, digit b with
  | Some x, Some y => Some (10 * x + y)
  | _, _ => None
  end.

Definition number4 (a b c d : ascii) : option Z :=
  match number2 a b, number2 c d with
  | Some x, Some y => Some (100 * x + y)
  | _, _ => None
  end.

(** The fields of a string of the form [YYYY-MM-DD]. *)
Definition dateFields (s : string) : option Civil :=
  match s with
  | String y1 (String y2 (String y3 (String y4 (String "-"
      (String m1 (String m2 (String "-" (String d1 (String d2 EmptyString)))))))))
    =>
      match number4 y1 y2 y3 y4, number2 m1 m2, number2 d1 d2 with
      | Some y, Some m, Some d => Some {| year := y; month := m; day := d |}
      | _, _, _ => None
      end
  | _ => None
  end.

(** [new Date(s)] for a date-only string, which is read as midnight
    UTC.  The month must be 1..12 and the day 1..31; a day beyond the end
    of the month runs into the next month, as the engine of Node has
    it. *)
Definition parse (s : string) : Date :=
  match dateFields s with
  | Some c =>
      if (1 <=? month c) && (month c <=? 12) && (1 <=? day c) && (day c <=? 31)
      then Some (dayNumber c * msPerDay)
      else None
  | None => None
  end.

Section LocalTime.
(** The offset of the local time zone of the process from UTC, in
    minutes, positive to the east; the zone has no daylight saving. *)
Variable offsetMinutes : Z.

(** ECMAScript [LocalTime] and [UTC]. *)
Definition LocalTime (t : Z) : Z := t + offsetMinutes * msPerMinute.
Definition UTC (t : Z) : Z := t - offsetMinutes * msPerMinute.

(** [getFullYear()], [getMonth() + 1] and [getDate()] of a time value. *)
Definition localCivil (t : Z) : Civil := civilFromDay (LocalTime t / msPerDay).

(** [date.setDate(dt)] *)
Definition setDate (t : Z) (dt : Z) : Z :=
  let local := LocalTime t in
  let c := civilFromDay (local / msPerDay) in
  UTC (MakeDay (year c) (month c) dt * msPerDay + local mod msPerDay).

(** date-fns [addDays(date, amount)] *)
Definition addDays (date : Date) (amount : Z) : Date :=
  match date with
  | None => None
  | Some t =>
      if amount =? 0 then Some t
      else Some (setDate t (day (localCivil t) + amount))
  end.

End LocalTime.

(** [s.padStart(targetLength, '0')] *)
Definition padStart0 (targetLength : nat) (s : string) : string :=
  Js.join "" (repeat "0" (targetLength - String.length s)) ++ s.

(** date-fns [addLeadingZeros(number, targetLength)] *)
Definition addLeadingZeros (number : Z) (targetLength : nat) : string :=
  let sign := if number <? 0 then "-" else "" in
  sign ++ padStart0 targetLength (Json.numberToString (Z.abs number)).

(** The rendering [yyyy-MM-dd] of a calendar date. *)
Definition formatCivil (c : Civil) : string :=
  addLeadingZeros (year c) 4 ++ "-" ++ addLeadingZeros (month c) 2 ++ "-"
  ++ addLeadingZeros (day c) 2.

(** date-fns [formatISO(date, { representation: 'date' })]; [None] is
    the [RangeError] thrown for an invalid date. *)
Definition formatISO (offsetMinutes : Z) (date : Date) : option string :=
  match date with
  | Some t => Some (formatCivil (localCivil offsetMinutes t))
  | None => None
  end.

End JsDate.

(** ** The envelope of the listing tools *)
Module ToolOutput.

(** The argument of [getToolOutput]: the text summary and the
    structured content (the tasks, the cursor of the next page, the count
    and [hasMore]; the echo of the arguments is the input itself). *)
Record t : Type := {
  textContent : string;
  tasks : list MappedTask.t;
  nextCursor : option string;
  totalCount : nat;
  hasMore : bool
}.

End ToolOutput.

(** ** src/tools/find-tasks-by-date.ts *)
Module FindTasksByDate.
Import Api.
Local Open Scope async_scope.

Inductive OverdueOption : Type :=
  | overdue_only
  | include_overdue
  | exclude_overdue.

Definition OverdueOption_eqb (a b : OverdueOption) : bool :=
  match a, b with
  | overdue_only, overdue_only
  | include_overdue, include_overdue
  | exclude_overdue, exclude_overdue => true
  | _, _ => false
  end.

(** [args.overdueOption === wanted] *)
Definition overdueIs (wanted : OverdueOption) (o : option OverdueOption) : bool :=
  match o with
  | Some x => OverdueOption_eqb x wanted
  | None => false
  end.

Record Args : Type := {
  startDate : option string;
  overdueOption : option OverdueOption;
  daysCount : Z;
  limit : Z;
  cursor : option string;
  responsibleUserFiltering : option FilterHelpers.ResponsibleUserFiltering;
  labels : option (list string);
  labelsOperator : option Labels.LabelsOperator
}.

Section Execute.
(** The offset of the local time zone of the process, in minutes. *)
Variable offsetMinutes : Z.
(** [generateTextContent], which rests on [response-builders.ts] and on
    the clock. *)
Variable generateTextContent : list MappedTask.t -> Args -> option string -> string.

(** The first step of [execute]: the date part of the query.  It
    throws the [RangeError] of [formatISO] on an invalid date. *)
Definition dateQuery (args : Args) : Thrown + string :=
  let query := "" in
  if overdueIs overdue_only (overdueOption args) then inr "overdue"
  else
    match startDate args with
    | Some start =>
        if String.eqb start "today"
        then inr (if overdueIs exclude_overdue (overdueOption args)
                  then "today" else "(today | overdue)")
        else if Js.truthy start
        then
          let endDate := JsDate.addDays offsetMinutes (JsDate.parse start) (daysCount args) in
          match JsDate.formatISO offsetMinutes endDate with
          | Some endDateStr =>
              inr ("(due after: " ++ start ++ " | due: " ++ start ++ ") & due before: "
                   ++ endDateStr)
          | None => inl (newError "Invalid time value")
          end
        else inr query
    | None => inr query
    end.

(** The rest of the query: labels, then the responsible-user mode. *)
Definition completeQuery (args : Args) (query : string) : string :=
  let labelsFilter := Labels.generateLabelsFilter (labels args) (labelsOperator args) in
  let query :=
    if Nat.ltb 0 (String.length labelsFilter)
    then (if Nat.ltb 0 (String.length query) then query ++ " & " else query)
         ++ "(" ++ labelsFilter ++ ")"
    else query in
  let filteringMode :=
    FilterHelpers.withDefault FilterHelpers.unassignedOrMe (responsibleUserFiltering args) in
  match filteringMode with
  | FilterHelpers.unassignedOrMe =>
      (if Nat.ltb 0 (String.length query) then query ++ " & " else query)
      ++ "!assigned to: others"
  | FilterHelpers.assigned =>
      (if Nat.ltb 0 (String.length query) then query ++ " & " else query)
      ++ "assigned to: others"
  | FilterHelpers.all => query
  end.

Definition execute (args : Args) (client : TodoistApi) : Async ToolOutput.t :=
  if negb (Js.truthyOpt (startDate args)) && negb (overdueIs overdue_only (overdueOption args))
  then throw (newError
         "Either startDate must be provided or overdueOption must be set to overdue-only")
  else
    match dateQuery args with
    | inl rangeError => throw rangeError
    | inr query =>
        let query := completeQuery args query in
        result <- ToolHelpers.getTasksByFilter client query (Some (limit args)) (cursor args) ;;
        let filteredTasks := ToolHelpers.tasks result in
        let textContent :=
          generateTextContent filteredTasks args (ToolHelpers.nextCursor result) in
        ret {| ToolOutput.textContent := textContent;
               ToolOutput.tasks := filteredTasks;
               ToolOutput.nextCursor := ToolHelpers.nextCursor result;
               ToolOutput.totalCount := List.length filteredTasks;
               ToolOutput.hasMore := Js.truthyOpt (ToolHelpers.nextCursor result) |}
    end.

End Execute.

(** The arguments of a request for the days from [start] on. *)
Definition daysFrom (start : string) (count : Z) : Args :=
  {| startDate := Some start; overdueOption := None; daysCount := count;
     limit := 50; cursor := None; responsibleUserFiltering := None;
     labels := None; labelsOperator := None |}.

End FindTasksByDate.

(** ** src/tools/find-tasks.ts *)
Module FindTasks.
Import Api.
Local Open Scope async_scope.

Record Args : Type := {
  searchText : option string;
  projectId : option string;
  sectionId : option string;
  parentId : option string;
  responsibleUser : option string;
  responsibleUserFiltering : option FilterHelpers.ResponsibleUserFiltering;
  limit : Z;
  cursor : option string;
  labels : option (list string);
  labelsOperator : option Labels.LabelsOperator
}.

Definition missingFilterMessage : string :=
  "At least one filter must be provided: searchText, projectId, sectionId, parentId, responsibleUser, or labels".

(** [resolveResponsibleUser] of [filter-helpers.ts]; the directory
    lookup of [utils/user-resolver.ts] is one request here. *)
Definition resolveResponsibleUser
    (client : TodoistApi) (responsibleUser : option string) : Async (option User) :=
  match responsibleUser with
  | Some user =>
      if Js.truthy user
      then
        resolved <- request (CallResolveUser user) (resolveUserNameToId client user) ;;
        match resolved with
        | Some r => ret (Some {| userId := userId r; email := email r |})
        | None =>
            throw (newError
                     ("Could not find user: " ++ Js.dq ++ user ++ Js.dq
                      ++ ". Make sure the user is a collaborator on a shared project."))
        end
      else ret None
  | None => ret None
  end.

(** [labels && labels.length > 0] *)
Definition hasLabels (labels : option (list string)) : bool :=
  match labels with
  | Some (_ :: _) => true
  | _ => false
  end.

(** [task.labels.includes(label)] *)
Definition hasLabel (task : MappedTask.t) (label : string) : bool :=
  existsb (String.eqb label) (MappedTask.labels task).

(** [text.toLowerCase().includes(searchText.toLowerCase())] *)
Definition mentions (searchText text : string) : bool :=
  Js.includes (Js.toLowerCase searchText) (Js.toLowerCase text).

(** [if (id) taskParams.field = id] *)
Definition whenTruthy (id : option string) : option string :=
  if Js.truthyOpt id then id else None.

Section Execute.
Variable generateTextContent :
  list MappedTask.t -> Args -> option string -> bool -> option string -> string.

Definition output (args : Args) (tasks : list MappedTask.t) (nextCursor : option string)
    (isContainerSearch : bool) (assigneeEmail : option string) : ToolOutput.t :=
  {| ToolOutput.textContent :=
       generateTextContent tasks args nextCursor isContainerSearch assigneeEmail;
     ToolOutput.tasks := tasks;
     ToolOutput.nextCursor := nextCursor;
     ToolOutput.totalCount := List.length tasks;
     ToolOutput.hasMore := Js.truthyOpt nextCursor |}.

Definition execute (args : Args) (client : TodoistApi) : Async ToolOutput.t :=
  todoistUser <- request CallGetUser (getUser client) ;;
  if negb (Js.truthyOpt (searchText args)) && negb (Js.truthyOpt (projectId args))
     && negb (Js.truthyOpt (sectionId args)) && negb (Js.truthyOpt (parentId args))
     && negb (Js.truthyOpt (responsibleUser args)) && negb (hasLabels (labels args))
  then throw (newError missingFilterMessage)
  else
    resolved <- resolveResponsibleUser client (responsibleUser args) ;;
    let resolvedAssigneeId := option_map userId resolved in
    let assigneeEmail := option_map email resolved in
    if Js.truthyOpt (projectId args) || Js.truthyOpt (sectionId args)
       || Js.truthyOpt (parentId args)
    then
      let taskParams :=
        {| tasksLimit := limit args; tasksCursor := cursor args;
           tasksProjectId := whenTruthy (projectId args);
           tasksSectionId := whenTruthy (sectionId args);
           tasksParentId := whenTruthy (parentId args) |} in
      page <- request (CallGetTasks taskParams) (getTasks client taskParams) ;;
      let mappedTasks := map ToolHelpers.mapTask (results page) in
      let filteredTasks :=
        match searchText args with
        | Some text =>
            if Js.truthy text
            then filter (fun task => mentions text (MappedTask.content task)
                                     || mentions text (MappedTask.description task))
                        mappedTasks
            else mappedTasks
        | None => mappedTasks
        end in
      let filteredTasks :=
        FilterHelpers.filterTasksByResponsibleUser MappedTask.responsibleUid
          filteredTasks resolvedAssigneeId (userId todoistUser)
          (responsibleUserFiltering args) in
      let filteredTasks :=
        match labels args with
        | Some (l :: ls) =>
            match labelsOperator args with
            | Some Labels.opAnd =>
                filter (fun task => forallb (hasLabel task) (l :: ls)) filteredTasks
            | _ =>
                filter (fun task => existsb (hasLabel task) (l :: ls)) filteredTasks
            end
        | _ => filteredTasks
        end in
      ret (output args filteredTasks (nextCursor page) true assigneeEmail)
    else if Js.truthyOpt resolvedAssigneeId && negb (Js.truthyOpt (searchText args))
            && negb (hasLabels (labels args))
    then
      let filterArgs :=
        {| query := "assigned to: "
                    ++ match assigneeEmail with Some e => e | None => "undefined" end;
           lang := Some "en"; Api.limit := Some (limit args);
           Api.cursor := cursor args |} in
      tasks <- request (CallGetTasksByFilter filterArgs) (getTasksByFilter client filterArgs) ;;
      let mappedTasks := map ToolHelpers.mapTask (results tasks) in
      ret (output args mappedTasks (nextCursor tasks) false assigneeEmail)
    else
      let query :=
        match searchText args with
        | Some text => if Js.truthy text then "search: " ++ text else ""
        | None => ""
        end in
      let labelsFilter := Labels.generateLabelsFilter (labels args) (labelsOperator args) in
      let query := FilterHelpers.appendToQuery query labelsFilter in
      result <- ToolHelpers.getTasksByFilter client query (Some (limit args)) (cursor args) ;;
      let tasks :=
        FilterHelpers.filterTasksByResponsibleUser MappedTask.responsibleUid
          (ToolHelpers.tasks result) resolvedAssigneeId (userId todoistUser)
          (responsibleUserFiltering args) in
      ret (output args tasks (ToolHelpers.nextCursor result) false assigneeEmail).

End Execute.

(** "No discriminating filter": no search text, no container, no
    responsible user, and no label. *)
Definition noFilter (args : Args) : Prop :=
  (searchText args = None \/ searchText args = Some "") /\
  (projectId args = None \/ projectId args = Some "") /\
  (sectionId args = None \/ sectionId args = Some "") /\
  (parentId args = None \/ parentId args = Some "") /\
  (responsibleUser args = None \/ responsibleUser args = Some "") /\
  (labels args = None \/ labels args = Some []).

(** The call [findTasks.execute({ limit: 10 }, client)] of the tests. *)
Definition onlyLimit : Args :=
  {| searchText := None; projectId := None; sectionId := None; parentId := None;
     responsibleUser := None; responsibleUserFiltering := None; limit := 10;
     cursor := None; labels := None; labelsOperator := None |}.

(** The default text, where the summary is not looked at. *)
Definition noSummary
    (tasks : list MappedTask.t) (args : Args) (nextCursor : option string)
    (isContainerSearch : bool) (assigneeEmail : option string) : string := "".

(** "Rejected before any network call": ends rejecting with the
    validation error, the log of requests still empty. *)
Definition rejectedBeforeAnyRequest : Prop :=
  forall generateTextContent args client,
    noFilter args ->
    run (execute generateTextContent args client)
    = (inl (newError missingFilterMessage), []).

End FindTasks.

(** ** More JavaScript text primitives *)
Module JsText.

(** The code units [\s] matches and [trim] strips, among the 8-bit
    ones: tab, line feed, vertical tab, form feed, carriage return, space
    and the no-break space. *)
Definition isWhitespace (c : ascii) : bool :=
  let n := nat_of_ascii c in
  (Nat.leb 9 n && Nat.leb n 13) || Nat.eqb n 32 || Nat.eqb n 160.

(** The line terminators, which [.] does not match. *)
Definition isLineTerminator (c : ascii) : bool :=
  let n := nat_of_ascii c in
  Nat.eqb n 10 || Nat.eqb n 13.

(** [s.trimStart()] *)
Fixpoint trimStart (s : string) : string :=
  match s with
  | EmptyString => EmptyString
  | String c rest => if isWhitespace c then trimStart rest else s
  end.

(** [s.trimEnd()] *)
Fixpoint trimEnd (s : string) : string :=
  match s with
  | EmptyString => EmptyString
  | String c rest =>
      match trimEnd rest with
      | EmptyString => if isWhitespace c then EmptyString else String c EmptyString
      | kept => String c kept
      end
  end.

(** [s.trim()] *)
Definition trim (s : string) : string := trimEnd (trimStart s).

(** [s.substring(0, n)] *)
Fixpoint take (n : nat) (s : string) : string :=
  match n, s with
  | S n', String c rest => String c (take n' rest)
  | _, _ => EmptyString
  end.

(** The first code unit is whitespace. *)
Definition startsWithWhitespace (s : string) : bool :=
  match s with
  | String c _ => isWhitespace c
  | EmptyString => false
  end.

(** The last code unit is whitespace. *)
Fixpoint endsWithWhitespace (s : string) : bool :=
  match s with
  | EmptyString => false
  | String c EmptyString => isWhitespace c
  | String _ rest => endsWithWhitespace rest
  end.

(** A literal of a pattern under the flag [i], at the start of the
    subject: each code unit must agree with the pattern up to the case of
    a letter.  What is left of the subject goes to [k]. *)
Fixpoint literalIgnoringCase {A : Type}
    (pattern s : string) (k : string -> option A) : option A :=
  match pattern with
  | EmptyString => k s
  | String p pattern' =>
      match s with
      | EmptyString => None
      | String c s' =>
          if Ascii.eqb (Js.lowerChar p) (Js.lowerChar c)
          then literalIgnoringCase pattern' s' k
          else None
      end
  end.

(** A greedy [+] over a class of code units: the longest run is tried
    first and given back one unit at a time while the rest of the pattern,
    [k], fails.  [k] takes the run matched and what is left. *)
Fixpoint oneOrMore {A : Type}
    (class : ascii -> bool) (s : string) (k : string -> string -> option A) : option A :=
  match s with
  | EmptyString => None
  | String c rest =>
      if class c
      then match oneOrMore class rest (fun run left => k (String c run) left) with
           | Some a => Some a
           | None => k (String c EmptyString) rest
           end
      else None
  end.

(** [$] without the flag [m]: the end of the subject. *)
Definition atEnd {A : Type} (s : string) (a : A) : option A :=
  match s with
  | EmptyString => Some a
  | String _ _ => None
  end.

End JsText.

(** ** src/sse-server.ts and src/http-server.ts: the credential *)
Module SseServer.

(** A header of an incoming request: one value or, for a repeated
    header, several. *)
Inductive HeaderValue : Type :=
  | Single (value : string)
  | Repeated (values : list string).

(** The two headers the servers read. *)
Record Headers : Type := {
  xTodoistToken : option HeaderValue;
  authorization : option string
}.

(** [authHeader.match(/^Bearer\s+(.+)$/i)?.[1]]: the first group of
    the match, if the header matches. *)
Definition bearerGroup (authHeader : string) : option string :=
  JsText.literalIgnoringCase "Bearer" authHeader (fun afterScheme =>
    JsText.oneOrMore JsText.isWhitespace afterScheme (fun _ afterSpace =>
      JsText.oneOrMore (fun c => negb (JsText.isLineTerminator c)) afterSpace
        (fun group left => JsText.atEnd left group))).

Definition extractTodoistToken (headers : Headers) : option string :=
  let fromAuthorization :=
    match authorization headers with
    | Some authHeader =>
        if Js.truthy authHeader
        then match bearerGroup authHeader with
             | Some group => if Js.truthy group then Some (JsText.trim group) else None
             | None => None
             end
        else None
    | None => None
    end in
  match xTodoistToken headers with
  | Some (Single customHeader) =>
      if Js.truthy customHeader then Some (JsText.trim customHeader)
      else fromAuthorization
  | Some (Repeated _) => fromAuthorization
  | None => fromAuthorization
  end.

(** What the handler of [GET /sse] does with the credential before it
    builds a server for it. *)
Inductive Admission : Type :=
  | MissingToken
  | TemplateNotSubstituted
  | Accepted (todoistApiKey : string).

Definition admission (headers : Headers) : Admission :=
  match extractTodoistToken headers with
  | Some todoistApiKey =>
      if negb (Js.truthy todoistApiKey) then MissingToken
      else if Js.includes "{{" todoistApiKey || Js.includes "}}" todoistApiKey
      then TemplateNotSubstituted
      else Accepted todoistApiKey
  | None => MissingToken
  end.

End SseServer.

(** ** src/tool-helpers.ts: the destination of a move *)
Module MoveTasks.
Import Api.

(** [MoveTaskArgs]: an object with exactly one destination. *)
Inductive MoveTaskArgs : Type :=
  | ToProject (projectId : string)
  | ToSection (sectionId : string)
  | ToParent (parentId : string).

(** [[projectId, sectionId, parentId].filter(Boolean)] *)
Definition moveParams (projectId sectionId parentId : option string) : list (option string) :=
  filter Js.truthyOpt [projectId; sectionId; parentId].

Definition tooManyMessage (taskId : string) : string :=
  "Task " ++ taskId ++ ": Only one of projectId, sectionId, or parentId can be specified at a time. The Todoist API requires exactly one destination for move operations.".

Definition noneMessage (taskId : string) : string :=
  "Task " ++ taskId ++ ": At least one of projectId, sectionId, or parentId must be provided for move operations.".

Definition unexpectedMessage : string :=
  "Unexpected error: No valid move parameter found".

(** [if (id) return { field: id }], else what follows. *)
Definition returnIfTruthy
    (id : option string) (wrap : string -> MoveTaskArgs)
    (otherwise : Thrown + MoveTaskArgs) : Thrown + MoveTaskArgs :=
  match id with
  | Some value => if Js.truthy value then inr (wrap value) else otherwise
  | None => otherwise
  end.

Definition createMoveTaskArgs
    (taskId : string) (projectId sectionId parentId : option string)
    : Thrown + MoveTaskArgs :=
  let moveParams := moveParams projectId sectionId parentId in
  if Nat.ltb 1 (List.length moveParams) then inl (newError (tooManyMessage taskId))
  else if Nat.eqb (List.length moveParams) 0 then inl (newError (noneMessage taskId))
  else
    returnIfTruthy projectId ToProject
      (returnIfTruthy sectionId ToSection
         (returnIfTruthy parentId ToParent (inl (newError unexpectedMessage)))).

(** How many of the three destinations are given. *)
Definition given (projectId sectionId parentId : option string) : nat :=
  (if Js.truthyOpt projectId then 1 else 0)
  + (if Js.truthyOpt sectionId then 1 else 0)
  + (if Js.truthyOpt parentId then 1 else 0).

End MoveTasks.

(** ** src/tools/find-activity.ts: the preview lines *)
Module FindActivity.
Import Json.

(** The fields of a mapped activity event that the preview reads. *)
Record ActivityEvent : Type := {
  objectType : string;
  objectId : string;
  eventType : string;
  eventDate : string;
  parentProjectId : option string;
  initiatorId : option string;
  extraData : option (list (string * JsVal))
}.

(** Truthiness of a value. *)
Definition truthyValue (v : JsVal) : bool :=
  match v with
  | VUndefined => false
  | VNull => false
  | VBool b => b
  | VNum n => negb (Z.eqb n 0)
  | VStr s => Js.truthy s
  | VArr _ => true
  | VObj _ => true
  end.

(** [obj.key]: [undefined] for a key the object does not have. *)
Definition property (key : string) (fields : list (string * JsVal)) : JsVal :=
  match lookup key fields with
  | Some v => v
  | None => VUndefined
  end.

(** [a || b] *)
Definition orElse (a b : JsVal) : JsVal := if truthyValue a then a else b.

(** The separator of the parts of a line, a bullet between two
    spaces (the bullet is U+2022, here in its UTF-8 bytes). *)
Definition bullet : string :=
  String " " (String (ascii_of_nat 226) (String (ascii_of_nat 128)
    (String (ascii_of_nat 162) (String " " EmptyString)))).

(** [content.length > 50 ? `${content.substring(0, 47)}...` : content] *)
Definition truncate (content : string) : string :=
  if Nat.ltb 50 (String.length content) then JsText.take 47 content ++ "..."
  else content.

(** The text an event carries, if any: the first truthy one of
    [content], [name] and [last_content], when it is a string. *)
Definition eventContent (event : ActivityEvent) : option string :=
  match extraData event with
  | Some extra =>
      match orElse (orElse (property "content" extra) (property "name" extra))
                   (property "last_content" extra) with
      | VStr content => if Js.truthy content then Some content else None
      | _ => None
      end
  | None => None
  end.

Section Preview.
(** [formatEventDate], which goes through the locale data of the
    platform. *)
Variable formatEventDate : string -> string.

Definition formatActivityEventPreview (event : ActivityEvent) : string :=
  let date := formatEventDate (eventDate event) in
  let eventLabel := eventType event ++ " " ++ objectType event in
  let contentInfo :=
    match eventContent event with
    | Some content => bullet ++ Js.dq ++ truncate content ++ Js.dq
    | None => ""
    end in
  let objectId :=
    if Js.truthy (objectId event) then bullet ++ "id=" ++ objectId event else "" in
  let initiator :=
    match initiatorId event with
    | Some id => if Js.truthy id then bullet ++ "by=" ++ id else bullet ++ "system"
    | None => bullet ++ "system"
    end in
  let projectInfo :=
    match parentProjectId event with
    | Some id => if Js.truthy id then bullet ++ "project=" ++ id else ""
    | None => ""
    end in
  "    [" ++ date ++ "] " ++ eventLabel ++ contentInfo ++ objectId ++ initiator
  ++ projectInfo.

(** The lines shown: [events.slice(0, limit).map(...)]. *)
Definition previewLines (events : list ActivityEvent) (limit : nat) : list string :=
  map formatActivityEventPreview (firstn limit events).

Definition previewActivityEvents (events : list ActivityEvent) (limit : nat) : string :=
  let lines := Js.join (String (ascii_of_nat 10) EmptyString) (previewLines events limit) in
  if Nat.ltb limit (List.length events)
  then
    let remaining := List.length events - limit in
    lines ++ String (ascii_of_nat 10) "    ... and "
    ++ numberToString (Z.of_nat remaining) ++ " more event"
    ++ (if Nat.eqb remaining 1 then "" else "s")
  else lines.

End Preview.

End FindActivity.

(** ** Readings of the outcomes, for the statements below *)
Module Outcomes.

(** What the [catch] of [fetch] and [search] makes of a thrown value:
    the message of an [Error], a fixed text for anything else. *)
Definition caughtMessage (failure : Api.Thrown) : string :=
  match failure with
  | Api.ErrorInstance message _ => message
  | Api.ThrownValue _ => "An unknown error occurred"
  end.

(** The envelope of a successful [search] or [fetch]: one text item
    holding the JSON encoding of [payload], and no error flag. *)
Definition jsonEnvelope (payload : Json.JsVal) : McpHelpers.ToolOutput :=
  {| McpHelpers.content := [{| McpHelpers.text := Json.stringify payload |}];
     McpHelpers.isError := None |}.

(** The text of a fetched task: the content, then the sections that
    are present, in their fixed order. *)
Definition taskText (task : MappedTask.t) : string :=
  MappedTask.content task
  ++ (if Js.truthy (MappedTask.description task)
      then String (ascii_of_nat 10) (String (ascii_of_nat 10) "Description: ")
           ++ MappedTask.description task
      else "")
  ++ match MappedTask.dueDate task with
     | Some dueDate =>
         if Js.truthy dueDate then String (ascii_of_nat 10) "Due: " ++ dueDate else ""
     | None => ""
     end
  ++ match MappedTask.labels task with
     | [] => ""
     | labels => String (ascii_of_nat 10) "Labels: " ++ String.concat ", " labels
     end.

(** The value of a field of an object, [None] for anything else. *)
Definition field (key : string) (v : Json.JsVal) : option Json.JsVal :=
  match v with
  | Json.VObj fields => Json.lookup key fields
  | _ => None
  end.

End Outcomes.

(** ** Variations of arguments, for the statements below *)
Module Variants.

(** The same request for another number of days. *)
Definition withDaysCount (n : Z) (args : FindTasksByDate.Args) : FindTasksByDate.Args :=
  {| FindTasksByDate.startDate := FindTasksByDate.startDate args;
     FindTasksByDate.overdueOption := FindTasksByDate.overdueOption args;
     FindTasksByDate.daysCount := n;
     FindTasksByDate.limit := FindTasksByDate.limit args;
     FindTasksByDate.cursor := FindTasksByDate.cursor args;
     FindTasksByDate.responsibleUserFiltering :=
       FindTasksByDate.responsibleUserFiltering args;
     FindTasksByDate.labels := FindTasksByDate.labels args;
     FindTasksByDate.labelsOperator := FindTasksByDate.labelsOperator args |}.

(** The label expression as [find-tasks-by-date] appends it: wrapped
    in one more pair of parentheses, or nothing without labels. *)
Definition wrappedLabels (args : FindTasksByDate.Args) : string :=
  let labelsFilter :=
    Labels.generateLabelsFilter (FindTasksByDate.labels args)
      (FindTasksByDate.labelsOperator args) in
  if Js.isEmpty labelsFilter then "" else "(" ++ labelsFilter ++ ")".

(** The request [find-tasks-by-date] sends for a query. *)
Definition dateRequest (args : FindTasksByDate.Args) (query : string) : Api.Call :=
  Api.CallGetTasksByFilter
    {| Api.query := query; Api.lang := None;
       Api.limit := Some (FindTasksByDate.limit args);
       Api.cursor := FindTasksByDate.cursor args |}.

(** A start date that has the form [YYYY-MM-DD] but names no month
    1..12 or no day 1..31. *)
Definition outOfCalendar (c : JsDate.Civil) : Prop :=
  (JsDate.month c < 1 \/ 12 < JsDate.month c \/ JsDate.day c < 1 \/ 31 < JsDate.day c)%Z.

End Variants.

(** ** The routes of find-tasks, for the statements below *)
Module Routes.
Import Api.

(** [projectId || sectionId || parentId]: the request names a
    container. *)
Definition hasContainer (args : FindTasks.Args) : bool :=
  Js.truthyOpt (FindTasks.projectId args) || Js.truthyOpt (FindTasks.sectionId args)
  || Js.truthyOpt (FindTasks.parentId args).

(** The parameters of the container listing. *)
Definition containerParams (args : FindTasks.Args) : GetTasksArgs :=
  {| tasksLimit := FindTasks.limit args; tasksCursor := FindTasks.cursor args;
     tasksProjectId := FindTasks.whenTruthy (FindTasks.projectId args);
     tasksSectionId := FindTasks.whenTruthy (FindTasks.sectionId args);
     tasksParentId := FindTasks.whenTruthy (FindTasks.parentId args) |}.

(** The search text, when there is one, occurs in the content or in the
    description of the task, letter case aside. *)
Definition passesText (args : FindTasks.Args) (task : MappedTask.t) : bool :=
  match FindTasks.searchText args with
  | Some text =>
      if Js.truthy text
      then FindTasks.mentions text (MappedTask.content task)
           || FindTasks.mentions text (MappedTask.description task)
      else true
  | None => true
  end.


(** The task is unassigned or assigned to the current user, unless the
    mode asks for no such restriction. *)
Definition passesAssignment
    (args : FindTasks.Args) (currentUserId : string) (task : MappedTask.t) : bool :=
  match FindTasks.responsibleUserFiltering args with
  | Some FilterHelpers.assigned => true
  | Some FilterHelpers.all => true
  | _ => FilterHelpers.unassignedOrMine MappedTask.responsibleUid currentUserId task
  end.


(** The same, as the code computes it. *)
Definition passesLabels (args : FindTasks.Args) (task : MappedTask.t) : bool :=
  match FindTasks.labels args with
  | Some (l :: ls) =>
      match FindTasks.labelsOperator args with
      | Some Labels.opAnd => forallb (FindTasks.hasLabel task) (l :: ls)
      | _ => existsb (FindTasks.hasLabel task) (l :: ls)
      end
  | _ => true
  end.

(** The query of the filter route: the search text, then the label
    expression. *)
Definition filterQuery (args : FindTasks.Args) : string :=
  FilterHelpers.appendToQuery
    match FindTasks.searchText args with
    | Some text => if Js.truthy text then "search: " ++ text else ""
    | None => ""
    end
    (Labels.generateLabelsFilter (FindTasks.labels args) (FindTasks.labelsOperator args)).

(** The message for a responsible user nobody answers to. *)
Definition userNotFoundMessage (user : string) : string :=
  "Could not find user: " ++ Js.dq ++ user ++ Js.dq
  ++ ". Make sure the user is a collaborator on a shared project.".

End Routes.

(** ** A second sample service, with labels and assignees *)
Module Household.
Import Api.

Definition chore (id content : string) (labels : list string)
    (responsibleUid : option string) : Task.t :=
  {| Task.id := id; Task.content := content; Task.description := "";
     Task.due := None; Task.priority := 1; Task.projectId := "home";
     Task.sectionId := None; Task.parentId := None; Task.labels := labels;
     Task.duration := None; Task.responsibleUid := responsibleUid;
     Task.assignedByUid := None |}.

Definition chores : list Task.t :=
  [chore "c-1" "Buy milk" ["errand"] None;
   chore "c-2" "Call the plumber" ["home"; "errand"] (Some "u-ann");
   chore "c-3" "Milk the cow" [] (Some "me")].

(** A chore that comes back every Monday. *)
Definition weekly : Task.t :=
  {| Task.id := "c-4"; Task.content := "Take out the bins"; Task.description := "";
     Task.due := Some {| Task.date := "2025-08-18"; Task.isRecurring := true;
                         Task.string := "every monday" |};
     Task.priority := 1; Task.projectId := "home";
     Task.sectionId := None; Task.parentId := None; Task.labels := [];
     Task.duration := None; Task.responsibleUid := None;
     Task.assignedByUid := None |}.

(** The directory knows Ann and nobody else. *)
Definition service : TodoistApi :=
  {| getUser := inr {| userId := "me"; email := "me@example.com" |};
     getTask := fun _ => inl (newError "not found");
     getProject := fun _ => inl (newError "not found");
     getProjects := fun _ => inr {| results := []; nextCursor := None |};
     getTasks := fun _ => inr {| results := chores; nextCursor := Some "next" |};
     getTasksByFilter := fun _ => inr {| results := chores; nextCursor := None |};
     resolveUserNameToId := fun name =>
       if String.eqb name "ann"
       then inr (Some {| userId := "u-ann"; email := "ann@example.com" |})
       else inr None |}.

(** No filter but the ones set afterwards. *)
Definition request
    (searchText projectId responsibleUser : option string) (labels : option (list string))
    : FindTasks.Args :=
  {| FindTasks.searchText := searchText; FindTasks.projectId := projectId;
     FindTasks.sectionId := None; FindTasks.parentId := None;
     FindTasks.responsibleUser := responsibleUser;
     FindTasks.responsibleUserFiltering := None; FindTasks.limit := 10;
     FindTasks.cursor := None; FindTasks.labels := labels;
     FindTasks.labelsOperator := None |}.

End Household.

(** * Properties *)

(** ** appendToQuery *)

Ltac easy_case :=
  first [ reflexivity
        | congruence
        | let H := fresh in intros H; contradiction H; reflexivity ].

Lemma isEmpty_true_iff (s : string) : Js.isEmpty s = true <-> s = "".
Proof.
  unfold Js.isEmpty. destruct s; simpl; split; intro H; try reflexivity; discriminate.
Qed.

Lemma isEmpty_false_iff (s : string) : Js.isEmpty s = false <-> s <> "".
Proof.
  unfold Js.isEmpty. destruct s; simpl; split; intro H; congruence.
Qed.

Lemma startsWith_char_append (c : ascii) (a b : string) :
  a <> "" -> Js.startsWith (String c "") (a ++ b) = Js.startsWith (String c "") a.
Proof.
  destruct a as [|x a]; [congruence|]. intros _. reflexivity.
Qed.

Lemma endsWithChar_append (c : ascii) (a b : string) :
  b <> "" -> Js.endsWithChar c (a ++ b) = Js.endsWithChar c b.
Proof.
  intros Hb. induction a as [|x a IH]; [reflexivity|].
  simpl. destruct (a ++ b) eqn:E.
  - destruct a; simpl in E; [congruence | discriminate].
  - exact IH.
Qed.

(** C9.  [appendToQuery q c] is [q] when [c] is empty, [c] when [q] is
    empty, and [q & c] otherwise; the empty string is a two-sided
    identity; and the result starts (ends) with the operator [&] only if
    [q] or [c] already does. *)
Theorem appendToQuery_spec (q c : string) :
  (c = "" -> FilterHelpers.appendToQuery q c = q) /\
  (c <> "" -> q = "" -> FilterHelpers.appendToQuery q c = c) /\
  (c <> "" -> q <> "" -> FilterHelpers.appendToQuery q c = q ++ " & " ++ c) /\
  FilterHelpers.appendToQuery "" c = c /\
  FilterHelpers.appendToQuery q "" = q /\
  (Js.startsWith "&" q = false -> Js.startsWith "&" c = false ->
   Js.startsWith "&" (FilterHelpers.appendToQuery q c) = false) /\
  (Js.endsWithChar "&" q = false -> Js.endsWithChar "&" c = false ->
   Js.endsWithChar "&" (FilterHelpers.appendToQuery q c) = false).
Proof.
  unfold FilterHelpers.appendToQuery.
  fold (Js.isEmpty c). fold (Js.isEmpty q).
  destruct (Js.isEmpty c) eqn:Ec.
  - apply isEmpty_true_iff in Ec. subst c.
    repeat (split; [easy_case|]). easy_case.
  - pose proof Ec as Hc. apply isEmpty_false_iff in Hc.
    destruct (Js.isEmpty q) eqn:Eq.
    + apply isEmpty_true_iff in Eq. subst q.
      repeat (split; [easy_case|]). easy_case.
    + pose proof Eq as Hq. apply isEmpty_false_iff in Hq.
      do 3 (split; [easy_case|]).
      split; [destruct c; [congruence | reflexivity]|].
      split; [easy_case|]. split.
      * intros Hs _. rewrite startsWith_char_append by assumption. exact Hs.
      * intros _ He.
        rewrite endsWithChar_append by (destruct c; [congruence | discriminate]).
        destruct c as [|x c]; [congruence|]. exact He.
Qed.

Lemma appendToQuery_spec_witness :
  FilterHelpers.appendToQuery "search: milk" "(@work)" = "search: milk & (@work)" /\
  Js.startsWith "&" (FilterHelpers.appendToQuery "search: milk" "(@work)") = false.
Proof.
  destruct (appendToQuery_spec "search: milk" "(@work)") as (_ & _ & H3 & _ & _ & H6 & _).
  split.
  - apply H3; discriminate.
  - apply H6; reflexivity.
Defined.

(** ** filterTasksByResponsibleUser *)

Section FilterProps.
Context {T : Type} (responsibleUid : T -> option string).

Lemma truthy_true_iff (s : string) : Js.truthy s = true <-> s <> "".
Proof.
  unfold Js.truthy. rewrite negb_true_iff. apply isEmpty_false_iff.
Qed.

Lemma assignedTo_iff (id : string) (t : T) :
  FilterHelpers.assignedTo responsibleUid id t = true <-> responsibleUid t = Some id.
Proof.
  unfold FilterHelpers.assignedTo. destruct (responsibleUid t) as [uid|].
  - rewrite String.eqb_eq. split; congruence.
  - split; discriminate.
Qed.

Lemma unassignedOrMine_iff (me : string) (t : T) :
  FilterHelpers.unassignedOrMine responsibleUid me t = true <->
  responsibleUid t = None \/ responsibleUid t = Some "" \/ responsibleUid t = Some me.
Proof.
  unfold FilterHelpers.unassignedOrMine.
  rewrite orb_true_iff, assignedTo_iff, negb_true_iff.
  destruct (responsibleUid t) as [uid|]; simpl.
  - rewrite <- not_true_iff_false, truthy_true_iff.
    destruct (string_dec uid "") as [->|Hne]; split.
    + auto.
    + intros _. left. intros H. apply H. reflexivity.
    + intros [H|H]; [contradiction|auto].
    + intros [H|[H|H]]; [discriminate | congruence | auto].
  - split; auto.
Qed.

(** C4.  With a (non-empty) resolved assignee the result is exactly the
    tasks whose [responsibleUid] is that id, in their order, whatever the
    mode; without one, mode [unassignedOrMe] (also the default) keeps
    exactly the tasks whose [responsibleUid] is null, empty or the
    current user, and modes [assigned] and [all] return the list as it
    is. *)
Theorem filterTasksByResponsibleUser_spec (tasks : list T) (currentUserId : string) :
  (forall id mode, id <> "" ->
     FilterHelpers.filterTasksByResponsibleUser
       responsibleUid tasks (Some id) currentUserId mode
     = filter (FilterHelpers.assignedTo responsibleUid id) tasks /\
     forall t,
       In t (FilterHelpers.filterTasksByResponsibleUser
               responsibleUid tasks (Some id) currentUserId mode)
       <-> In t tasks /\ responsibleUid t = Some id) /\
  (forall mode, mode = None \/ mode = Some FilterHelpers.unassignedOrMe ->
     FilterHelpers.filterTasksByResponsibleUser
       responsibleUid tasks None currentUserId mode
     = filter (FilterHelpers.unassignedOrMine responsibleUid currentUserId) tasks /\
     forall t,
       In t (FilterHelpers.filterTasksByResponsibleUser
               responsibleUid tasks None currentUserId mode)
       <-> In t tasks /\
           (responsibleUid t = None \/ responsibleUid t = Some "" \/
            responsibleUid t = Some currentUserId)) /\
  FilterHelpers.filterTasksByResponsibleUser
    responsibleUid tasks None currentUserId (Some FilterHelpers.assigned) = tasks /\
  FilterHelpers.filterTasksByResponsibleUser
    responsibleUid tasks None currentUserId (Some FilterHelpers.all) = tasks.
Proof.
  split; [|split; [|split; reflexivity]].
  - intros id mode Hid.
    assert (E : FilterHelpers.filterTasksByResponsibleUser
                  responsibleUid tasks (Some id) currentUserId mode
                = filter (FilterHelpers.assignedTo responsibleUid id) tasks).
    { unfold FilterHelpers.filterTasksByResponsibleUser.
      apply truthy_true_iff in Hid. rewrite Hid. reflexivity. }
    split; [exact E|]. intros t. rewrite E, filter_In, assignedTo_iff. reflexivity.
  - intros mode Hmode.
    assert (E : FilterHelpers.filterTasksByResponsibleUser
                  responsibleUid tasks None currentUserId mode
                = filter (FilterHelpers.unassignedOrMine responsibleUid currentUserId) tasks).
    { destruct Hmode as [->| ->]; reflexivity. }
    split; [exact E|]. intros t. rewrite E, filter_In, unassignedOrMine_iff. reflexivity.
Qed.
End FilterProps.

Lemma filterTasksByResponsibleUser_spec_witness :
  FilterHelpers.filterTasksByResponsibleUser
    (fun uid : option string => uid) [Some "me"; Some "other"; None] (Some "other") "me"
    (Some FilterHelpers.all)
  = [Some "other"] /\
  FilterHelpers.filterTasksByResponsibleUser
    (fun uid : option string => uid) [Some "me"; Some "other"; None] None "me" None
  = [Some "me"; None].
Proof.
  destruct (filterTasksByResponsibleUser_spec
              (fun uid : option string => uid) [Some "me"; Some "other"; None] "me")
    as (H1 & H2 & _).
  split.
  - destruct (H1 "other" (Some FilterHelpers.all)) as [E _]; [discriminate|].
    rewrite E. reflexivity.
  - destruct (H2 None) as [E _]; [left; reflexivity|].
    rewrite E. reflexivity.
Defined.

(** ** generateLabelsFilter *)

(** Stripping a leading [@] and adding it back leaves an [@]-prefixed
    label as it is and prefixes any other. *)
Lemma normalised_label (l : string) :
  "@" ++ Labels.stripAt l = if Js.startsWith "@" l then l else "@" ++ l.
Proof.
  destruct l as [|c l]; [reflexivity|].
  unfold Labels.stripAt. simpl.
  destruct (Ascii.eqb_spec "@"%char c) as [<-|Hne]; [reflexivity|].
  destruct c as [[] [] [] [] [] [] [] []]; reflexivity.
Qed.

(** C8.  The label expression is empty for no labels, [(@x)] for one
    label, and for several labels one parenthesised fragment joining the
    [@]-prefixed labels with [  &  ] or [  |  ] (two spaces on each
    side); the operator defaults to [or]. *)
Theorem generateLabelsFilter_spec :
  (forall op, Labels.generateLabelsFilter None op = "" /\
              Labels.generateLabelsFilter (Some []) op = "") /\
  (forall x op,
     Labels.generateLabelsFilter (Some [x]) op = "(@" ++ Labels.stripAt x ++ ")") /\
  (forall x y ls,
     Labels.generateLabelsFilter (Some (x :: y :: ls)) (Some Labels.opAnd)
     = "(" ++ String.concat "  &  " (map (fun l => "@" ++ Labels.stripAt l) (x :: y :: ls))
           ++ ")" /\
     Labels.generateLabelsFilter (Some (x :: y :: ls)) (Some Labels.opOr)
     = "(" ++ String.concat "  |  " (map (fun l => "@" ++ Labels.stripAt l) (x :: y :: ls))
           ++ ")" /\
     Labels.generateLabelsFilter (Some (x :: y :: ls)) None
     = Labels.generateLabelsFilter (Some (x :: y :: ls)) (Some Labels.opOr)) /\
  Labels.generateLabelsFilter (Some ["work"; "urgent"]) (Some Labels.opAnd)
  = "(@work  &  @urgent)" /\
  Labels.generateLabelsFilter (Some ["work"; "urgent"]) None = "(@work  |  @urgent)" /\
  Labels.generateLabelsFilter (Some ["work"]) None = "(@work)" /\
  Labels.generateLabelsFilter (Some ["@work"]) None = "(@work)".
Proof.
  split; [intros op; split; reflexivity|].
  split; [intros x [[]|]; reflexivity|].
  split; [intros x y ls; repeat split; reflexivity|].
  repeat split; reflexivity.
Qed.

(** ** removeNullFields *)


Lemma removeNullFields_obj (fields : list (string * Json.JsVal)) :
  Sanitize.removeNullFields (Json.VObj fields) = Json.VObj (Sanitize.sanitizeEntries fields).
Proof.
  reflexivity.
Qed.

Lemma sanitizeEntries_survivors (fields : list (string * Json.JsVal)) :
  Sanitize.sanitizeEntries fields
  = map (fun kv => (fst kv, Sanitize.removeNullFields (snd kv)))
        (filter Sanitize.survives fields).
Proof.
  induction fields as [|[k v] rest IH]; [reflexivity|].
  unfold Sanitize.survives at 1. cbn [Sanitize.sanitizeEntries filter fst snd].
  rewrite IH. fold Sanitize.survives.
  destruct v; try reflexivity;
    cbn [Sanitize.isNull negb andb];
    destruct (Sanitize.isEmptyArray _); try reflexivity;
    destruct (Sanitize.isEmptyObject _); reflexivity.
Qed.

Lemma removeNullFields_isNull (v : Json.JsVal) :
  Sanitize.isNull (Sanitize.removeNullFields v) = Sanitize.isNull v.
Proof. destruct v; reflexivity. Qed.

Lemma removeNullFields_sanitized (v : Json.JsVal) :
  Sanitize.sanitizedValue (Sanitize.removeNullFields v) = true.
Proof.
  induction v as [| | | | |items IH|fields IH] using Json.JsVal_nested_ind; try reflexivity.
  - simpl. induction IH as [|x rest Hx _ IHrest]; [reflexivity|].
    simpl. rewrite Hx. exact IHrest.
  - rewrite removeNullFields_obj. simpl.
    induction IH as [|[k x] rest Hx _ IHrest]; [reflexivity|].
    simpl in Hx. cbn [Sanitize.sanitizeEntries].
    destruct (Sanitize.isNull x) eqn:En.
    + destruct x; try discriminate. exact IHrest.
    + assert (Hstep :
        forallb (fun kv : string * Json.JsVal =>
                   let '(_, y) := kv in
                   negb (Sanitize.isNull y) && negb (Sanitize.isEmptyArray y) &&
                   negb (Sanitize.isEmptyObject y) && Sanitize.sanitizedValue y)
          (if Sanitize.isEmptyArray (Sanitize.removeNullFields x)
           then Sanitize.sanitizeEntries rest
           else if Sanitize.isEmptyObject (Sanitize.removeNullFields x)
                then Sanitize.sanitizeEntries rest
                else (k, Sanitize.removeNullFields x) :: Sanitize.sanitizeEntries rest)
        = true).
      { destruct (Sanitize.isEmptyArray (Sanitize.removeNullFields x)) eqn:Ea;
          [exact IHrest|].
        destruct (Sanitize.isEmptyObject (Sanitize.removeNullFields x)) eqn:Eo;
          [exact IHrest|].
        cbn [forallb]. rewrite removeNullFields_isNull, En, Ea, Eo, Hx. exact IHrest. }
      destruct x; try discriminate; exact Hstep.
Qed.

(** C10.  [removeNullFields] returns [null] and [undefined] as they are,
    leaves scalars alone, maps over arrays in order, keeps of an object
    exactly the fields whose value is not [null] and does not clean to an
    empty array or object, each with its cleaned value, and its result
    has, at every depth, no field holding [null], an empty object or an
    empty array. *)
Theorem removeNullFields_spec :
  Sanitize.removeNullFields Json.VNull = Json.VNull /\
  Sanitize.removeNullFields Json.VUndefined = Json.VUndefined /\
  (forall b, Sanitize.removeNullFields (Json.VBool b) = Json.VBool b) /\
  (forall n, Sanitize.removeNullFields (Json.VNum n) = Json.VNum n) /\
  (forall s, Sanitize.removeNullFields (Json.VStr s) = Json.VStr s) /\
  (forall items,
     Sanitize.removeNullFields (Json.VArr items)
     = Json.VArr (map Sanitize.removeNullFields items)) /\
  (forall fields,
     Sanitize.removeNullFields (Json.VObj fields)
     = Json.VObj (map (fun kv => (fst kv, Sanitize.removeNullFields (snd kv)))
                      (filter Sanitize.survives fields))) /\
  (forall v, Sanitize.sanitizedValue (Sanitize.removeNullFields v) = true).
Proof.
  do 6 (split; [reflexivity|]).
  split.
  - intros fields. rewrite removeNullFields_obj, sanitizeEntries_survivors. reflexivity.
  - exact removeNullFields_sanitized.
Qed.

(** The nested example of the test-suite: empty objects and arrays are
    dropped at every depth, also inside array elements. *)
Example removeNullFields_nested_example :
  Sanitize.removeNullFields
    (Json.VObj
       [("name", Json.VStr "Test"); ("metadata", Json.VObj []); ("tags", Json.VArr []);
        ("nested",
         Json.VObj [("data", Json.VStr "value"); ("emptyObj", Json.VObj []);
                    ("emptyArr", Json.VArr []);
                    ("deepNested", Json.VObj [("anotherEmpty", Json.VObj [])])]);
        ("items",
         Json.VArr [Json.VObj [("id", Json.VNum 1); ("data", Json.VStr "test");
                               ("empty", Json.VObj [])];
                    Json.VObj [("id", Json.VNum 2); ("list", Json.VArr [])]])])
  = Json.VObj
      [("name", Json.VStr "Test");
       ("nested", Json.VObj [("data", Json.VStr "value")]);
       ("items",
        Json.VArr [Json.VObj [("id", Json.VNum 1); ("data", Json.VStr "test")];
                   Json.VObj [("id", Json.VNum 2)]])].
Proof. reflexivity. Qed.

(** ** getTasksByFilter: upstream failures *)

Lemma safeParse_structured (e : Api.Thrown) (data : ToolHelpers.ErrorData) :
  ToolHelpers.ErrorSchema_safeParse e = Some data <->
  Wording.StructuredError e
    (ToolHelpers.httpStatusCode data) (ToolHelpers.error data)
    (ToolHelpers.errorCode data) (ToolHelpers.errorTag data).
Proof.
  split.
  - unfold ToolHelpers.ErrorSchema_safeParse. intros H.
    destruct e as [message props|v].
    + destruct (Api.thrownField "httpStatusCode" _) as [[]|] eqn:E1; try discriminate.
      destruct (Api.thrownField "responseData" _) as [[]|] eqn:E2; try discriminate.
      destruct (Json.lookup "error" _) as [[]|] eqn:E3; try discriminate.
      destruct (Json.lookup "errorCode" _) as [[]|] eqn:E4; try discriminate.
      destruct (Json.lookup "errorTag" _) as [[]|] eqn:E5; try discriminate.
      injection H as <-. simpl. econstructor; eassumption.
    + destruct v; try discriminate. simpl in H.
      destruct (Json.lookup "httpStatusCode" _) as [[]|] eqn:E1; try discriminate.
      destruct (Json.lookup "responseData" _) as [[]|] eqn:E2; try discriminate.
      destruct (Json.lookup "error" _) as [[]|] eqn:E3; try discriminate.
      destruct (Json.lookup "errorCode" _) as [[]|] eqn:E4; try discriminate.
      destruct (Json.lookup "errorTag" _) as [[]|] eqn:E5; try discriminate.
      injection H as <-. simpl. econstructor; eassumption.
  - destruct data as [status err code tag]. simpl. intros H.
    inversion H as [message props s rd m c t H1 H2 H3 H4 H5
                   |fields s rd m c t H1 H2 H3 H4 H5]; subst;
      unfold ToolHelpers.ErrorSchema_safeParse.
    + rewrite H1, H2, H3, H4, H5. reflexivity.
    + simpl. rewrite H1, H2, H3, H4, H5. reflexivity.
Qed.

(** C6.  When the upstream filter request fails: a failure of the
    structured shape tagged [INVALID_SEARCH_QUERY] is replaced by an
    error saying [Invalid filter query: <query>] for the query sent; a
    structured failure with another tag by an error saying
    [<message> (tag: <tag>, code: <code>)], the code, a safe integer,
    written with all its digits; any other failure is thrown again as
    it is. *)
Theorem getTasksByFilter_failure
    (client : Api.TodoistApi) (query : string) (limit : option Z)
    (cursor : option string) (failure : Api.Thrown) (log : list Api.Call) :
  let args := {| Api.query := query; Api.lang := None;
                 Api.limit := limit; Api.cursor := cursor |} in
  Api.getTasksByFilter client args = inl failure ->
  (forall status err code tag,
     Wording.StructuredError failure status err code tag ->
     tag = "INVALID_SEARCH_QUERY" ->
     fst (ToolHelpers.getTasksByFilter client query limit cursor log)
     = inl (Api.newError ("Invalid filter query: " ++ query))) /\
  (forall status err code tag,
     Wording.StructuredError failure status err code tag ->
     tag <> "INVALID_SEARCH_QUERY" ->
     Json.isSafeInteger code = true ->
     fst (ToolHelpers.getTasksByFilter client query limit cursor log)
     = inl (Api.newError (err ++ " (tag: " ++ tag ++ ", code: "
                          ++ Json.numberToString code ++ ")"))) /\
  ((forall status err code tag,
      ~ Wording.StructuredError failure status err code tag) ->
   fst (ToolHelpers.getTasksByFilter client query limit cursor log) = inl failure).
Proof.
  intros args Hfail.
  assert (Hrun :
    ToolHelpers.getTasksByFilter client query limit cursor log
    = match ToolHelpers.ErrorSchema_safeParse failure with
      | None => (inl failure, (log ++ [Api.CallGetTasksByFilter args])%list)
      | Some responseData =>
          if String.eqb (ToolHelpers.errorTag responseData) "INVALID_SEARCH_QUERY"
          then (inl (Api.newError ("Invalid filter query: " ++ query)),
                (log ++ [Api.CallGetTasksByFilter args])%list)
          else (inl (Api.newError
                       (ToolHelpers.error responseData ++ " (tag: "
                        ++ ToolHelpers.errorTag responseData ++ ", code: "
                        ++ Json.numberToString (ToolHelpers.errorCode responseData)
                        ++ ")")),
                (log ++ [Api.CallGetTasksByFilter args])%list)
      end).
  { unfold ToolHelpers.getTasksByFilter, Api.tryCatch, Api.bind, Api.request.
    fold args. rewrite Hfail.
    destruct (ToolHelpers.ErrorSchema_safeParse failure) as [data|]; [|reflexivity].
    destruct (String.eqb _ _); reflexivity. }
  rewrite Hrun. clear Hrun.
  split; [|split].
  - intros status err code tag Hs Htag.
    pose proof (proj2 (safeParse_structured failure
      {| ToolHelpers.httpStatusCode := status; ToolHelpers.error := err;
         ToolHelpers.errorCode := code; ToolHelpers.errorTag := tag |}) Hs) as ->.
    simpl. subst tag. reflexivity.
  - intros status err code tag Hs Htag _.
    pose proof (proj2 (safeParse_structured failure
      {| ToolHelpers.httpStatusCode := status; ToolHelpers.error := err;
         ToolHelpers.errorCode := code; ToolHelpers.errorTag := tag |}) Hs) as ->.
    simpl. apply String.eqb_neq in Htag. rewrite Htag. reflexivity.
  - intros Hnone.
    destruct (ToolHelpers.ErrorSchema_safeParse failure) as [data|] eqn:E; [|reflexivity].
    apply safeParse_structured in E. exfalso. exact (Hnone _ _ _ _ E).
Qed.

Lemma getTasksByFilter_failure_witness :
  fst (ToolHelpers.getTasksByFilter
         (Samples.unreachable Samples.invalidQueryFailure) "search: (" None None [])
  = inl (Api.newError "Invalid filter query: search: (") /\
  fst (ToolHelpers.getTasksByFilter
         (Samples.unreachable Samples.rateLimitFailure) "today" None None [])
  = inl (Api.newError "Too many requests (tag: LIMITS_REACHED, code: 35)") /\
  fst (ToolHelpers.getTasksByFilter
         (Samples.unreachable Samples.networkFailure) "today" None None [])
  = inl Samples.networkFailure.
Proof.
  split; [|split].
  - refine (proj1 (getTasksByFilter_failure
                     (Samples.unreachable Samples.invalidQueryFailure)
                     "search: (" None None Samples.invalidQueryFailure [] eq_refl)
                  400%Z "Invalid search query" 400%Z "INVALID_SEARCH_QUERY" _ eq_refl).
    econstructor; reflexivity.
  - refine (proj1 (proj2 (getTasksByFilter_failure
                     (Samples.unreachable Samples.rateLimitFailure)
                     "today" None None Samples.rateLimitFailure [] eq_refl))
                  429%Z "Too many requests" 35%Z "LIMITS_REACHED" _ _ eq_refl).
    + econstructor; reflexivity.
    + discriminate.
  - refine (proj2 (proj2 (getTasksByFilter_failure
                     (Samples.unreachable Samples.networkFailure)
                     "today" None None Samples.networkFailure [] eq_refl)) _).
    intros status err code tag H. inversion H; discriminate.
Defined.

(** ** mapTask: the priority field *)

(** Against C7 as it is written.  A task of API priority 4 (the
    highest) is mapped to priority 4, not to 1. *)
Lemma mapTask_priority_not_inverted :
  Task.priority Wording.urgentTask = 4%Z /\
  MappedTask.priority (ToolHelpers.mapTask Wording.urgentTask) = 4%Z /\
  ~ Wording.mapTask_inverts_priority.
Proof.
  split; [reflexivity|]. split; [reflexivity|].
  intros H. specialize (H Wording.urgentTask). simpl in H.
  assert (E : (4 = 5 - 4)%Z) by (apply H; lia). discriminate E.
Qed.

(** C7, as the code has it.  [mapTask] copies the API priority: the
    mapped priority is the raw one, in the API's convention (4 is the
    highest), hence present and within 1..4 whenever the raw one is.  The
    inversion to the user-facing scale is [convertNumberToPriority]
    (4 to p1, 3 to p2, 2 to p3, 1 to p4), which [mapTask] does not
    apply. *)
Theorem mapTask_priority (task : Task.t) :
  MappedTask.priority (ToolHelpers.mapTask task) = Task.priority task /\
  ((1 <= Task.priority task <= 4)%Z ->
   (1 <= MappedTask.priority (ToolHelpers.mapTask task) <= 4)%Z /\
   exists p,
     Priorities.convertNumberToPriority (MappedTask.priority (ToolHelpers.mapTask task))
     = Some p /\
     Priorities.rank p = (5 - Task.priority task)%Z /\
     Priorities.convertPriorityToNumber p = Task.priority task).
Proof.
  split; [reflexivity|].
  simpl. intros Hrange. split; [exact Hrange|].
  assert (Hcases : Task.priority task = 1%Z \/ Task.priority task = 2%Z \/
                   Task.priority task = 3%Z \/ Task.priority task = 4%Z) by lia.
  destruct Hcases as [E|[E|[E|E]]]; rewrite E.
  - exists Priorities.p4. repeat split.
  - exists Priorities.p3. repeat split.
  - exists Priorities.p2. repeat split.
  - exists Priorities.p1. repeat split.
Qed.

Lemma mapTask_priority_witness :
  (1 <= MappedTask.priority (ToolHelpers.mapTask Wording.urgentTask) <= 4)%Z.
Proof.
  destruct (mapTask_priority Wording.urgentTask) as [_ H].
  destruct H as [Hrange _].
  - simpl. lia.
  - exact Hrange.
Defined.

(** ** fetch: composite ids *)

(** Splitting on every colon starts with the part before the first
    colon and continues in the remainder. *)
Lemma split_firstColon (id : string) :
  Js.split ":" id
  = fst (Fetch.splitFirstColon id)
    :: match snd (Fetch.splitFirstColon id) with
       | None => []
       | Some remainder => Js.split ":" remainder
       end.
Proof.
  induction id as [|c rest IH]; [reflexivity|].
  simpl. destruct (Ascii.eqb c ":"); [reflexivity|].
  rewrite IH. destruct (Fetch.splitFirstColon rest) as [prefix remainder].
  reflexivity.
Qed.

Lemma splitFirstColon_empty_prefix (s : string) :
  fst (Fetch.splitFirstColon s) <> "" -> s <> "".
Proof. intros H ->. apply H. reflexivity. Qed.

Lemma invalidIdMessage_mentions_format :
  Js.includes "Invalid ID format" Fetch.invalidIdMessage = true.
Proof. reflexivity. Qed.

Lemma fetch_rejects_malformed
    (buildTodoistUrl : string -> string -> string) (client : Api.TodoistApi) (id : string) :
  ~ Fetch.wellFormedId id ->
  Api.run (Fetch.execute buildTodoistUrl id client)
  = (inr (McpHelpers.getErrorOutput Fetch.invalidIdMessage), []).
Proof.
  intros Hbad.
  unfold Api.run, Fetch.execute, Api.tryCatch, Js.splitLimit.
  rewrite split_firstColon.
  unfold Fetch.wellFormedId in Hbad.
  destruct (Fetch.splitFirstColon id) as [prefix remainder].
  cbn [fst snd]. destruct remainder as [rest|]; [|reflexivity].
  rewrite (split_firstColon rest).
  cbn [firstn nth nth_error].
  pose proof (splitFirstColon_empty_prefix rest) as Hrest.
  destruct (Fetch.splitFirstColon rest) as [objectId more].
  cbn [fst snd] in *.
  destruct (Js.truthy objectId) eqn:Etruthy; [|reflexivity].
  apply truthy_true_iff in Etruthy. cbn [negb orb].
  destruct (String.eqb_spec prefix "task") as [Htask|Htask].
  - exfalso. apply Hbad. split; [left; exact Htask|].
    exists rest. split; [reflexivity | exact (Hrest Etruthy)].
  - destruct (String.eqb_spec prefix "project") as [Hproject|Hproject]; [|reflexivity].
    exfalso. apply Hbad. split; [right; exact Hproject|].
    exists rest. split; [reflexivity | exact (Hrest Etruthy)].
Qed.

(** C3.  For every id: unless the part before the first colon is
    exactly [task] or [project] and the remainder after it is not empty,
    [fetch] returns, without throwing and without any request, an
    envelope with [isError] true whose single text item contains
    [Invalid ID format]; so it does for [invalid-id]. *)
Theorem fetch_invalid_id
    (buildTodoistUrl : string -> string -> string) (client : Api.TodoistApi) :
  (forall id,
     ~ Fetch.wellFormedId id ->
     Fetch.invalidIdEnvelope (Api.run (Fetch.execute buildTodoistUrl id client))) /\
  Fetch.invalidIdEnvelope (Api.run (Fetch.execute buildTodoistUrl "invalid-id" client)).
Proof.
  assert (H : forall id,
            ~ Fetch.wellFormedId id ->
            Fetch.invalidIdEnvelope (Api.run (Fetch.execute buildTodoistUrl id client))).
  { intros id Hbad. exists Fetch.invalidIdMessage.
    split; [|exact invalidIdMessage_mentions_format].
    rewrite (fetch_rejects_malformed buildTodoistUrl client id Hbad). reflexivity. }
  split; [exact H|].
  apply H. unfold Fetch.wellFormedId. simpl.
  intros [[Hp|Hp] _]; discriminate Hp.
Qed.

Lemma fetch_invalid_id_witness :
  Fetch.invalidIdEnvelope (Api.run (Fetch.execute Samples.appUrl "task:" Samples.office)).
Proof.
  apply (proj1 (fetch_invalid_id Samples.appUrl Samples.office)).
  unfold Fetch.wellFormedId. simpl.
  intros [_ [objectId [Hsome Hne]]]. injection Hsome as <-. apply Hne. reflexivity.
Defined.

(** The check is stricter than the reading by the first colon: the id is
    cut at every colon and only the first two pieces are kept, so an
    empty second piece is refused although the remainder is not empty,
    and a third piece is dropped. *)
Example fetch_second_colon :
  Fetch.wellFormedId "task::7" /\
  Api.run (Fetch.execute Samples.appUrl "task::7" Samples.office)
  = (inr (McpHelpers.getErrorOutput Fetch.invalidIdMessage), []) /\
  snd (Api.run (Fetch.execute Samples.appUrl "task:7:8" Samples.office))
  = [Api.CallGetTask "7"].
Proof.
  split; [|split; reflexivity].
  unfold Fetch.wellFormedId. simpl. split; [left; reflexivity|].
  exists ":7". split; [reflexivity | discriminate].
Qed.

(** The four malformed ids of the test-suite. *)
Example fetch_malformed_ids :
  forallb
    (fun id =>
       match Api.run (Fetch.execute Samples.appUrl id Samples.office) with
       | (inr out, []) =>
           match McpHelpers.isError out, McpHelpers.content out with
           | Some true, [item] => Js.includes "Invalid ID format" (McpHelpers.text item)
           | _, _ => false
           end
       | _ => false
       end)
    ["invalid-id"; ":8485093748"; "task:"; "section:123"]
  = true.
Proof. reflexivity. Qed.

(** ** search: tasks first, then the projects whose name matches *)





Lemma codeUnits_all (P : ascii -> bool) :
  forallb P Wording.codeUnits = true -> forall a, P a = true.
Proof.
  intros H a. rewrite forallb_forall in H. apply H.
  rewrite <- (ascii_nat_embedding a). unfold Wording.codeUnits.
  apply in_map, in_seq. pose proof (nat_ascii_bounded a). lia.
Qed.

Lemma isCasePair_iff (a b : ascii) :
  Wording.isCasePair a b = true <-> In (a, b) Wording.casePairs.
Proof.
  unfold Wording.isCasePair. rewrite existsb_exists. split.
  - intros [[x y] [Hin H]]. apply andb_true_iff in H. cbn [fst snd] in H.
    destruct H as [Hx Hy]. apply Ascii.eqb_eq in Hx, Hy. subst. exact Hin.
  - intros Hin. exists (a, b). split; [exact Hin|].
    cbn [fst snd]. rewrite !Ascii.eqb_refl. reflexivity.
Qed.

Lemma sameLetterb_iff (a b : ascii) :
  Wording.sameLetterb a b = true <-> Wording.sameLetter a b.
Proof.
  unfold Wording.sameLetterb, Wording.sameLetter.
  rewrite !orb_true_iff, Ascii.eqb_eq, !isCasePair_iff. tauto.
Qed.

(** The table of the letters against the arithmetic of [toLowerCase],
    on every pair of code units. *)
Lemma lowerChar_table :
  forallb (fun a =>
             forallb (fun b =>
                        Bool.eqb (Ascii.eqb (Js.lowerChar a) (Js.lowerChar b))
                                 (Wording.sameLetterb a b))
                     Wording.codeUnits)
          Wording.codeUnits = true.
Proof. vm_compute. reflexivity. Qed.

(** Two code units are the same letter up to case exactly when
    [toLowerCase] sends them to the same unit. *)
Lemma sameLetter_iff (a b : ascii) :
  Wording.sameLetter a b <-> Js.lowerChar a = Js.lowerChar b.
Proof.
  rewrite <- sameLetterb_iff, <- Ascii.eqb_eq.
  pose proof (codeUnits_all _ (codeUnits_all _ lowerChar_table a) b) as H.
  apply Bool.eqb_prop in H. rewrite H. reflexivity.
Qed.








(** ** find-tasks: the missing-filter validation *)

Lemma noFilter_check (args : FindTasks.Args) :
  FindTasks.noFilter args ->
  negb (Js.truthyOpt (FindTasks.searchText args))
  && negb (Js.truthyOpt (FindTasks.projectId args))
  && negb (Js.truthyOpt (FindTasks.sectionId args))
  && negb (Js.truthyOpt (FindTasks.parentId args))
  && negb (Js.truthyOpt (FindTasks.responsibleUser args))
  && negb (FindTasks.hasLabels (FindTasks.labels args)) = true.
Proof.
  intros (H1 & H2 & H3 & H4 & H5 & H6).
  destruct H1 as [-> | ->], H2 as [-> | ->], H3 as [-> | ->],
           H4 as [-> | ->], H5 as [-> | ->], H6 as [-> | ->]; reflexivity.
Qed.

(** Against C1 as it is written.  The request for the current user is
    sent before the arguments are validated: with no filter at all the log holds one request when the
    tool rejects, and when that request fails its failure is what the
    tool rejects with. *)
Lemma findTasks_request_before_rejection :
  Api.run (FindTasks.execute FindTasks.noSummary FindTasks.onlyLimit Samples.office)
  = (inl (Api.newError FindTasks.missingFilterMessage), [Api.CallGetUser]) /\
  Api.run (FindTasks.execute FindTasks.noSummary FindTasks.onlyLimit
             (Samples.unreachable Samples.networkFailure))
  = (inl Samples.networkFailure, [Api.CallGetUser]) /\
  ~ FindTasks.rejectedBeforeAnyRequest.
Proof.
  split; [reflexivity|]. split; [reflexivity|].
  intros H.
  specialize (H FindTasks.noSummary FindTasks.onlyLimit Samples.office).
  assert (Hno : FindTasks.noFilter FindTasks.onlyLimit).
  { unfold FindTasks.noFilter. simpl. repeat split; left; reflexivity. }
  specialize (H Hno). discriminate H.
Qed.

(** C1, as the code has it.  With no discriminating filter [execute]
    first asks upstream for the current user; when that request succeeds
    it rejects with the validation error, whose message names the six
    filter fields, and sends no other request; when that request fails
    it rejects with that failure. *)
Theorem findTasks_missing_filter
    (generateTextContent :
       list MappedTask.t -> FindTasks.Args -> option string -> bool -> option string -> string)
    (args : FindTasks.Args) (client : Api.TodoistApi) :
  FindTasks.noFilter args ->
  (forall user,
     Api.getUser client = inr user ->
     Api.run (FindTasks.execute generateTextContent args client)
     = (inl (Api.newError FindTasks.missingFilterMessage), [Api.CallGetUser])) /\
  (forall failure,
     Api.getUser client = inl failure ->
     Api.run (FindTasks.execute generateTextContent args client)
     = (inl failure, [Api.CallGetUser])) /\
  forallb (fun field => Js.includes field FindTasks.missingFilterMessage)
    ["searchText"; "projectId"; "sectionId"; "parentId"; "responsibleUser"; "labels"]
  = true.
Proof.
  intros Hno. apply noFilter_check in Hno.
  split; [|split; [|reflexivity]].
  - intros user Huser.
    unfold Api.run, FindTasks.execute, Api.bind, Api.request.
    rewrite Huser, Hno. reflexivity.
  - intros failure Hfail.
    unfold Api.run, FindTasks.execute, Api.bind, Api.request.
    rewrite Hfail. reflexivity.
Qed.

Lemma findTasks_missing_filter_witness :
  Api.run (FindTasks.execute FindTasks.noSummary FindTasks.onlyLimit Samples.office)
  = (inl (Api.newError FindTasks.missingFilterMessage), [Api.CallGetUser]).
Proof.
  refine (proj1 (findTasks_missing_filter FindTasks.noSummary FindTasks.onlyLimit
                   Samples.office _)
                {| Api.userId := "me"; Api.email := "me@example.com" |} eq_refl).
  unfold FindTasks.noFilter. simpl. repeat split; left; reflexivity.
Defined.

(** ** find-tasks-by-date: the date part of the query *)

Section Calendar.
Local Open Scope Z_scope.

Lemma isLeapYear_true_iff (y : Z) :
  JsDate.isLeapYear y = true <->
  (y mod 4 = 0 /\ y mod 100 <> 0) \/ y mod 400 = 0.
Proof.
  unfold JsDate.isLeapYear.
  rewrite orb_true_iff, andb_true_iff, negb_true_iff, !Z.eqb_eq, Z.eqb_neq.
  reflexivity.
Qed.

Lemma DayFromYear_succ (y : Z) :
  JsDate.DayFromYear (y + 1)
  = JsDate.DayFromYear y + (if JsDate.isLeapYear y then 366 else 365).
Proof.
  unfold JsDate.DayFromYear.
  destruct (JsDate.isLeapYear y) eqn:E.
  - apply isLeapYear_true_iff in E.
    Z.div_mod_to_equations. lia.
  - assert (H : ~ ((y mod 4 = 0 /\ y mod 100 <> 0) \/ y mod 400 = 0)).
    { rewrite <- isLeapYear_true_iff, E. discriminate. }
    Z.div_mod_to_equations. lia.
Qed.
Ltac month_cases m :=
  let H := fresh "Hmonth" in
  assert (H : m = 1 \/ m = 2 \/ m = 3 \/ m = 4 \/ m = 5 \/ m = 6 \/
              m = 7 \/ m = 8 \/ m = 9 \/ m = 10 \/ m = 11 \/ m = 12) by lia;
  repeat (destruct H as [H|H]; [subst m|]); [..|subst m].

Lemma validCivil_iff (c : JsDate.Civil) :
  JsDate.validCivil c = true <->
  1 <= JsDate.month c <= 12 /\
  1 <= JsDate.day c <= JsDate.daysInMonth (JsDate.year c) (JsDate.month c).
Proof.
  unfold JsDate.validCivil. rewrite !andb_true_iff, !Z.leb_le. lia.
Qed.

Lemma daysInMonth_bounds (y m : Z) : 28 <= JsDate.daysInMonth y m <= 31.
Proof.
  unfold JsDate.daysInMonth.
  destruct (m =? 2); [destruct (JsDate.isLeapYear y); lia|].
  destruct ((m =? 4) || (m =? 6) || (m =? 9) || (m =? 11)); lia.
Qed.

Lemma daysBeforeMonth_succ (y m : Z) :
  1 <= m <= 11 ->
  JsDate.daysBeforeMonth y (m + 1) = JsDate.daysBeforeMonth y m + JsDate.daysInMonth y m.
Proof.
  intros Hm. month_cases m;
    try (unfold JsDate.daysBeforeMonth, JsDate.daysInMonth;
         destruct (JsDate.isLeapYear y); reflexivity).
  lia.
Qed.

Lemma daysBeforeMonth_december (y : Z) :
  JsDate.daysBeforeMonth y 12 + 31 = if JsDate.isLeapYear y then 366 else 365.
Proof.
  unfold JsDate.daysBeforeMonth. destruct (JsDate.isLeapYear y); reflexivity.
Qed.

Lemma nextDay_spec (c : JsDate.Civil) :
  JsDate.validCivil c = true ->
  JsDate.validCivil (JsDate.nextDay c) = true /\
  JsDate.dayNumber (JsDate.nextDay c) = JsDate.dayNumber c + 1.
Proof.
  rewrite !validCivil_iff. destruct c as [y m d].
  unfold JsDate.nextDay, JsDate.dayNumber, JsDate.MakeDay.
  cbn [JsDate.year JsDate.month JsDate.day].
  intros [Hm Hd].
  destruct (Z.ltb_spec d (JsDate.daysInMonth y m)) as [Hlt|Hge];
    [|destruct (Z.ltb_spec m 12) as [Hm12|Hm12]];
    cbn [JsDate.year JsDate.month JsDate.day].
  - lia.
  - pose proof (daysInMonth_bounds y (m + 1)).
    rewrite daysBeforeMonth_succ by lia. lia.
  - assert (m = 12) by lia. subst m.
    pose proof (daysBeforeMonth_december y) as Hdec.
    rewrite DayFromYear_succ.
    assert (JsDate.daysInMonth y 12 = 31) by reflexivity.
    assert (JsDate.daysInMonth (y + 1) 1 = 31) by reflexivity.
    assert (JsDate.daysBeforeMonth (y + 1) 1 = 0) by reflexivity.
    lia.
Qed.

Lemma prevDay_spec (c : JsDate.Civil) :
  JsDate.validCivil c = true ->
  JsDate.validCivil (JsDate.prevDay c) = true /\
  JsDate.dayNumber (JsDate.prevDay c) = JsDate.dayNumber c - 1.
Proof.
  rewrite !validCivil_iff. destruct c as [y m d].
  unfold JsDate.prevDay, JsDate.dayNumber, JsDate.MakeDay.
  cbn [JsDate.year JsDate.month JsDate.day].
  intros [Hm Hd].
  destruct (Z.ltb_spec 1 d) as [Hlt|Hge];
    [|destruct (Z.ltb_spec 1 m) as [Hm1|Hm1]];
    cbn [JsDate.year JsDate.month JsDate.day].
  - lia.
  - pose proof (daysInMonth_bounds y (m - 1)).
    pose proof (daysBeforeMonth_succ y (m - 1)) as Hs.
    replace (m - 1 + 1) with m in Hs by lia.
    rewrite Hs by lia. lia.
  - assert (m = 1) by lia. subst m.
    pose proof (daysBeforeMonth_december (y - 1)) as Hdec.
    pose proof (DayFromYear_succ (y - 1)) as Hyear.
    replace (y - 1 + 1) with y in Hyear by lia.
    assert (JsDate.daysInMonth (y - 1) 12 = 31) by reflexivity.
    assert (JsDate.daysBeforeMonth y 1 = 0) by reflexivity.
    lia.
Qed.

Lemma iter_nextDay (n : nat) :
  JsDate.validCivil (Nat.iter n JsDate.nextDay JsDate.epoch) = true /\
  JsDate.dayNumber (Nat.iter n JsDate.nextDay JsDate.epoch) = Z.of_nat n.
Proof.
  induction n as [|n [IHv IHd]]; [split; reflexivity|].
  rewrite Nat.iter_succ. destruct (nextDay_spec _ IHv) as [Hv Hd].
  split; [exact Hv|]. rewrite Hd, IHd. lia.
Qed.

Lemma iter_prevDay (n : nat) :
  JsDate.validCivil (Nat.iter n JsDate.prevDay JsDate.epoch) = true /\
  JsDate.dayNumber (Nat.iter n JsDate.prevDay JsDate.epoch) = - Z.of_nat n.
Proof.
  induction n as [|n [IHv IHd]]; [split; reflexivity|].
  rewrite Nat.iter_succ. destruct (prevDay_spec _ IHv) as [Hv Hd].
  split; [exact Hv|]. rewrite Hd, IHd. lia.
Qed.

(** The calendar date of a day number is a date of the calendar, and
    its day number is the one it came from. *)
Lemma civilFromDay_spec (d : Z) :
  JsDate.validCivil (JsDate.civilFromDay d) = true /\
  JsDate.dayNumber (JsDate.civilFromDay d) = d.
Proof.
  unfold JsDate.civilFromDay. destruct (Z.leb_spec 0 d) as [Hd|Hd].
  - destruct (iter_nextDay (Z.to_nat d)) as [Hv Hn].
    split; [exact Hv|]. rewrite Hn. lia.
  - destruct (iter_prevDay (Z.to_nat (- d))) as [Hv Hn].
    split; [exact Hv|]. rewrite Hn. lia.
Qed.


Lemma parse_valid (s : string) (c : JsDate.Civil) :
  JsDate.dateFields s = Some c ->
  JsDate.validCivil c = true ->
  JsDate.parse s = Some (JsDate.dayNumber c * JsDate.msPerDay).
Proof.
  intros Hs Hv. unfold JsDate.parse. rewrite Hs.
  apply validCivil_iff in Hv. destruct Hv as [Hm Hd].
  pose proof (daysInMonth_bounds (JsDate.year c) (JsDate.month c)).
  replace ((1 <=? JsDate.month c) && (JsDate.month c <=? 12)
           && (1 <=? JsDate.day c) && (JsDate.day c <=? 31)) with true; [reflexivity|].
  symmetry. rewrite !andb_true_iff, !Z.leb_le. lia.
Qed.

Lemma div_day (q r : Z) :
  0 <= r < JsDate.msPerDay -> (q * JsDate.msPerDay + r) / JsDate.msPerDay = q.
Proof.
  intros Hr. rewrite Z.div_add_l by discriminate.
  rewrite (Z.div_small r) by exact Hr. lia.
Qed.

(** After [setDate(dt)] the local date is the one [MakeDay] names. *)
Lemma localCivil_setDate (offsetMinutes t dt : Z) :
  JsDate.localCivil offsetMinutes (JsDate.setDate offsetMinutes t dt)
  = JsDate.civilFromDay
      (JsDate.MakeDay (JsDate.year (JsDate.localCivil offsetMinutes t))
                      (JsDate.month (JsDate.localCivil offsetMinutes t)) dt).
Proof.
  unfold JsDate.setDate, JsDate.localCivil. cbv zeta.
  generalize (JsDate.civilFromDay (JsDate.LocalTime offsetMinutes t / JsDate.msPerDay)).
  intros c. generalize (JsDate.MakeDay (JsDate.year c) (JsDate.month c) dt). intros M.
  unfold JsDate.UTC, JsDate.LocalTime.
  generalize (offsetMinutes * JsDate.msPerMinute). intros o.
  replace (M * JsDate.msPerDay + (t + o) mod JsDate.msPerDay - o + o)
    with (M * JsDate.msPerDay + (t + o) mod JsDate.msPerDay) by lia.
  rewrite div_day; [reflexivity|].
  apply Z.mod_pos_bound. reflexivity.
Qed.

Lemma localCivil_midnight (offsetMinutes D : Z) :
  JsDate.localCivil offsetMinutes (D * JsDate.msPerDay)
  = JsDate.civilFromDay (D + offsetMinutes * JsDate.msPerMinute / JsDate.msPerDay).
Proof.
  unfold JsDate.localCivil, JsDate.LocalTime.
  rewrite Z.div_add_l by discriminate. reflexivity.
Qed.

Lemma MakeDay_shift (c : JsDate.Civil) (amount : Z) :
  JsDate.MakeDay (JsDate.year c) (JsDate.month c) (JsDate.day c + amount)
  = JsDate.dayNumber c + amount.
Proof. unfold JsDate.dayNumber, JsDate.MakeDay. lia. Qed.

Lemma addDays_midnight (offsetMinutes D amount : Z) :
  JsDate.formatISO offsetMinutes
    (JsDate.addDays offsetMinutes (Some (D * JsDate.msPerDay)) amount)
  = Some (JsDate.formatCivil
            (JsDate.civilFromDay
               (D + amount + offsetMinutes * JsDate.msPerMinute / JsDate.msPerDay))).
Proof.
  unfold JsDate.addDays, JsDate.formatISO.
  destruct (Z.eqb_spec amount 0) as [->|Hn].
  - rewrite localCivil_midnight, Z.add_0_r. reflexivity.
  - rewrite localCivil_setDate, localCivil_midnight, MakeDay_shift.
    rewrite (proj2 (civilFromDay_spec _)).
    rewrite <- Z.add_assoc, (Z.add_comm _ amount), Z.add_assoc. reflexivity.
Qed.

(** What [formatISO(addDays(start, amount))] prints: the date whose day
    number is that of the start date plus the amount, moved by the whole
    days the local offset spans (none at or east of UTC up to a day, one
    back to the west). *)
Lemma addDays_formatISO (offsetMinutes : Z) (s : string) (c : JsDate.Civil) (amount : Z) :
  JsDate.dateFields s = Some c ->
  JsDate.validCivil c = true ->
  JsDate.formatISO offsetMinutes (JsDate.addDays offsetMinutes (JsDate.parse s) amount)
  = Some (JsDate.formatCivil
            (JsDate.civilFromDay
               (JsDate.dayNumber c + amount
                + offsetMinutes * JsDate.msPerMinute / JsDate.msPerDay))).
Proof.
  intros Hs Hv. rewrite (parse_valid s c Hs Hv). apply addDays_midnight.
Qed.
End Calendar.

Lemma offset_east (offsetMinutes : Z) :
  (0 <= offsetMinutes < 1440)%Z ->
  (offsetMinutes * JsDate.msPerMinute / JsDate.msPerDay = 0)%Z.
Proof.
  intros H. apply Z.div_small. unfold JsDate.msPerMinute, JsDate.msPerDay. lia.
Qed.

Lemma offset_west (offsetMinutes : Z) :
  (-1440 <= offsetMinutes < 0)%Z ->
  (offsetMinutes * JsDate.msPerMinute / JsDate.msPerDay = -1)%Z.
Proof.
  intros H. symmetry. unfold JsDate.msPerMinute, JsDate.msPerDay.
  apply (Z.div_unique _ _ _ (offsetMinutes * 60000 + 86400000)%Z); lia.
Qed.

Lemma dateFields_not_today (s : string) (c : JsDate.Civil) :
  JsDate.dateFields s = Some c -> String.eqb s "today" = false /\ Js.truthy s = true.
Proof.
  intros H. split.
  - apply String.eqb_neq. intros ->. discriminate H.
  - destruct s; [discriminate H | reflexivity].
Qed.

(** The fragments that do not depend on dates: [overdue] for
    [overdue-only]; for [today], [(today | overdue)] unless overdue tasks
    are excluded, then [today]. *)
Lemma dateQuery_keywords
    (offsetMinutes : Z) (args : FindTasksByDate.Args) :
  (FindTasksByDate.overdueOption args = Some FindTasksByDate.overdue_only ->
   FindTasksByDate.dateQuery offsetMinutes args = inr "overdue") /\
  (FindTasksByDate.startDate args = Some "today" ->
   (FindTasksByDate.overdueOption args = None \/
    FindTasksByDate.overdueOption args = Some FindTasksByDate.include_overdue ->
    FindTasksByDate.dateQuery offsetMinutes args = inr "(today | overdue)") /\
   (FindTasksByDate.overdueOption args = Some FindTasksByDate.exclude_overdue ->
    FindTasksByDate.dateQuery offsetMinutes args = inr "today")).
Proof.
  unfold FindTasksByDate.dateQuery. split; [|intros Hstart; split].
  - intros ->. reflexivity.
  - rewrite Hstart. intros [-> | ->]; reflexivity.
  - rewrite Hstart. intros ->. reflexivity.
Qed.

(** For an explicit start date the fragment is
    [(due after: d | due: d) & due before: e], where [e] is the date
    whose day number is that of [d] plus the day count, moved by the
    whole days of the local offset; overdue tasks are never included. *)
Lemma dateQuery_explicit
    (offsetMinutes : Z) (args : FindTasksByDate.Args) (start : string) (d : JsDate.Civil) :
  FindTasksByDate.overdueOption args <> Some FindTasksByDate.overdue_only ->
  FindTasksByDate.startDate args = Some start ->
  JsDate.dateFields start = Some d ->
  JsDate.validCivil d = true ->
  exists e : JsDate.Civil,
    JsDate.validCivil e = true /\
    JsDate.dayNumber e
    = (JsDate.dayNumber d + FindTasksByDate.daysCount args
       + offsetMinutes * JsDate.msPerMinute / JsDate.msPerDay)%Z /\
    FindTasksByDate.dateQuery offsetMinutes args
    = inr ("(due after: " ++ start ++ " | due: " ++ start ++ ") & due before: "
           ++ JsDate.formatCivil e).
Proof.
  intros Hmode Hstart Hfields Hvalid.
  exists (JsDate.civilFromDay
            (JsDate.dayNumber d + FindTasksByDate.daysCount args
             + offsetMinutes * JsDate.msPerMinute / JsDate.msPerDay)).
  destruct (civilFromDay_spec
              (JsDate.dayNumber d + FindTasksByDate.daysCount args
               + offsetMinutes * JsDate.msPerMinute / JsDate.msPerDay)) as [Hv Hn].
  split; [exact Hv|]. split; [exact Hn|].
  unfold FindTasksByDate.dateQuery.
  assert (Hnot : FindTasksByDate.overdueIs FindTasksByDate.overdue_only
                   (FindTasksByDate.overdueOption args) = false).
  { destruct (FindTasksByDate.overdueOption args) as [[]|]; try reflexivity.
    contradiction Hmode. reflexivity. }
  rewrite Hnot, Hstart.
  destruct (dateFields_not_today start d Hfields) as [-> ->].
  rewrite (addDays_formatISO offsetMinutes start d _ Hfields Hvalid).
  reflexivity.
Qed.

(** On a host at UTC or east of it the end date is the start date plus
    the day count: the window is half-open, and a count of 1 selects the
    start date alone. *)
Lemma dateQuery_at_or_east_of_UTC
    (offsetMinutes : Z) (args : FindTasksByDate.Args) (start : string) (d : JsDate.Civil) :
  (0 <= offsetMinutes < 1440)%Z ->
  FindTasksByDate.overdueOption args <> Some FindTasksByDate.overdue_only ->
  FindTasksByDate.startDate args = Some start ->
  JsDate.dateFields start = Some d ->
  JsDate.validCivil d = true ->
  exists e : JsDate.Civil,
    JsDate.validCivil e = true /\
    JsDate.dayNumber e = (JsDate.dayNumber d + FindTasksByDate.daysCount args)%Z /\
    FindTasksByDate.dateQuery offsetMinutes args
    = inr ("(due after: " ++ start ++ " | due: " ++ start ++ ") & due before: "
           ++ JsDate.formatCivil e).
Proof.
  intros Hoff Hmode Hstart Hfields Hvalid.
  destruct (dateQuery_explicit offsetMinutes args start d Hmode Hstart Hfields Hvalid)
    as [e [Hv [Hn Hq]]].
  exists e. rewrite (offset_east _ Hoff), Z.add_0_r in Hn. auto.
Qed.

(** On a host west of UTC the end date falls one day short: the start
    date plus the day count minus one. *)
Lemma dateQuery_west_of_UTC
    (offsetMinutes : Z) (args : FindTasksByDate.Args) (start : string) (d : JsDate.Civil) :
  (-1440 <= offsetMinutes < 0)%Z ->
  FindTasksByDate.overdueOption args <> Some FindTasksByDate.overdue_only ->
  FindTasksByDate.startDate args = Some start ->
  JsDate.dateFields start = Some d ->
  JsDate.validCivil d = true ->
  exists e : JsDate.Civil,
    JsDate.validCivil e = true /\
    JsDate.dayNumber e = (JsDate.dayNumber d + FindTasksByDate.daysCount args - 1)%Z /\
    FindTasksByDate.dateQuery offsetMinutes args
    = inr ("(due after: " ++ start ++ " | due: " ++ start ++ ") & due before: "
           ++ JsDate.formatCivil e).
Proof.
  intros Hoff Hmode Hstart Hfields Hvalid.
  destruct (dateQuery_explicit offsetMinutes args start d Hmode Hstart Hfields Hvalid)
    as [e [Hv [Hn Hq]]].
  exists e. rewrite (offset_west _ Hoff) in Hn. auto.
Qed.

(** C2, at the input where the code and the claim part.  For the start
    date 2025-08-15 and one day, a host five hours west of UTC builds
    [due before: 2025-08-15], the start date itself and not the day
    after it, and sends that query upstream; a host at UTC builds
    [due before: 2025-08-16]. *)
Theorem dateQuery_one_day_west_of_UTC :
  FindTasksByDate.dateQuery (-300) (FindTasksByDate.daysFrom "2025-08-15" 1)
  = inr "(due after: 2025-08-15 | due: 2025-08-15) & due before: 2025-08-15" /\
  snd (Api.run (FindTasksByDate.execute (-300) (fun _ _ _ => "")
                  (FindTasksByDate.daysFrom "2025-08-15" 1) Samples.office))
  = [Api.CallGetTasksByFilter
       {| Api.query :=
            "(due after: 2025-08-15 | due: 2025-08-15) & due before: 2025-08-15 & !assigned to: others";
          Api.lang := None; Api.limit := Some 50%Z; Api.cursor := None |}] /\
  FindTasksByDate.dateQuery 0 (FindTasksByDate.daysFrom "2025-08-15" 1)
  = inr "(due after: 2025-08-15 | due: 2025-08-15) & due before: 2025-08-16".
Proof.
  split; [vm_compute; reflexivity|]. split; vm_compute; reflexivity.
Qed.

(** Across the end of February of a leap year, two hours east of UTC. *)
Example dateQuery_leap_year :
  FindTasksByDate.dateQuery 120 (FindTasksByDate.daysFrom "2024-02-28" 2)
  = inr "(due after: 2024-02-28 | due: 2024-02-28) & due before: 2024-03-01".
Proof. vm_compute. reflexivity. Qed.

(** Labels and the responsible-user mode follow the date part, each
    joined by [&]; the label expression is wrapped once more. *)
Example completeQuery_labels :
  FindTasksByDate.completeQuery
    {| FindTasksByDate.startDate := Some "today";
       FindTasksByDate.overdueOption := None;
       FindTasksByDate.daysCount := 1; FindTasksByDate.limit := 50;
       FindTasksByDate.cursor := None;
       FindTasksByDate.responsibleUserFiltering := Some FilterHelpers.all;
       FindTasksByDate.labels := Some ["work"];
       FindTasksByDate.labelsOperator := None |}
    "(today | overdue)"
  = "(today | overdue) & ((@work))".
Proof. reflexivity. Qed.

(** * Further properties of the sources *)

(** ** createMoveTaskArgs *)

Lemma moveParams_length (projectId sectionId parentId : option string) :
  List.length (MoveTasks.moveParams projectId sectionId parentId)
  = MoveTasks.given projectId sectionId parentId.
Proof.
  unfold MoveTasks.moveParams, MoveTasks.given. simpl.
  destruct (Js.truthyOpt projectId), (Js.truthyOpt sectionId), (Js.truthyOpt parentId);
    reflexivity.
Qed.

Lemma truthyOpt_true_iff (o : option string) :
  Js.truthyOpt o = true <-> exists value, o = Some value /\ value <> "".
Proof.
  destruct o as [value|]; simpl.
  - rewrite truthy_true_iff. split.
    + intros H. exists value. split; [reflexivity | exact H].
    + intros [v [E H]]. injection E as ->. exact H.
  - split; [discriminate | intros [v [E _]]; discriminate E].
Qed.

(** X1.  [createMoveTaskArgs] returns a destination exactly when one of
    the three ids is given (non-empty), and then it is that id, which is
    not empty, under its own kind; with two or three it throws the
    "only one" error and with none the "at least one" error, both naming
    the task. *)
Theorem createMoveTaskArgs_exactly_one
    (taskId : string) (projectId sectionId parentId : option string) :
  (MoveTasks.given projectId sectionId parentId = 1 ->
   exists destination,
     MoveTasks.createMoveTaskArgs taskId projectId sectionId parentId = inr destination) /\
  (forall destination,
     MoveTasks.createMoveTaskArgs taskId projectId sectionId parentId = inr destination ->
     MoveTasks.given projectId sectionId parentId = 1 /\
     match destination with
     | MoveTasks.ToProject value => projectId = Some value /\ value <> ""
     | MoveTasks.ToSection value => sectionId = Some value /\ value <> ""
     | MoveTasks.ToParent value => parentId = Some value /\ value <> ""
     end) /\
  (MoveTasks.given projectId sectionId parentId > 1 ->
   MoveTasks.createMoveTaskArgs taskId projectId sectionId parentId
   = inl (Api.newError (MoveTasks.tooManyMessage taskId))) /\
  (MoveTasks.given projectId sectionId parentId = 0 ->
   MoveTasks.createMoveTaskArgs taskId projectId sectionId parentId
   = inl (Api.newError (MoveTasks.noneMessage taskId))).
Proof.
  unfold MoveTasks.createMoveTaskArgs. rewrite moveParams_length.
  unfold MoveTasks.given, MoveTasks.returnIfTruthy.
  destruct projectId as [p|], sectionId as [s|], parentId as [q|]; cbn [Js.truthyOpt];
    repeat match goal with
           | |- context [Js.truthy ?x] =>
               let E := fresh "E" in
               destruct (Js.truthy x) eqn:E;
               [apply truthy_true_iff in E|]
           end;
    simpl;
    (split; [|split; [|split]]);
    try (intros H; first [lia | reflexivity | discriminate H
                          | eexists; reflexivity]);
    intros destination H; try discriminate H;
    injection H as <-; (split; [reflexivity|]); (split; [reflexivity | assumption]).
Qed.

Lemma createMoveTaskArgs_exactly_one_witness :
  MoveTasks.createMoveTaskArgs "42" None (Some "section-7") (Some "")
  = inr (MoveTasks.ToSection "section-7") /\
  MoveTasks.createMoveTaskArgs "42" (Some "") (Some "s") None
  <> inr (MoveTasks.ToProject "") /\
  MoveTasks.createMoveTaskArgs "42" (Some "p") (Some "s") None
  = inl (Api.newError (MoveTasks.tooManyMessage "42")) /\
  MoveTasks.createMoveTaskArgs "42" None (Some "") None
  = inl (Api.newError (MoveTasks.noneMessage "42")).
Proof.
  split; [|split; [|split]].
  - destruct (proj1 (createMoveTaskArgs_exactly_one "42" None (Some "section-7") (Some ""))
                eq_refl) as [destination E].
    vm_compute in E. injection E as <-. reflexivity.
  - intros E.
    destruct (proj1 (proj2 (createMoveTaskArgs_exactly_one "42" (Some "") (Some "s") None))
                _ E) as [_ [_ Hvalue]].
    apply Hvalue. reflexivity.
  - apply (proj1 (proj2 (proj2
             (createMoveTaskArgs_exactly_one "42" (Some "p") (Some "s") None)))).
    vm_compute. lia.
  - apply (proj2 (proj2 (proj2
             (createMoveTaskArgs_exactly_one "42" None (Some "") None)))).
    reflexivity.
Defined.

(** X2.  The last [throw] of [createMoveTaskArgs], the "unexpected
    error", is never reached: whatever the arguments, the function does
    not throw it. *)
Theorem createMoveTaskArgs_never_unexpected
    (taskId : string) (projectId sectionId parentId : option string) :
  MoveTasks.createMoveTaskArgs taskId projectId sectionId parentId
  <> inl (Api.newError MoveTasks.unexpectedMessage).
Proof.
  unfold MoveTasks.createMoveTaskArgs. rewrite moveParams_length.
  unfold MoveTasks.given, MoveTasks.returnIfTruthy.
  destruct projectId as [p|], sectionId as [s|], parentId as [q|]; simpl;
    repeat match goal with
           | |- context [Js.truthy ?x] => destruct (Js.truthy x)
           end;
    simpl; discriminate.
Qed.

(** ** priorities *)

(** X3.  The two priority conversions are inverse to each other: a
    priority of the enumeration survives the trip through its API number,
    an API number that converts at all converts back to itself, and the
    numbers that do not convert are exactly those outside 1..4. *)
Theorem priority_round_trip :
  (forall p,
     Priorities.convertNumberToPriority (Priorities.convertPriorityToNumber p) = Some p) /\
  (forall n p,
     Priorities.convertNumberToPriority n = Some p ->
     Priorities.convertPriorityToNumber p = n) /\
  (forall n,
     Priorities.convertNumberToPriority n = None <-> ~ (1 <= n <= 4)%Z).
Proof.
  split; [intros []; reflexivity|]. split.
  - intros n p H.
    destruct n as [|[[[]|[]|]|[[]|[]|]|]|]; simpl in H; try discriminate;
      injection H as <-; reflexivity.
  - intros n. split.
    + intros H Hrange.
      assert (Hn : n = 1%Z \/ n = 2%Z \/ n = 3%Z \/ n = 4%Z) by lia.
      destruct Hn as [->|[->|[->| ->]]]; discriminate H.
    + intros Hout.
      destruct n as [|[[[]|[]|]|[[]|[]|]|]|]; try reflexivity;
        exfalso; apply Hout; lia.
Qed.

Lemma priority_round_trip_witness :
  Priorities.convertPriorityToNumber Priorities.p2 = 3%Z /\
  Priorities.convertNumberToPriority 5 = None.
Proof.
  destruct priority_round_trip as (_ & Hback & Hnone). split.
  - apply Hback. reflexivity.
  - apply Hnone. lia.
Defined.

(** The display label goes with the enumeration: a number has a
    (non-empty) label exactly when it converts to a priority, and two
    numbers with the same non-empty label are the same number. *)
Theorem formatPriorityForDisplay_agrees :
  (forall n,
     Priorities.formatPriorityForDisplay n = "" <->
     Priorities.convertNumberToPriority n = None) /\
  (forall n m,
     Priorities.formatPriorityForDisplay n <> "" ->
     Priorities.formatPriorityForDisplay n = Priorities.formatPriorityForDisplay m ->
     n = m).
Proof.
  split.
  - intros n. destruct n as [|[[[]|[]|]|[[]|[]|]|]|]; simpl; split;
      try reflexivity; discriminate.
  - intros n m Hn H.
    destruct n as [|[[[]|[]|]|[[]|[]|]|]|]; simpl in *;
      try (contradiction Hn; reflexivity);
      destruct m as [|[[[]|[]|]|[[]|[]|]|]|]; simpl in H;
      try discriminate H; reflexivity.
Qed.

Lemma formatPriorityForDisplay_agrees_witness :
  Priorities.formatPriorityForDisplay 4 <> "" /\
  Priorities.formatPriorityForDisplay 4 = Priorities.formatPriorityForDisplay (2 + 2) /\
  (4 = 2 + 2)%Z.
Proof.
  split; [discriminate|]. split; [reflexivity|].
  apply (proj2 formatPriorityForDisplay_agrees 4%Z (2 + 2)%Z); [discriminate | reflexivity].
Defined.

(** ** buildResponsibleUserQueryFilter *)

(** X4.  A resolved assignee with an email overrides the mode: the
    fragment is [assigned to: <email>] whatever the mode.  Otherwise the
    fragment depends on the mode alone, and it is empty exactly for the
    mode [all]. *)
Theorem buildResponsibleUserQueryFilter_precedence
    (resolvedAssigneeId assigneeEmail : option string)
    (mode : option FilterHelpers.ResponsibleUserFiltering) :
  (forall id email,
     resolvedAssigneeId = Some id -> id <> "" ->
     assigneeEmail = Some email -> email <> "" ->
     FilterHelpers.buildResponsibleUserQueryFilter resolvedAssigneeId assigneeEmail mode
     = "assigned to: " ++ email) /\
  (Js.truthyOpt resolvedAssigneeId && Js.truthyOpt assigneeEmail = false ->
   FilterHelpers.buildResponsibleUserQueryFilter resolvedAssigneeId assigneeEmail mode
   = match mode with
     | Some FilterHelpers.assigned => "assigned to: others"
     | Some FilterHelpers.all => ""
     | _ => "!assigned to: others"
     end) /\
  (FilterHelpers.buildResponsibleUserQueryFilter resolvedAssigneeId assigneeEmail mode = ""
   <-> mode = Some FilterHelpers.all /\
       Js.truthyOpt resolvedAssigneeId && Js.truthyOpt assigneeEmail = false).
Proof.
  unfold FilterHelpers.buildResponsibleUserQueryFilter.
  split; [|split].
  - intros id email -> Hid -> Hemail. simpl.
    apply truthy_true_iff in Hid. apply truthy_true_iff in Hemail.
    rewrite Hid, Hemail. reflexivity.
  - intros H. destruct assigneeEmail as [email|].
    + simpl in H. rewrite H. destruct mode as [[]|]; reflexivity.
    + destruct mode as [[]|]; reflexivity.
  - destruct assigneeEmail as [email|]; simpl.
    + destruct (Js.truthyOpt resolvedAssigneeId && Js.truthy email) eqn:E.
      * split; [|intros [_ H]; discriminate H].
        intros H. destruct email; [|discriminate H].
        rewrite andb_false_r in E. discriminate E.
      * destruct mode as [[]|]; simpl; split;
          try discriminate; try (intros [H _]; discriminate H); auto.
    + rewrite andb_false_r.
      destruct mode as [[]|]; simpl; split;
        try discriminate; try (intros [H _]; discriminate H); auto.
Qed.

Lemma buildResponsibleUserQueryFilter_precedence_witness :
  FilterHelpers.buildResponsibleUserQueryFilter
    (Some "u-1") (Some "ann@example.com") (Some FilterHelpers.all)
  = "assigned to: ann@example.com" /\
  FilterHelpers.buildResponsibleUserQueryFilter None None None = "!assigned to: others".
Proof.
  destruct (buildResponsibleUserQueryFilter_precedence
              (Some "u-1") (Some "ann@example.com") (Some FilterHelpers.all)) as [H1 _].
  destruct (buildResponsibleUserQueryFilter_precedence None None None) as [_ [H2 _]].
  split.
  - apply (H1 "u-1" "ann@example.com"); [reflexivity | discriminate
                                        | reflexivity | discriminate].
  - apply H2. reflexivity.
Defined.

(** ** mapTask and getTasksByFilter *)

(** X5.  A mapped task is recurring exactly when the API task has a due
    date that is marked recurring and carries a non-empty phrase, and
    the recurrence is then that phrase; it has a due date exactly when
    the API task has one. *)
Theorem mapTask_recurring (task : Task.t) :
  (forall phrase,
     MappedTask.recurring (ToolHelpers.mapTask task) = Some phrase <->
     exists due,
       Task.due task = Some due /\ Task.isRecurring due = true /\
       Task.string due = phrase /\ phrase <> "") /\
  (MappedTask.dueDate (ToolHelpers.mapTask task) = None <-> Task.due task = None).
Proof.
  simpl. destruct (Task.due task) as [due|]; split.
  - intros phrase.
    destruct (Task.isRecurring due) eqn:Er; simpl.
    + destruct (Js.truthy (Task.string due)) eqn:Et.
      * apply truthy_true_iff in Et. split.
        -- intros H. injection H as <-. exists due. auto.
        -- intros [d [E [_ [<- _]]]]. injection E as <-. reflexivity.
      * split; [discriminate|].
        intros [d [E [_ [Hs Hne]]]]. injection E as <-.
        apply truthy_true_iff in Hne. rewrite <- Hs in Hne. congruence.
    + split; [discriminate|].
      intros [d [E [Hr _]]]. injection E as <-. congruence.
  - simpl. split; discriminate.
  - intros phrase. split; [discriminate | intros [d [E _]]; discriminate E].
  - simpl. split; reflexivity.
Qed.

Lemma mapTask_recurring_witness :
  MappedTask.recurring (ToolHelpers.mapTask Household.weekly) = Some "every monday" /\
  MappedTask.dueDate (ToolHelpers.mapTask Household.weekly) <> None.
Proof.
  destruct (mapTask_recurring Household.weekly) as [Hphrase Hdue]. split.
  - apply Hphrase.
    exists {| Task.date := "2025-08-18"; Task.isRecurring := true;
              Task.string := "every monday" |}.
    split; [reflexivity|]. split; [reflexivity|]. split; [reflexivity|discriminate].
  - intros H. apply Hdue in H. discriminate H.
Defined.

Lemma getTasksByFilter_log
    (client : Api.TodoistApi) (query : string) (limit : option Z)
    (cursor : option string) (log : list Api.Call) :
  snd (ToolHelpers.getTasksByFilter client query limit cursor log)
  = (log ++ [Api.CallGetTasksByFilter
               {| Api.query := query; Api.lang := None;
                  Api.limit := limit; Api.cursor := cursor |}])%list.
Proof.
  unfold ToolHelpers.getTasksByFilter, Api.tryCatch, Api.bind, Api.request, Api.ret,
    Api.throw.
  destruct (Api.getTasksByFilter client _) as [failure|page]; [|reflexivity].
  destruct (ToolHelpers.ErrorSchema_safeParse failure) as [data|]; [|reflexivity].
  destruct (String.eqb _ _); reflexivity.
Qed.

Lemma getTasksByFilter_invalid_query
    (client : Api.TodoistApi) (query : string) (limit : option Z)
    (cursor : option string) (failure : Api.Thrown) (status : Z) (err : string)
    (code : Z) (log : list Api.Call) :
  Api.getTasksByFilter client
    {| Api.query := query; Api.lang := None; Api.limit := limit; Api.cursor := cursor |}
  = inl failure ->
  Wording.StructuredError failure status err code "INVALID_SEARCH_QUERY" ->
  fst (ToolHelpers.getTasksByFilter client query limit cursor log)
  = inl (Api.newError ("Invalid filter query: " ++ query)).
Proof.
  intros Hfail Hshape.
  pose proof (proj2 (safeParse_structured failure
    {| ToolHelpers.httpStatusCode := status; ToolHelpers.error := err;
       ToolHelpers.errorCode := code;
       ToolHelpers.errorTag := "INVALID_SEARCH_QUERY" |}) Hshape) as Hparse.
  unfold ToolHelpers.getTasksByFilter, Api.tryCatch, Api.bind, Api.request.
  rewrite Hfail, Hparse. reflexivity.
Qed.

(** X6.  [getTasksByFilter] sends exactly one request upstream, with
    the query, limit and cursor it was given, whether that request
    succeeds or fails: a failure is translated, never retried. *)
Theorem getTasksByFilter_one_request
    (client : Api.TodoistApi) (query : string) (limit : option Z)
    (cursor : option string) (log : list Api.Call) :
  snd (ToolHelpers.getTasksByFilter client query limit cursor log)
  = (log ++ [Api.CallGetTasksByFilter
               {| Api.query := query; Api.lang := None;
                  Api.limit := limit; Api.cursor := cursor |}])%list /\
  forall failure,
    Api.getTasksByFilter client
      {| Api.query := query; Api.lang := None; Api.limit := limit; Api.cursor := cursor |}
    = inl failure ->
    exists thrown,
      fst (ToolHelpers.getTasksByFilter client query limit cursor log) = inl thrown.
Proof.
  split; [apply getTasksByFilter_log|].
  intros failure Hfail.
  unfold ToolHelpers.getTasksByFilter, Api.tryCatch, Api.bind, Api.request, Api.throw.
  rewrite Hfail.
  destruct (ToolHelpers.ErrorSchema_safeParse failure) as [data|];
    [|eexists; reflexivity].
  destruct (String.eqb _ _); eexists; reflexivity.
Qed.

Lemma getTasksByFilter_one_request_witness :
  exists thrown,
    fst (ToolHelpers.getTasksByFilter (Samples.unreachable Samples.networkFailure)
           "today" None None []) = inl thrown.
Proof.
  exact (proj2 (getTasksByFilter_one_request (Samples.unreachable Samples.networkFailure)
                  "today" None None [])
               Samples.networkFailure eq_refl).
Defined.

(** When the request succeeds, [getTasksByFilter] returns one
    mapped task per upstream task, in upstream order and with the same
    ids, and hands on the cursor of the page. *)
Theorem getTasksByFilter_success
    (client : Api.TodoistApi) (query : string) (limit : option Z)
    (cursor : option string) (page : Api.Page Task.t) (log : list Api.Call) :
  Api.getTasksByFilter client
    {| Api.query := query; Api.lang := None; Api.limit := limit; Api.cursor := cursor |}
  = inr page ->
  exists result,
    fst (ToolHelpers.getTasksByFilter client query limit cursor log) = inr result /\
    ToolHelpers.tasks result = map ToolHelpers.mapTask (Api.results page) /\
    map MappedTask.id (ToolHelpers.tasks result) = map Task.id (Api.results page) /\
    List.length (ToolHelpers.tasks result) = List.length (Api.results page) /\
    ToolHelpers.nextCursor result = Api.nextCursor page.
Proof.
  intros Hok.
  exists {| ToolHelpers.tasks := map ToolHelpers.mapTask (Api.results page);
            ToolHelpers.nextCursor := Api.nextCursor page |}.
  split.
  - unfold ToolHelpers.getTasksByFilter, Api.tryCatch, Api.bind, Api.request, Api.ret.
    rewrite Hok. reflexivity.
  - simpl. split; [reflexivity|]. split; [|split; [apply length_map | reflexivity]].
    rewrite map_map. reflexivity.
Qed.

Lemma getTasksByFilter_success_witness :
  exists result,
    fst (ToolHelpers.getTasksByFilter Samples.office "search: important" None None [])
    = inr result /\
    map MappedTask.id (ToolHelpers.tasks result) = ["t-1"; "t-2"].
Proof.
  destruct (getTasksByFilter_success Samples.office "search: important" None None
              {| Api.results := [Samples.task "t-1" "Important meeting task";
                                 Samples.task "t-2" "Another important item"];
                 Api.nextCursor := None |} [] eq_refl)
    as [result [Hrun [_ [Hids _]]]].
  exists result. split; [exact Hrun | exact Hids].
Defined.

(** ** fetch: what it does with a well-formed id *)

Lemma append_empty_r (s : string) : s ++ "" = s.
Proof. induction s as [|c s IH]; [reflexivity|]. simpl. rewrite IH. reflexivity. Qed.

Lemma includes_colon_cons (c : ascii) (s : string) :
  Js.includes ":" (String c s) = false ->
  Ascii.eqb c ":" = false /\ Js.includes ":" s = false.
Proof.
  simpl. rewrite andb_true_r, orb_false_iff, Ascii.eqb_sym. auto.
Qed.

Lemma split_colon_free (s : string) :
  Js.includes ":" s = false -> Js.split ":" s = [s].
Proof.
  induction s as [|c s IH]; [reflexivity|].
  intros H. apply includes_colon_cons in H. destruct H as [Hc Hs].
  simpl. rewrite Hc, (IH Hs). reflexivity.
Qed.

Lemma split_at_colon (a b : string) :
  Js.includes ":" a = false ->
  Js.split ":" (a ++ String ":" b) = a :: Js.split ":" b.
Proof.
  induction a as [|c a IH]; [reflexivity|].
  intros H. apply includes_colon_cons in H. destruct H as [Hc Ha].
  simpl. rewrite Hc, (IH Ha). reflexivity.
Qed.

Lemma splitLimit_two (kind objectId : string) :
  Js.includes ":" kind = false ->
  Js.includes ":" objectId = false ->
  Js.splitLimit ":" 2 (kind ++ ":" ++ objectId) = [kind; objectId].
Proof.
  intros Hk Ho. unfold Js.splitLimit.
  change (":" ++ objectId) with (String ":" objectId).
  rewrite (split_at_colon _ _ Hk), (split_colon_free _ Ho). reflexivity.
Qed.

Lemma splitLimit_three (kind objectId rest : string) :
  Js.includes ":" kind = false ->
  Js.includes ":" objectId = false ->
  Js.splitLimit ":" 2 (kind ++ ":" ++ objectId ++ ":" ++ rest) = [kind; objectId].
Proof.
  intros Hk Ho. unfold Js.splitLimit.
  change (":" ++ objectId ++ ":" ++ rest) with (String ":" (objectId ++ String ":" rest)).
  rewrite (split_at_colon _ _ Hk), (split_at_colon _ _ Ho). reflexivity.
Qed.

(** X7.  [fetch] never throws: for every id and every behaviour of the
    upstream service it resolves with an envelope, and it sends at most
    one request. *)
Theorem fetch_never_throws
    (buildTodoistUrl : string -> string -> string) (id : string)
    (client : Api.TodoistApi) (log : list Api.Call) :
  exists out,
    fst (Fetch.execute buildTodoistUrl id client log) = inr out /\
    (snd (Fetch.execute buildTodoistUrl id client log) = log \/
     exists call, snd (Fetch.execute buildTodoistUrl id client log) = (log ++ [call])%list).
Proof.
  unfold Fetch.execute, Api.tryCatch.
  destruct (nth_error (Js.splitLimit ":" 2 id) 1) as [objectId|];
    [|eexists; split; [reflexivity | left; reflexivity]].
  destruct (negb (Js.truthy objectId)
            || negb (String.eqb (nth 0 (Js.splitLimit ":" 2 id) "") "task")
               && negb (String.eqb (nth 0 (Js.splitLimit ":" 2 id) "") "project"));
    [eexists; split; [reflexivity | left; reflexivity]|].
  unfold Api.bind, Api.request, Api.ret, Api.throw.
  destruct (String.eqb (nth 0 (Js.splitLimit ":" 2 id) "") "task").
  - destruct (Api.getTask client objectId) as [failure|task];
      eexists; (split; [reflexivity | right; eexists; reflexivity]).
  - destruct (Api.getProject client objectId) as [failure|project];
      eexists; (split; [reflexivity | right; eexists; reflexivity]).
Qed.

(** X8.  For an id [task:<id>] or [project:<id>] with a non-empty id
    free of colons, [fetch] sends the one request for that entity; when
    it succeeds the envelope holds the JSON encoding of the mapped entity
    and carries no error flag, and when it fails the envelope is the
    error envelope with the message of the failure. *)
Theorem fetch_well_formed
    (buildTodoistUrl : string -> string -> string) (objectId : string)
    (client : Api.TodoistApi) :
  objectId <> "" ->
  Js.includes ":" objectId = false ->
  Api.run (Fetch.execute buildTodoistUrl ("task:" ++ objectId) client)
  = (inr match Api.getTask client objectId with
         | inr task =>
             Outcomes.jsonEnvelope
               (Fetch.taskResult buildTodoistUrl (ToolHelpers.mapTask task))
         | inl failure => McpHelpers.getErrorOutput (Outcomes.caughtMessage failure)
         end,
     [Api.CallGetTask objectId]) /\
  Api.run (Fetch.execute buildTodoistUrl ("project:" ++ objectId) client)
  = (inr match Api.getProject client objectId with
         | inr project =>
             Outcomes.jsonEnvelope
               (Fetch.projectResult buildTodoistUrl (ToolHelpers.mapProject project))
         | inl failure => McpHelpers.getErrorOutput (Outcomes.caughtMessage failure)
         end,
     [Api.CallGetProject objectId]).
Proof.
  intros Hne Hfree. apply truthy_true_iff in Hne.
  unfold Api.run, Fetch.execute, Api.tryCatch.
  split.
  - change ("task:" ++ objectId) with ("task" ++ ":" ++ objectId).
    rewrite (splitLimit_two "task" objectId eq_refl Hfree).
    cbn [nth nth_error]. rewrite Hne.
    unfold Api.bind, Api.request, Api.ret. simpl.
    destruct (Api.getTask client objectId) as [[]|task]; reflexivity.
  - change ("project:" ++ objectId) with ("project" ++ ":" ++ objectId).
    rewrite (splitLimit_two "project" objectId eq_refl Hfree).
    cbn [nth nth_error]. rewrite Hne.
    unfold Api.bind, Api.request, Api.ret. simpl.
    destruct (Api.getProject client objectId) as [[]|project]; reflexivity.
Qed.

Lemma fetch_well_formed_witness :
  Api.run (Fetch.execute Samples.appUrl "task:7" Samples.office)
  = (inr (McpHelpers.getErrorOutput "socket hang up"), [Api.CallGetTask "7"]).
Proof.
  apply (proj1 (fetch_well_formed Samples.appUrl "7" Samples.office
                  ltac:(discriminate) eq_refl)).
Defined.

(** X9.  [fetch] reads only the two pieces before the second colon:
    whatever follows a second colon in the id is dropped, so
    [<kind>:<id>:<more>] is handled exactly as [<kind>:<id>]. *)
Theorem fetch_drops_after_second_colon
    (buildTodoistUrl : string -> string -> string) (kind objectId more : string)
    (client : Api.TodoistApi) (log : list Api.Call) :
  Js.includes ":" kind = false ->
  Js.includes ":" objectId = false ->
  Fetch.execute buildTodoistUrl (kind ++ ":" ++ objectId ++ ":" ++ more) client log
  = Fetch.execute buildTodoistUrl (kind ++ ":" ++ objectId) client log.
Proof.
  intros Hk Ho. unfold Fetch.execute.
  rewrite (splitLimit_three kind objectId more Hk Ho), (splitLimit_two kind objectId Hk Ho).
  reflexivity.
Qed.

Lemma fetch_drops_after_second_colon_witness :
  Fetch.execute Samples.appUrl "project:6cfC:anything" Samples.office []
  = Fetch.execute Samples.appUrl "project:6cfC" Samples.office [].
Proof.
  apply (fetch_drops_after_second_colon Samples.appUrl "project" "6cfC" "anything"
           Samples.office [] eq_refl eq_refl).
Defined.

(** X10.  The text of a fetched task is its content followed by the
    description, the due date and the labels, each only when present and
    always in that order; a task with none of them has its content as
    text, with nothing after it. *)
Theorem fetch_task_text
    (buildTodoistUrl : string -> string -> string) (task : MappedTask.t) :
  Outcomes.field "text" (Fetch.taskResult buildTodoistUrl task)
  = Some (Json.VStr (Outcomes.taskText task)) /\
  Outcomes.field "title" (Fetch.taskResult buildTodoistUrl task)
  = Some (Json.VStr (MappedTask.content task)) /\
  (MappedTask.description task = "" ->
   MappedTask.dueDate task = None ->
   MappedTask.labels task = [] ->
   Outcomes.field "text" (Fetch.taskResult buildTodoistUrl task)
   = Some (Json.VStr (MappedTask.content task))).
Proof.
  assert (Htext : Outcomes.field "text" (Fetch.taskResult buildTodoistUrl task)
                  = Some (Json.VStr (Outcomes.taskText task))).
  { unfold Fetch.taskResult, Outcomes.field, Outcomes.taskText, Fetch.pushIf, Js.join.
    cbn [Json.lookup String.eqb Ascii.eqb Bool.eqb].
    do 2 f_equal.
    destruct (Js.truthy (MappedTask.description task));
      destruct (MappedTask.dueDate task) as [dueDate|];
      try destruct (Js.truthy dueDate);
      destruct (MappedTask.labels task) as [|l ls];
      cbn [List.length Nat.ltb Nat.leb app String.concat];
      rewrite ?append_empty_r; reflexivity. }
  split; [exact Htext|]. split; [reflexivity|].
  intros Hd Hdue Hl. rewrite Htext. unfold Outcomes.taskText.
  rewrite Hd, Hdue, Hl. simpl. rewrite append_empty_r. reflexivity.
Qed.

Lemma fetch_task_text_witness :
  Outcomes.field "text"
    (Fetch.taskResult Samples.appUrl (ToolHelpers.mapTask Wording.urgentTask))
  = Some (Json.VStr "Pay the rent").
Proof.
  apply (proj2 (proj2 (fetch_task_text Samples.appUrl
                         (ToolHelpers.mapTask Wording.urgentTask))));
    reflexivity.
Defined.

(** ** search: requests and failures *)

(** X11.  [search] never throws and always sends the same two requests,
    the filter request [search: <query>] with the largest page size and
    the request for the projects, in that order; the second is sent even
    when the first fails, and the order of the answers changes none of
    this. *)
Theorem search_never_throws
    (buildTodoistUrl : string -> string -> string) (arrival : Api.Arrival)
    (query : string) (client : Api.TodoistApi) (log : list Api.Call) :
  (exists out,
     fst (Search.execute buildTodoistUrl arrival query client log) = inr out) /\
  snd (Search.execute buildTodoistUrl arrival query client log)
  = (log ++ [Api.CallGetTasksByFilter
               {| Api.query := "search: " ++ query; Api.lang := None;
                  Api.limit := Some ApiLimits.TASKS_MAX; Api.cursor := None |};
             Api.CallGetProjects ApiLimits.PROJECTS_MAX])%list.
Proof.
  unfold Search.execute, Api.tryCatch, Api.bind, Api.promiseAll2.
  pose proof (getTasksByFilter_log client ("search: " ++ query)
                (Some ApiLimits.TASKS_MAX) None log) as Hlog.
  destruct (ToolHelpers.getTasksByFilter client ("search: " ++ query)
              (Some ApiLimits.TASKS_MAX) None log) as [tasksResult log1].
  simpl in Hlog. subst log1.
  unfold Api.request, Api.ret.
  destruct tasksResult as [failure|tasksResult];
    destruct (Api.getProjects client ApiLimits.PROJECTS_MAX) as [failure'|projects];
    destruct arrival;
    simpl; rewrite <- app_assoc; (split; [eexists; reflexivity | reflexivity]).
Qed.

(** X12.  A failure of a request of [search] comes back as an error
    envelope, not as a list of results, and the message is that of the
    rejection [Promise.all] sees first.  A filter the API refuses as
    invalid gives [Invalid filter query: search: <query>] when the
    project request succeeds or is answered later.  A failure of the
    project request gives the message of that failure, untranslated,
    when the filter request succeeds or is answered later: so it does
    when every request fails at once with the invalid-filter failure. *)
Theorem search_failure
    (buildTodoistUrl : string -> string -> string) (arrival : Api.Arrival)
    (query : string) (client : Api.TodoistApi) :
  let args := {| Api.query := "search: " ++ query; Api.lang := None;
                 Api.limit := Some ApiLimits.TASKS_MAX; Api.cursor := None |} in
  (forall failure status err code,
     Api.getTasksByFilter client args = inl failure ->
     Wording.StructuredError failure status err code "INVALID_SEARCH_QUERY" ->
     (exists projects, Api.getProjects client ApiLimits.PROJECTS_MAX = inr projects) \/
     arrival = Api.FirstSettlesFirst ->
     fst (Api.run (Search.execute buildTodoistUrl arrival query client))
     = inr (McpHelpers.getErrorOutput ("Invalid filter query: search: " ++ query))) /\
  (forall failure,
     Api.getProjects client ApiLimits.PROJECTS_MAX = inl failure ->
     (exists page, Api.getTasksByFilter client args = inr page) \/
     arrival = Api.SecondSettlesFirst ->
     fst (Api.run (Search.execute buildTodoistUrl arrival query client))
     = inr (McpHelpers.getErrorOutput (Outcomes.caughtMessage failure))).
Proof.
  intros args. split.
  - intros failure status err code Hfail Hshape Hfirst.
    pose proof (getTasksByFilter_invalid_query client ("search: " ++ query)
                  (Some ApiLimits.TASKS_MAX) None failure status err code []
                  Hfail Hshape) as Htasks.
    unfold Api.run, Search.execute, Api.tryCatch, Api.bind, Api.promiseAll2.
    destruct (ToolHelpers.getTasksByFilter client ("search: " ++ query)
                (Some ApiLimits.TASKS_MAX) None []) as [tasksResult log1].
    simpl in Htasks. subst tasksResult.
    unfold Api.request.
    destruct Hfirst as [[projects ->] | ->]; [reflexivity|].
    destruct (Api.getProjects client ApiLimits.PROJECTS_MAX); reflexivity.
  - intros failure Hfail Hfirst.
    unfold Api.run, Search.execute, Api.tryCatch, Api.bind, Api.promiseAll2.
    destruct (ToolHelpers.getTasksByFilter client ("search: " ++ query)
                (Some ApiLimits.TASKS_MAX) None []) as [tasksResult log1] eqn:Htasks.
    unfold Api.request. rewrite Hfail.
    destruct Hfirst as [[page Hok] | ->].
    + unfold ToolHelpers.getTasksByFilter, Api.tryCatch, Api.bind, Api.request, Api.ret
        in Htasks.
      fold args in Htasks. rewrite Hok in Htasks. injection Htasks as <- _.
      destruct failure; reflexivity.
    + destruct tasksResult; destruct failure; reflexivity.
Qed.

Lemma search_failure_witness :
  fst (Api.run (Search.execute Samples.appUrl Api.FirstSettlesFirst "(("
                  (Samples.unreachable Samples.invalidQueryFailure)))
  = inr (McpHelpers.getErrorOutput "Invalid filter query: search: ((") /\
  fst (Api.run (Search.execute Samples.appUrl Api.SecondSettlesFirst "(("
                  (Samples.unreachable Samples.invalidQueryFailure)))
  = inr (McpHelpers.getErrorOutput "Request failed with status code 400").
Proof.
  split.
  - refine (proj1 (search_failure Samples.appUrl Api.FirstSettlesFirst "(("
                     (Samples.unreachable Samples.invalidQueryFailure))
                  Samples.invalidQueryFailure 400%Z "Invalid search query" 400%Z
                  eq_refl _ (or_intror eq_refl)).
    econstructor; reflexivity.
  - exact (proj2 (search_failure Samples.appUrl Api.SecondSettlesFirst "(("
                    (Samples.unreachable Samples.invalidQueryFailure))
                 Samples.invalidQueryFailure eq_refl (or_intror eq_refl)).
Defined.

(** ** removeNullFields: a second pass changes nothing *)

Lemma sanitizeEntries_fixed (fields : list (string * Json.JsVal)) :
  Forall (fun kv => Sanitize.sanitizedValue (snd kv) = true ->
                    Sanitize.removeNullFields (snd kv) = snd kv) fields ->
  Sanitize.sanitizedValue (Json.VObj fields) = true ->
  Sanitize.sanitizeEntries fields = fields.
Proof.
  intros IH. simpl. induction IH as [|[k x] rest Hx _ IHrest]; [reflexivity|].
  cbn [forallb]. rewrite !andb_true_iff, !negb_true_iff.
  intros [[[[Hnull Harr] Hobj] Hsan] Hrest].
  cbn [snd] in Hx. cbn [Sanitize.sanitizeEntries].
  rewrite (Hx Hsan), Harr, Hobj, (IHrest Hrest).
  destruct x; try reflexivity. discriminate Hnull.
Qed.

Lemma removeNullFields_fixed (v : Json.JsVal) :
  Sanitize.sanitizedValue v = true -> Sanitize.removeNullFields v = v.
Proof.
  induction v as [| | | | |items IH|fields IH] using Json.JsVal_nested_ind;
    try reflexivity.
  - simpl. intros H. f_equal.
    induction IH as [|x rest Hx _ IHrest]; [reflexivity|].
    simpl in H. apply andb_true_iff in H. destruct H as [H1 H2].
    simpl. rewrite (Hx H1), (IHrest H2). reflexivity.
  - intros H. rewrite removeNullFields_obj.
    rewrite (sanitizeEntries_fixed fields IH H). reflexivity.
Qed.

(** X13.  [removeNullFields] leaves alone a value that has nothing to
    remove (no field, at any depth, holding [null], an empty object or an
    empty array), and so applying it twice gives what applying it once
    gives. *)
Theorem removeNullFields_idempotent :
  (forall v, Sanitize.sanitizedValue v = true -> Sanitize.removeNullFields v = v) /\
  (forall v,
     Sanitize.removeNullFields (Sanitize.removeNullFields v)
     = Sanitize.removeNullFields v).
Proof.
  split; [exact removeNullFields_fixed|].
  intros v. apply removeNullFields_fixed, removeNullFields_sanitized.
Qed.

Lemma removeNullFields_idempotent_witness :
  Sanitize.removeNullFields
    (Json.VObj [("id", Json.VNum 2); ("tags", Json.VArr [Json.VNull; Json.VObj []])])
  = Json.VObj [("id", Json.VNum 2); ("tags", Json.VArr [Json.VNull; Json.VObj []])].
Proof.
  apply (proj1 removeNullFields_idempotent). reflexivity.
Defined.

(** ** find-tasks-by-date: validation, the query as a whole, the outcome *)

Lemma append_assoc (a b c : string) : (a ++ b) ++ c = a ++ b ++ c.
Proof. induction a as [|x a IH]; [reflexivity|]. simpl. rewrite IH. reflexivity. Qed.

Lemma positive_length (s : string) : Nat.ltb 0 (String.length s) = negb (Js.isEmpty s).
Proof. destruct s; reflexivity. Qed.

(** X14.  Without a start date (absent or empty) and without the option
    [overdue-only], [find-tasks-by-date] rejects with its validation
    error before any request is sent. *)
Theorem findTasksByDate_validation
    (offsetMinutes : Z)
    (generateTextContent :
       list MappedTask.t -> FindTasksByDate.Args -> option string -> string)
    (args : FindTasksByDate.Args) (client : Api.TodoistApi) :
  FindTasksByDate.startDate args = None \/ FindTasksByDate.startDate args = Some "" ->
  FindTasksByDate.overdueOption args <> Some FindTasksByDate.overdue_only ->
  Api.run (FindTasksByDate.execute offsetMinutes generateTextContent args client)
  = (inl (Api.newError
            "Either startDate must be provided or overdueOption must be set to overdue-only"),
     []).
Proof.
  intros Hstart Hmode. unfold Api.run, FindTasksByDate.execute.
  assert (Hnot : FindTasksByDate.overdueIs FindTasksByDate.overdue_only
                   (FindTasksByDate.overdueOption args) = false).
  { destruct (FindTasksByDate.overdueOption args) as [[]|]; try reflexivity.
    contradiction Hmode. reflexivity. }
  rewrite Hnot. destruct Hstart as [-> | ->]; reflexivity.
Qed.

Lemma findTasksByDate_validation_witness :
  Api.run (FindTasksByDate.execute 0 (fun _ _ _ => "")
             {| FindTasksByDate.startDate := None;
                FindTasksByDate.overdueOption := Some FindTasksByDate.include_overdue;
                FindTasksByDate.daysCount := 1; FindTasksByDate.limit := 50;
                FindTasksByDate.cursor := None;
                FindTasksByDate.responsibleUserFiltering := None;
                FindTasksByDate.labels := None;
                FindTasksByDate.labelsOperator := None |} Samples.office)
  = (inl (Api.newError
            "Either startDate must be provided or overdueOption must be set to overdue-only"),
     []).
Proof.
  apply findTasksByDate_validation; [left; reflexivity | discriminate].
Defined.

(** X15.  For the start date [today], and for the option
    [overdue-only], the date part of the query does not depend on the
    day count (nor on the time zone of the host): a window of several
    days starting today is the same query as today alone. *)
Theorem dateQuery_ignores_daysCount
    (offsetMinutes offsetMinutes' : Z) (args : FindTasksByDate.Args) (n : Z) :
  FindTasksByDate.startDate args = Some "today" \/
  FindTasksByDate.overdueOption args = Some FindTasksByDate.overdue_only ->
  FindTasksByDate.dateQuery offsetMinutes' (Variants.withDaysCount n args)
  = FindTasksByDate.dateQuery offsetMinutes args.
Proof.
  unfold FindTasksByDate.dateQuery, Variants.withDaysCount. simpl.
  intros [H|H]; rewrite H; [|reflexivity].
  destruct (FindTasksByDate.overdueIs _ _); reflexivity.
Qed.

Lemma dateQuery_ignores_daysCount_witness :
  FindTasksByDate.dateQuery 0 (FindTasksByDate.daysFrom "today" 7)
  = FindTasksByDate.dateQuery 0 (FindTasksByDate.daysFrom "today" 1).
Proof.
  apply (dateQuery_ignores_daysCount 0 0 (FindTasksByDate.daysFrom "today" 1) 7).
  left. reflexivity.
Defined.

(** X16.  The appends that [find-tasks-by-date] writes out by hand are
    those of [appendToQuery]: the query is the date part, then the label
    expression in one more pair of parentheses, then the fragment
    [buildResponsibleUserQueryFilter] gives for the mode, empty pieces
    being skipped.  With mode [all] and no labels the date part is the
    whole query. *)
Theorem completeQuery_composition (args : FindTasksByDate.Args) (query : string) :
  FindTasksByDate.completeQuery args query
  = FilterHelpers.appendToQuery
      (FilterHelpers.appendToQuery query (Variants.wrappedLabels args))
      (FilterHelpers.buildResponsibleUserQueryFilter None None
         (FindTasksByDate.responsibleUserFiltering args)) /\
  (FindTasksByDate.responsibleUserFiltering args = Some FilterHelpers.all ->
   FindTasksByDate.labels args = None \/ FindTasksByDate.labels args = Some [] ->
   FindTasksByDate.completeQuery args query = query).
Proof.
  assert (Hpieces :
    FindTasksByDate.completeQuery args query
    = FilterHelpers.appendToQuery
        (FilterHelpers.appendToQuery query (Variants.wrappedLabels args))
        (FilterHelpers.buildResponsibleUserQueryFilter None None
           (FindTasksByDate.responsibleUserFiltering args))).
  { unfold FindTasksByDate.completeQuery, Variants.wrappedLabels,
      FilterHelpers.appendToQuery, FilterHelpers.buildResponsibleUserQueryFilter.
    generalize (Labels.generateLabelsFilter (FindTasksByDate.labels args)
                  (FindTasksByDate.labelsOperator args)).
    intros labelsFilter.
    destruct labelsFilter as [|a labelsFilter]; destruct query as [|b query];
      destruct (FindTasksByDate.responsibleUserFiltering args) as [[]|];
      simpl; rewrite ?append_assoc; reflexivity. }
  split; [exact Hpieces|].
  intros Hmode Hlabels. rewrite Hpieces. unfold Variants.wrappedLabels.
  rewrite Hmode. destruct Hlabels as [-> | ->]; simpl;
    unfold FilterHelpers.appendToQuery; reflexivity.
Qed.

Lemma completeQuery_composition_witness :
  FindTasksByDate.completeQuery
    {| FindTasksByDate.startDate := Some "today";
       FindTasksByDate.overdueOption := None;
       FindTasksByDate.daysCount := 1; FindTasksByDate.limit := 50;
       FindTasksByDate.cursor := None;
       FindTasksByDate.responsibleUserFiltering := Some FilterHelpers.all;
       FindTasksByDate.labels := Some [];
       FindTasksByDate.labelsOperator := None |}
    "(today | overdue)"
  = "(today | overdue)".
Proof.
  apply (proj2 (completeQuery_composition _ "(today | overdue)"));
    [reflexivity | right; reflexivity].
Defined.

(** X17.  A start date of the right form that names no month 1..12 or
    no day 1..31 (such as [2025-13-01]) makes [find-tasks-by-date]
    reject with the [RangeError] of [formatISO], [Invalid time value],
    before any request is sent. *)
Theorem findTasksByDate_invalid_date
    (offsetMinutes : Z)
    (generateTextContent :
       list MappedTask.t -> FindTasksByDate.Args -> option string -> string)
    (args : FindTasksByDate.Args) (start : string) (fields : JsDate.Civil)
    (client : Api.TodoistApi) :
  FindTasksByDate.overdueOption args <> Some FindTasksByDate.overdue_only ->
  FindTasksByDate.startDate args = Some start ->
  JsDate.dateFields start = Some fields ->
  Variants.outOfCalendar fields ->
  Api.run (FindTasksByDate.execute offsetMinutes generateTextContent args client)
  = (inl (Api.newError "Invalid time value"), []).
Proof.
  intros Hmode Hstart Hfields Hout.
  assert (Hnot : FindTasksByDate.overdueIs FindTasksByDate.overdue_only
                   (FindTasksByDate.overdueOption args) = false).
  { destruct (FindTasksByDate.overdueOption args) as [[]|]; try reflexivity.
    contradiction Hmode. reflexivity. }
  destruct (dateFields_not_today start fields Hfields) as [Htoday Htruthy].
  assert (Hparse : JsDate.parse start = None).
  { unfold JsDate.parse. rewrite Hfields.
    replace ((1 <=? JsDate.month fields)%Z && (JsDate.month fields <=? 12)%Z
             && (1 <=? JsDate.day fields)%Z && (JsDate.day fields <=? 31)%Z)
      with false; [reflexivity|].
    symmetry. unfold Variants.outOfCalendar in Hout.
    rewrite !andb_false_iff, !Z.leb_gt. lia. }
  unfold Api.run, FindTasksByDate.execute, FindTasksByDate.dateQuery.
  rewrite Hnot, Hstart, Htoday. cbn [Js.truthyOpt]. rewrite Htruthy, Hparse.
  reflexivity.
Qed.

Lemma findTasksByDate_invalid_date_witness :
  Api.run (FindTasksByDate.execute 0 (fun _ _ _ => "")
             (FindTasksByDate.daysFrom "2025-13-01" 1) Samples.office)
  = (inl (Api.newError "Invalid time value"), []).
Proof.
  apply (findTasksByDate_invalid_date 0 (fun _ _ _ => "")
           (FindTasksByDate.daysFrom "2025-13-01" 1) "2025-13-01"
           {| JsDate.year := 2025; JsDate.month := 13; JsDate.day := 1 |} Samples.office).
  - discriminate.
  - reflexivity.
  - reflexivity.
  - unfold Variants.outOfCalendar. simpl. lia.
Defined.

(** X18.  Once the date part is built, [find-tasks-by-date] sends
    exactly one request, carrying the completed query with the limit and
    cursor of the arguments, and returns the tasks of the page as they
    come, mapped and in order, with no filtering of its own; the count is
    their number and [hasMore] tells whether a cursor came back. *)
Theorem findTasksByDate_outcome
    (offsetMinutes : Z)
    (generateTextContent :
       list MappedTask.t -> FindTasksByDate.Args -> option string -> string)
    (args : FindTasksByDate.Args) (client : Api.TodoistApi)
    (dateFragment : string) (page : Api.Page Task.t) :
  Js.truthyOpt (FindTasksByDate.startDate args) = true \/
  FindTasksByDate.overdueOption args = Some FindTasksByDate.overdue_only ->
  FindTasksByDate.dateQuery offsetMinutes args = inr dateFragment ->
  Api.getTasksByFilter client
    {| Api.query := FindTasksByDate.completeQuery args dateFragment; Api.lang := None;
       Api.limit := Some (FindTasksByDate.limit args);
       Api.cursor := FindTasksByDate.cursor args |} = inr page ->
  exists out,
    Api.run (FindTasksByDate.execute offsetMinutes generateTextContent args client)
    = (inr out,
       [Variants.dateRequest args (FindTasksByDate.completeQuery args dateFragment)]) /\
    ToolOutput.tasks out = map ToolHelpers.mapTask (Api.results page) /\
    ToolOutput.totalCount out = List.length (Api.results page) /\
    ToolOutput.nextCursor out = Api.nextCursor page /\
    ToolOutput.hasMore out = Js.truthyOpt (Api.nextCursor page).
Proof.
  intros Hvalid Hdate Hpage.
  eexists. split.
  - unfold Api.run, FindTasksByDate.execute.
    assert (Hcheck : negb (Js.truthyOpt (FindTasksByDate.startDate args))
                     && negb (FindTasksByDate.overdueIs FindTasksByDate.overdue_only
                                (FindTasksByDate.overdueOption args)) = false).
    { destruct Hvalid as [H|H]; rewrite H; [reflexivity | apply andb_false_r]. }
    rewrite Hcheck, Hdate.
    unfold Api.bind, ToolHelpers.getTasksByFilter, Api.tryCatch, Api.bind, Api.request,
      Api.ret.
    rewrite Hpage. reflexivity.
  - simpl. rewrite length_map. auto.
Qed.

Lemma findTasksByDate_outcome_witness :
  exists out,
    Api.run (FindTasksByDate.execute 0 (fun _ _ _ => "")
               (FindTasksByDate.daysFrom "today" 1) Samples.office)
    = (inr out,
       [Variants.dateRequest (FindTasksByDate.daysFrom "today" 1)
          "(today | overdue) & !assigned to: others"]) /\
    ToolOutput.totalCount out = 2.
Proof.
  destruct (findTasksByDate_outcome 0 (fun _ _ _ => "")
              (FindTasksByDate.daysFrom "today" 1) Samples.office "(today | overdue)"
              {| Api.results := [Samples.task "t-1" "Important meeting task";
                                 Samples.task "t-2" "Another important item"];
                 Api.nextCursor := None |}
              (or_introl eq_refl) eq_refl eq_refl)
    as [out [Hrun [_ [Hcount _]]]].
  exists out. split; [exact Hrun | exact Hcount].
Defined.

(** ** find-tasks: the three routes *)

Lemma filter_all {A : Type} (l : list A) : filter (fun _ => true) l = l.
Proof. induction l as [|x l IH]; [reflexivity|]. simpl. rewrite IH. reflexivity. Qed.

Lemma filter_twice {A : Type} (f g : A -> bool) (l : list A) :
  filter g (filter f l) = filter (fun x => f x && g x) l.
Proof.
  induction l as [|x l IH]; [reflexivity|].
  simpl. destruct (f x); simpl; [destruct (g x)|]; rewrite IH; reflexivity.
Qed.



Lemma unresolved_user (client : Api.TodoistApi) (user : option string) (log : list Api.Call) :
  user = None \/ user = Some "" ->
  FindTasks.resolveResponsibleUser client user log = (inr None, log).
Proof. intros [-> | ->]; reflexivity. Qed.

Lemma container_passes_validation (args : FindTasks.Args) :
  Routes.hasContainer args = true ->
  negb (Js.truthyOpt (FindTasks.searchText args))
  && negb (Js.truthyOpt (FindTasks.projectId args))
  && negb (Js.truthyOpt (FindTasks.sectionId args))
  && negb (Js.truthyOpt (FindTasks.parentId args))
  && negb (Js.truthyOpt (FindTasks.responsibleUser args))
  && negb (FindTasks.hasLabels (FindTasks.labels args)) = false.
Proof.
  unfold Routes.hasContainer.
  destruct (Js.truthyOpt (FindTasks.projectId args)),
           (Js.truthyOpt (FindTasks.sectionId args)),
           (Js.truthyOpt (FindTasks.parentId args)); simpl; intros H;
    try discriminate H; rewrite ?andb_false_r; reflexivity.
Qed.

(** The run of the container route, without a responsible user. *)
Lemma container_run
    (generateTextContent :
       list MappedTask.t -> FindTasks.Args -> option string -> bool -> option string -> string)
    (args : FindTasks.Args) (client : Api.TodoistApi) (user : Api.User)
    (page : Api.Page Task.t) :
  Api.getUser client = inr user ->
  FindTasks.responsibleUser args = None \/ FindTasks.responsibleUser args = Some "" ->
  Routes.hasContainer args = true ->
  Api.getTasks client (Routes.containerParams args) = inr page ->
  Api.run (FindTasks.execute generateTextContent args client)
  = (inr (FindTasks.output generateTextContent args
            (filter (fun task =>
                       Routes.passesText args task
                       && Routes.passesAssignment args (Api.userId user) task
                       && Routes.passesLabels args task)
                    (map ToolHelpers.mapTask (Api.results page)))
            (Api.nextCursor page) true None),
     [Api.CallGetUser; Api.CallGetTasks (Routes.containerParams args)]).
Proof.
  intros Huser Hnobody Hcontainer Hpage.
  unfold Api.run, FindTasks.execute, Api.bind at 1, Api.request at 1.
  rewrite Huser. rewrite (container_passes_validation args Hcontainer).
  unfold Api.bind at 1. rewrite (unresolved_user client _ _ Hnobody).
  fold (Routes.hasContainer args). rewrite Hcontainer.
  fold (Routes.containerParams args).
  unfold Api.bind, Api.request, Api.ret. rewrite Hpage. cbn [option_map app].
  do 3 f_equal.
  set (mapped := map ToolHelpers.mapTask (Api.results page)).
  assert (Htext :
    match FindTasks.searchText args with
    | Some text =>
        if Js.truthy text
        then filter (fun task => FindTasks.mentions text (MappedTask.content task)
                                 || FindTasks.mentions text (MappedTask.description task))
                    mapped
        else mapped
    | None => mapped
    end = filter (Routes.passesText args) mapped).
  { unfold Routes.passesText. destruct (FindTasks.searchText args) as [text|];
      [destruct (Js.truthy text)|]; rewrite ?filter_all; reflexivity. }
  rewrite Htext.
  assert (Hassign : forall l,
    FilterHelpers.filterTasksByResponsibleUser MappedTask.responsibleUid l None
      (Api.userId user) (FindTasks.responsibleUserFiltering args)
    = filter (Routes.passesAssignment args (Api.userId user)) l).
  { intros l. unfold FilterHelpers.filterTasksByResponsibleUser, Routes.passesAssignment.
    destruct (FindTasks.responsibleUserFiltering args) as [[]|]; simpl;
      rewrite ?filter_all; reflexivity. }
  rewrite Hassign.
  assert (Hlabels : forall l,
    match FindTasks.labels args with
    | Some (x :: xs) =>
        match FindTasks.labelsOperator args with
        | Some Labels.opAnd =>
            filter (fun task => forallb (FindTasks.hasLabel task) (x :: xs)) l
        | _ => filter (fun task => existsb (FindTasks.hasLabel task) (x :: xs)) l
        end
    | _ => l
    end = filter (Routes.passesLabels args) l).
  { intros l. unfold Routes.passesLabels.
    destruct (FindTasks.labels args) as [[|x xs]|]; rewrite ?filter_all; try reflexivity.
    destruct (FindTasks.labelsOperator args) as [[]|]; reflexivity. }
  rewrite Hlabels, !filter_twice.
  apply filter_ext. intros task. rewrite andb_assoc. reflexivity.
Qed.

(** X19.  When a project, section or parent is named (and no
    responsible user), [find-tasks] asks for the current user and then
    lists the container, and sends nothing else: the search text and the
    labels never go upstream on this route, and the filter endpoint is
    not used.  The tasks returned are tasks of the listed page, and the
    cursor is that of the page. *)
Theorem findTasks_container_route
    (generateTextContent :
       list MappedTask.t -> FindTasks.Args -> option string -> bool -> option string -> string)
    (args : FindTasks.Args) (client : Api.TodoistApi) (user : Api.User)
    (page : Api.Page Task.t) :
  Api.getUser client = inr user ->
  FindTasks.responsibleUser args = None \/ FindTasks.responsibleUser args = Some "" ->
  Routes.hasContainer args = true ->
  Api.getTasks client (Routes.containerParams args) = inr page ->
  exists out,
    Api.run (FindTasks.execute generateTextContent args client)
    = (inr out, [Api.CallGetUser; Api.CallGetTasks (Routes.containerParams args)]) /\
    incl (ToolOutput.tasks out) (map ToolHelpers.mapTask (Api.results page)) /\
    List.length (ToolOutput.tasks out) <= List.length (Api.results page) /\
    ToolOutput.nextCursor out = Api.nextCursor page.
Proof.
  intros Huser Hnobody Hcontainer Hpage.
  eexists. split;
    [exact (container_run generateTextContent args client user page
              Huser Hnobody Hcontainer Hpage)|].
  cbn [FindTasks.output ToolOutput.tasks ToolOutput.nextCursor].
  split; [apply incl_filter|]. split; [|reflexivity].
  rewrite <- (length_map ToolHelpers.mapTask (Api.results page)).
  apply filter_length_le.
Qed.

Lemma findTasks_container_route_witness :
  exists out,
    Api.run (FindTasks.execute FindTasks.noSummary
               (Household.request (Some "milk") (Some "home") None (Some ["errand"]))
               Household.service)
    = (inr out,
       [Api.CallGetUser;
        Api.CallGetTasks
          {| Api.tasksLimit := 10; Api.tasksCursor := None;
             Api.tasksProjectId := Some "home"; Api.tasksSectionId := None;
             Api.tasksParentId := None |}]) /\
    ToolOutput.nextCursor out = Some "next".
Proof.
  destruct (findTasks_container_route FindTasks.noSummary
              (Household.request (Some "milk") (Some "home") None (Some ["errand"]))
              Household.service {| Api.userId := "me"; Api.email := "me@example.com" |}
              {| Api.results := Household.chores; Api.nextCursor := Some "next" |}
              eq_refl (or_introl eq_refl) eq_refl eq_refl)
    as [out [Hrun [_ [_ Hcursor]]]].
  exists out. split; [exact Hrun | exact Hcursor].
Defined.




Lemma named_user_passes_validation (args : FindTasks.Args) (name : string) :
  FindTasks.responsibleUser args = Some name -> name <> "" ->
  negb (Js.truthyOpt (FindTasks.searchText args))
  && negb (Js.truthyOpt (FindTasks.projectId args))
  && negb (Js.truthyOpt (FindTasks.sectionId args))
  && negb (Js.truthyOpt (FindTasks.parentId args))
  && negb (Js.truthyOpt (FindTasks.responsibleUser args))
  && negb (FindTasks.hasLabels (FindTasks.labels args)) = false.
Proof.
  intros -> Hname. apply truthy_true_iff in Hname. cbn [Js.truthyOpt].
  rewrite Hname. cbn [negb]. rewrite andb_false_r. reflexivity.
Qed.

(** X21.  A responsible user the directory does not know makes
    [find-tasks] reject with [Could not find user: "<name>" ...], after
    the request for the current user and the lookup, and before any
    request for tasks. *)
Theorem findTasks_user_not_found
    (generateTextContent :
       list MappedTask.t -> FindTasks.Args -> option string -> bool -> option string -> string)
    (args : FindTasks.Args) (client : Api.TodoistApi) (user : Api.User) (name : string) :
  Api.getUser client = inr user ->
  FindTasks.responsibleUser args = Some name ->
  name <> "" ->
  Api.resolveUserNameToId client name = inr None ->
  Api.run (FindTasks.execute generateTextContent args client)
  = (inl (Api.newError (Routes.userNotFoundMessage name)),
     [Api.CallGetUser; Api.CallResolveUser name]).
Proof.
  intros Huser Hname Hne Hunknown.
  unfold Api.run, FindTasks.execute, Api.bind at 1, Api.request at 1.
  rewrite Huser, (named_user_passes_validation args name Hname Hne).
  unfold Api.bind at 1, FindTasks.resolveResponsibleUser.
  rewrite Hname. apply truthy_true_iff in Hne. rewrite Hne.
  unfold Api.bind, Api.request. rewrite Hunknown. reflexivity.
Qed.

Lemma findTasks_user_not_found_witness :
  Api.run (FindTasks.execute FindTasks.noSummary
             (Household.request None (Some "home") (Some "bob") None) Household.service)
  = (inl (Api.newError (Routes.userNotFoundMessage "bob")),
     [Api.CallGetUser; Api.CallResolveUser "bob"]).
Proof.
  apply (findTasks_user_not_found FindTasks.noSummary
           (Household.request None (Some "home") (Some "bob") None) Household.service
           {| Api.userId := "me"; Api.email := "me@example.com" |} "bob");
    [reflexivity | reflexivity | discriminate | reflexivity].
Defined.

(** X22.  With a responsible user that resolves and nothing else to
    filter by, [find-tasks] asks the filter endpoint for
    [assigned to: <email>] in English, with the limit and cursor of the
    arguments, and returns the page as it comes, with no filtering of
    its own.  This request does not go through [getTasksByFilter]: when
    it fails the failure is thrown as it is, a structured one as
    well. *)
Theorem findTasks_assignee_route
    (generateTextContent :
       list MappedTask.t -> FindTasks.Args -> option string -> bool -> option string -> string)
    (args : FindTasks.Args) (client : Api.TodoistApi) (user resolved : Api.User)
    (name : string) :
  Api.getUser client = inr user ->
  FindTasks.responsibleUser args = Some name ->
  name <> "" ->
  Api.resolveUserNameToId client name = inr (Some resolved) ->
  Api.userId resolved <> "" ->
  Routes.hasContainer args = false ->
  Js.truthyOpt (FindTasks.searchText args) = false ->
  FindTasks.hasLabels (FindTasks.labels args) = false ->
  let request :=
    {| Api.query := "assigned to: " ++ Api.email resolved; Api.lang := Some "en";
       Api.limit := Some (FindTasks.limit args); Api.cursor := FindTasks.cursor args |} in
  Api.run (FindTasks.execute generateTextContent args client)
  = (match Api.getTasksByFilter client request with
     | inr page =>
         inr (FindTasks.output generateTextContent args
                (map ToolHelpers.mapTask (Api.results page)) (Api.nextCursor page)
                false (Some (Api.email resolved)))
     | inl failure => inl failure
     end,
     [Api.CallGetUser; Api.CallResolveUser name; Api.CallGetTasksByFilter request]).
Proof.
  intros Huser Hname Hne Hresolved Hid Hcontainer Htext Hlabels request.
  unfold Api.run, FindTasks.execute, Api.bind at 1, Api.request at 1.
  rewrite Huser, (named_user_passes_validation args name Hname Hne).
  unfold Api.bind at 1, FindTasks.resolveResponsibleUser.
  rewrite Hname. apply truthy_true_iff in Hne. rewrite Hne.
  unfold Api.bind at 1, Api.request at 1. rewrite Hresolved.
  unfold Api.ret at 1. cbn [option_map Api.userId Api.email].
  fold (Routes.hasContainer args). rewrite Hcontainer, Htext, Hlabels.
  cbn [Js.truthyOpt]. apply truthy_true_iff in Hid. rewrite Hid. cbn [negb andb].
  fold request. unfold Api.bind, Api.request, Api.ret.
  destruct (Api.getTasksByFilter client request); reflexivity.
Qed.

Lemma findTasks_assignee_route_witness :
  snd (Api.run (FindTasks.execute FindTasks.noSummary
                  (Household.request None None (Some "ann") None) Household.service))
  = [Api.CallGetUser; Api.CallResolveUser "ann";
     Api.CallGetTasksByFilter
       {| Api.query := "assigned to: ann@example.com"; Api.lang := Some "en";
          Api.limit := Some 10%Z; Api.cursor := None |}].
Proof.
  rewrite (findTasks_assignee_route FindTasks.noSummary
             (Household.request None None (Some "ann") None) Household.service
             {| Api.userId := "me"; Api.email := "me@example.com" |}
             {| Api.userId := "u-ann"; Api.email := "ann@example.com" |} "ann"
             eq_refl eq_refl ltac:(discriminate) eq_refl ltac:(discriminate)
             eq_refl eq_refl eq_refl).
  reflexivity.
Defined.

(** X23.  Without container and responsible user, [find-tasks] sends
    one filter request whose query is [search: <text>] and the label
    expression, joined by [&] when both are there; the responsible-user
    mode is not part of the query but is applied to the page that comes
    back, which keeps the unassigned tasks and the caller's own unless
    the mode is [assigned] or [all]. *)
Theorem findTasks_filter_route
    (generateTextContent :
       list MappedTask.t -> FindTasks.Args -> option string -> bool -> option string -> string)
    (args : FindTasks.Args) (client : Api.TodoistApi) (user : Api.User)
    (page : Api.Page Task.t) :
  Api.getUser client = inr user ->
  FindTasks.responsibleUser args = None \/ FindTasks.responsibleUser args = Some "" ->
  Routes.hasContainer args = false ->
  Js.truthyOpt (FindTasks.searchText args) = true \/
  FindTasks.hasLabels (FindTasks.labels args) = true ->
  let request :=
    {| Api.query := Routes.filterQuery args; Api.lang := None;
       Api.limit := Some (FindTasks.limit args); Api.cursor := FindTasks.cursor args |} in
  Api.getTasksByFilter client request = inr page ->
  Api.run (FindTasks.execute generateTextContent args client)
  = (inr (FindTasks.output generateTextContent args
            (filter (Routes.passesAssignment args (Api.userId user))
                    (map ToolHelpers.mapTask (Api.results page)))
            (Api.nextCursor page) false None),
     [Api.CallGetUser; Api.CallGetTasksByFilter request]).
Proof.
  intros Huser Hnobody Hcontainer Hsome request Hpage.
  assert (Hvalid :
    negb (Js.truthyOpt (FindTasks.searchText args))
    && negb (Js.truthyOpt (FindTasks.projectId args))
    && negb (Js.truthyOpt (FindTasks.sectionId args))
    && negb (Js.truthyOpt (FindTasks.parentId args))
    && negb (Js.truthyOpt (FindTasks.responsibleUser args))
    && negb (FindTasks.hasLabels (FindTasks.labels args)) = false).
  { destruct Hsome as [H|H]; rewrite H; [reflexivity | apply andb_false_r]. }
  unfold Api.run, FindTasks.execute, Api.bind at 1, Api.request at 1.
  rewrite Huser, Hvalid.
  unfold Api.bind at 1. rewrite (unresolved_user client _ _ Hnobody).
  fold (Routes.hasContainer args). rewrite Hcontainer.
  cbn [option_map Js.truthyOpt andb].
  fold (Routes.filterQuery args).
  unfold Api.bind, ToolHelpers.getTasksByFilter, Api.tryCatch, Api.bind, Api.request,
    Api.ret.
  fold request. rewrite Hpage. cbn [app ToolHelpers.tasks ToolHelpers.nextCursor].
  do 3 f_equal.
  unfold FilterHelpers.filterTasksByResponsibleUser, Routes.passesAssignment.
  destruct (FindTasks.responsibleUserFiltering args) as [[]|]; simpl;
    rewrite ?filter_all; reflexivity.
Qed.

Lemma findTasks_filter_route_witness :
  exists out,
    Api.run (FindTasks.execute FindTasks.noSummary
               (Household.request (Some "milk") None None (Some ["errand"]))
               Household.service)
    = (inr out,
       [Api.CallGetUser;
        Api.CallGetTasksByFilter
          {| Api.query := "search: milk & (@errand)"; Api.lang := None;
             Api.limit := Some 10%Z; Api.cursor := None |}]) /\
    map MappedTask.id (ToolOutput.tasks out) = ["c-1"; "c-3"].
Proof.
  eexists. split.
  - exact (findTasks_filter_route FindTasks.noSummary
             (Household.request (Some "milk") None None (Some ["errand"]))
             Household.service {| Api.userId := "me"; Api.email := "me@example.com" |}
             {| Api.results := Household.chores; Api.nextCursor := None |}
             eq_refl (or_introl eq_refl) eq_refl (or_introl eq_refl) eq_refl).
  - reflexivity.
Defined.

(** ** The listing tools: what every result satisfies *)

Ltac split_run H :=
  repeat match type of H with
         | context [match ?x with _ => _ end] =>
             let E := fresh "E" in destruct x eqn:E; try discriminate H
         | context [if ?x then _ else _] =>
             let E := fresh "E" in destruct x eqn:E; try discriminate H
         end.

(** X24.  Whatever the arguments and the answers of the service, a
    result of [find-tasks] or of [find-tasks-by-date] is consistent:
    [totalCount] is the number of tasks in the result and [hasMore]
    holds exactly when a (non-empty) next cursor is there. *)
Theorem listing_result_consistent :
  (forall generateTextContent args client log out log',
     FindTasks.execute generateTextContent args client log = (inr out, log') ->
     ToolOutput.totalCount out = List.length (ToolOutput.tasks out) /\
     ToolOutput.hasMore out = Js.truthyOpt (ToolOutput.nextCursor out)) /\
  (forall offsetMinutes generateTextContent args client log out log',
     FindTasksByDate.execute offsetMinutes generateTextContent args client log
     = (inr out, log') ->
     ToolOutput.totalCount out = List.length (ToolOutput.tasks out) /\
     ToolOutput.hasMore out = Js.truthyOpt (ToolOutput.nextCursor out)).
Proof.
  split.
  - intros generateTextContent args client log out log' H.
    unfold FindTasks.execute, FindTasks.resolveResponsibleUser,
      ToolHelpers.getTasksByFilter, Api.tryCatch, Api.bind, Api.request, Api.ret,
      Api.throw in H.
    split_run H; injection H as <- _; split; reflexivity.
  - intros offsetMinutes generateTextContent args client log out log' H.
    unfold FindTasksByDate.execute, ToolHelpers.getTasksByFilter, Api.tryCatch,
      Api.bind, Api.request, Api.ret, Api.throw in H.
    split_run H; injection H as <- _; split; reflexivity.
Qed.

Lemma listing_result_consistent_witness :
  exists out,
    fst (Api.run (FindTasks.execute FindTasks.noSummary
                    (Household.request None (Some "home") None None) Household.service))
    = inr out /\
    ToolOutput.totalCount out = List.length (ToolOutput.tasks out) /\
    ToolOutput.hasMore out = true.
Proof.
  pose (run := Api.run (FindTasks.execute FindTasks.noSummary
                          (Household.request None (Some "home") None None)
                          Household.service)).
  assert (Hrun : exists out, run = (inr out, snd run)).
  { eexists. vm_compute. reflexivity. }
  destruct Hrun as [out Hrun]. exists out.
  destruct (proj1 listing_result_consistent FindTasks.noSummary
              (Household.request None (Some "home") None None) Household.service
              [] out (snd run) Hrun) as [Hcount Hmore].
  split; [unfold run in Hrun; rewrite Hrun; reflexivity|].
  split; [exact Hcount|].
  rewrite Hmore.
  assert (Hout : inr out = fst run :> Api.Thrown + ToolOutput.t)
    by (rewrite Hrun; reflexivity).
  vm_compute in Hout. injection Hout as ->. reflexivity.
Defined.

(** ** find-activity: the text of an event in the preview *)

Lemma length_append (a b : string) :
  String.length (a ++ b) = String.length a + String.length b.
Proof. induction a as [|c a IH]; [reflexivity|]. simpl. rewrite IH. reflexivity. Qed.

Lemma length_take (n : nat) (s : string) :
  String.length (JsText.take n s) = Nat.min n (String.length s).
Proof.
  revert s. induction n as [|n IH]; intros [|c s]; try reflexivity.
  simpl. rewrite IH. reflexivity.
Qed.

Lemma take_prefix (n : nat) (s : string) : exists rest, s = JsText.take n s ++ rest.
Proof.
  revert s. induction n as [|n IH]; intros s.
  - exists s. destruct s; reflexivity.
  - destruct s as [|c s]; [exists ""; reflexivity|].
    destruct (IH s) as [rest H]. exists rest. simpl. rewrite <- H. reflexivity.
Qed.

(** X25.  The text of an event is shown in at most 50 code units: a
    text of up to 50 is shown whole, a longer one as its first 47 code
    units followed by three dots, 50 in all. *)
Theorem truncate_bound (content : string) :
  String.length (FindActivity.truncate content) <= 50 /\
  (String.length content <= 50 -> FindActivity.truncate content = content) /\
  (50 < String.length content ->
   String.length (FindActivity.truncate content) = 50 /\
   exists shown rest,
     content = shown ++ rest /\ String.length shown = 47 /\
     FindActivity.truncate content = shown ++ "...").
Proof.
  unfold FindActivity.truncate.
  destruct (Nat.ltb_spec 50 (String.length content)) as [Hlong|Hshort].
  - assert (Hlen : String.length (JsText.take 47 content ++ "...") = 50).
    { rewrite length_append, length_take.
      change (String.length "...") with 3. lia. }
    split; [lia|]. split; [lia|]. intros _. split; [exact Hlen|].
    destruct (take_prefix 47 content) as [rest Hrest].
    exists (JsText.take 47 content), rest.
    split; [exact Hrest|]. split; [rewrite length_take; lia | reflexivity].
  - split; [exact Hshort|]. split; [reflexivity | lia].
Qed.

Lemma truncate_bound_witness :
  String.length
    (FindActivity.truncate
       "Prepare the quarterly report for the steering committee meeting") = 50.
Proof.
  apply (proj2 (proj2 (truncate_bound
    "Prepare the quarterly report for the steering committee meeting"))).
  simpl. lia.
Defined.



(** ** The credential of a request *)

Lemma trimStart_no_leading (s : string) :
  JsText.startsWithWhitespace (JsText.trimStart s) = false.
Proof.
  induction s as [|c s IH]; [reflexivity|].
  simpl. destruct (JsText.isWhitespace c) eqn:E; [exact IH|].
  simpl. exact E.
Qed.

Lemma trimEnd_no_trailing (s : string) :
  JsText.endsWithWhitespace (JsText.trimEnd s) = false.
Proof.
  induction s as [|c s IH]; [reflexivity|].
  simpl. destruct (JsText.trimEnd s) as [|k kept] eqn:E.
  - destruct (JsText.isWhitespace c) eqn:Ec; [reflexivity|]. simpl. exact Ec.
  - exact IH.
Qed.

Lemma trimEnd_keeps_start (s : string) :
  JsText.startsWithWhitespace s = false ->
  JsText.startsWithWhitespace (JsText.trimEnd s) = false.
Proof.
  destruct s as [|c s]; [reflexivity|].
  simpl. intros Hc. rewrite Hc. destruct (JsText.trimEnd s); simpl; exact Hc.
Qed.

Lemma trim_clean (s : string) :
  JsText.startsWithWhitespace (JsText.trim s) = false /\
  JsText.endsWithWhitespace (JsText.trim s) = false.
Proof.
  unfold JsText.trim. split.
  - apply trimEnd_keeps_start, trimStart_no_leading.
  - apply trimEnd_no_trailing.
Qed.

Lemma literalIgnoringCase_matches {A : Type}
    (pattern scheme rest : string) (k : string -> option A) :
  Wording.equalIgnoringCase scheme pattern ->
  JsText.literalIgnoringCase pattern (scheme ++ rest) k = k rest.
Proof.
  revert scheme. induction pattern as [|p pattern IH]; intros [|c scheme] H;
    try contradiction; [reflexivity|].
  destruct H as [Hc H]. simpl. apply sameLetter_iff in Hc.
  rewrite Hc, Ascii.eqb_refl. apply IH. exact H.
Qed.

Lemma literalIgnoringCase_fails {A : Type}
    (pattern s : string) (k : string -> option A) :
  Js.startsWith (Js.toLowerCase pattern) (Js.toLowerCase s) = false ->
  JsText.literalIgnoringCase pattern s k = None.
Proof.
  revert s. induction pattern as [|p pattern IH]; intros s H; [discriminate H|].
  destruct s as [|c s]; [reflexivity|].
  simpl in H |- *. destruct (Ascii.eqb (Js.lowerChar p) (Js.lowerChar c)); [|reflexivity].
  apply IH. exact H.
Qed.

(** A greedy run takes all of a stretch of its class that ends where
    the class ends, if the rest of the pattern accepts that. *)
Lemma oneOrMore_whole_run {A : Type}
    (class : ascii -> bool) (run left : string) (k : string -> string -> option A) (a : A) :
  run <> "" ->
  Js.isEmpty left = true \/ (exists c rest, left = String c rest /\ class c = false) ->
  (forall c, In c (list_ascii_of_string run) -> class c = true) ->
  k run left = Some a ->
  JsText.oneOrMore class (run ++ left) k = Some a.
Proof.
  intros Hne Hleft. revert k. induction run as [|c run IH]; intros k Hall Hk;
    [contradiction Hne; reflexivity|].
  simpl. rewrite (Hall c (or_introl eq_refl)).
  destruct run as [|c' run'].
  - assert (Hstop : forall k', JsText.oneOrMore class left k' = None (A := A)).
    { intros k'. destruct Hleft as [H|[x [rest [-> Hx]]]].
      - destruct left; [reflexivity | discriminate H].
      - simpl. rewrite Hx. reflexivity. }
    simpl. rewrite Hstop. exact Hk.
  - rewrite (IH ltac:(discriminate) (fun r l => k (String c r) l)).
    + reflexivity.
    + intros x Hx. apply Hall. right. exact Hx.
    + exact Hk.
Qed.

Lemma extractTodoistToken_trimmed (headers : SseServer.Headers) (token : string) :
  SseServer.extractTodoistToken headers = Some token ->
  JsText.startsWithWhitespace token = false /\
  JsText.endsWithWhitespace token = false.
Proof.
  unfold SseServer.extractTodoistToken. intros H.
  assert (Hclean : exists s, token = JsText.trim s).
  { destruct (SseServer.xTodoistToken headers) as [[custom|]|];
      try (destruct (Js.truthy custom);
           [injection H as <-; eexists; reflexivity|]);
      destruct (SseServer.authorization headers) as [auth|]; try discriminate H;
      destruct (Js.truthy auth); try discriminate H;
      destruct (SseServer.bearerGroup auth) as [group|]; try discriminate H;
      destruct (Js.truthy group); try discriminate H;
      injection H as <-; eexists; reflexivity. }
  destruct Hclean as [s ->]. apply trim_clean.
Qed.

(** X27.  The token is taken from the header [X-Todoist-Token] whenever
    that header is a non-empty string, whatever [Authorization] holds,
    and from [Authorization] otherwise; a token, wherever it comes from,
    has no whitespace at either end.  With neither header there is no
    token. *)
Theorem extractTodoistToken_source (headers : SseServer.Headers) :
  (forall custom,
     SseServer.xTodoistToken headers = Some (SseServer.Single custom) ->
     custom <> "" ->
     SseServer.extractTodoistToken headers = Some (JsText.trim custom)) /\
  (forall token,
     SseServer.extractTodoistToken headers = Some token ->
     JsText.startsWithWhitespace token = false /\
     JsText.endsWithWhitespace token = false) /\
  (SseServer.xTodoistToken headers = None ->
   SseServer.authorization headers = None ->
   SseServer.extractTodoistToken headers = None).
Proof.
  unfold SseServer.extractTodoistToken. split; [|split].
  - intros custom -> Hne. apply truthy_true_iff in Hne. rewrite Hne. reflexivity.
  - intros token H. apply (extractTodoistToken_trimmed headers token).
    unfold SseServer.extractTodoistToken. exact H.
  - intros -> ->. reflexivity.
Qed.

Lemma extractTodoistToken_source_witness :
  SseServer.extractTodoistToken
    {| SseServer.xTodoistToken := Some (SseServer.Single "  c24a059c  ");
       SseServer.authorization := Some "Bearer other-token" |}
  = Some "c24a059c".
Proof.
  apply (proj1 (extractTodoistToken_source
                  {| SseServer.xTodoistToken := Some (SseServer.Single "  c24a059c  ");
                     SseServer.authorization := Some "Bearer other-token" |})
               "  c24a059c  " eq_refl).
  discriminate.
Defined.

(** X28.  Without a usable [X-Todoist-Token] header, an [Authorization]
    header made of the word [Bearer] in any letter case, one or more
    whitespace characters and a token that starts with a visible
    character and holds no line break gives that token, trimmed at its
    end; a header that does not start with [bearer], letter case aside,
    gives none. *)
Theorem extractTodoistToken_bearer
    (headers : SseServer.Headers) (authHeader : string) :
  SseServer.xTodoistToken headers = None ->
  SseServer.authorization headers = Some authHeader ->
  (forall scheme space token,
     authHeader = scheme ++ space ++ token ->
     Wording.equalIgnoringCase scheme "Bearer" ->
     space <> "" ->
     (forall c, In c (list_ascii_of_string space) -> JsText.isWhitespace c = true) ->
     JsText.startsWithWhitespace token = false ->
     token <> "" ->
     (forall c, In c (list_ascii_of_string token) -> JsText.isLineTerminator c = false) ->
     SseServer.extractTodoistToken headers = Some (JsText.trimEnd token)) /\
  (Js.startsWith "bearer" (Js.toLowerCase authHeader) = false ->
   SseServer.extractTodoistToken headers = None).
Proof.
  intros Hcustom Hauth. unfold SseServer.extractTodoistToken.
  rewrite Hcustom, Hauth. split.
  - intros scheme space token -> Hscheme Hspace Hws Hvisible Htoken Hline.
    assert (Hgroup : SseServer.bearerGroup (scheme ++ space ++ token) = Some token).
    { unfold SseServer.bearerGroup.
      rewrite (literalIgnoringCase_matches "Bearer" scheme _ _ Hscheme).
      apply oneOrMore_whole_run; [exact Hspace| |exact Hws|].
      - right. destruct token as [|c rest]; [contradiction Htoken; reflexivity|].
        exists c, rest. split; [reflexivity | exact Hvisible].
      - rewrite <- (append_empty_r token) at 1.
        apply oneOrMore_whole_run; [exact Htoken | left; reflexivity | | reflexivity].
        intros c Hc. rewrite (Hline c Hc). reflexivity. }
    rewrite Hgroup.
    assert (Hscheme_ne : Js.truthy (scheme ++ space ++ token) = true).
    { destruct scheme; [contradiction Hscheme | reflexivity]. }
    rewrite Hscheme_ne.
    assert (Htruthy : Js.truthy token = true) by (apply truthy_true_iff; exact Htoken).
    rewrite Htruthy. unfold JsText.trim.
    destruct token as [|c rest]; [contradiction Htoken; reflexivity|].
    simpl in Hvisible. cbn [JsText.trimStart]. rewrite Hvisible. reflexivity.
  - intros Hscheme. unfold SseServer.bearerGroup.
    rewrite (literalIgnoringCase_fails "Bearer" authHeader _ Hscheme).
    destruct (Js.truthy authHeader); reflexivity.
Qed.

Lemma extractTodoistToken_bearer_witness :
  SseServer.extractTodoistToken
    {| SseServer.xTodoistToken := None;
       SseServer.authorization := Some "bEaReR   test-token-456  " |}
  = Some "test-token-456".
Proof.
  refine (proj1 (extractTodoistToken_bearer
                   {| SseServer.xTodoistToken := None;
                      SseServer.authorization := Some "bEaReR   test-token-456  " |}
                   "bEaReR   test-token-456  " eq_refl eq_refl)
                "bEaReR" "   " "test-token-456  " eq_refl _ _ _ eq_refl _ _).
  - simpl. repeat (split; [apply sameLetterb_iff; reflexivity|]). exact I.
  - discriminate.
  - simpl. intros c H. repeat (destruct H as [<-|H]; [reflexivity|]). contradiction.
  - discriminate.
  - simpl. intros c H. repeat (destruct H as [<-|H]; [reflexivity|]). contradiction.
Defined.

(** X29.  A request is let in only with a token that is not empty, has
    no whitespace at either end and holds neither [{{] nor [}}] (a
    template that was not filled in).  An [X-Todoist-Token] header that
    is blank, whitespace only, counts as a missing token even when
    [Authorization] carries one: the fallback is not tried. *)
Theorem admission_token (headers : SseServer.Headers) :
  (forall key,
     SseServer.admission headers = SseServer.Accepted key ->
     SseServer.extractTodoistToken headers = Some key /\
     key <> "" /\
     Js.includes "{{" key = false /\ Js.includes "}}" key = false /\
     JsText.startsWithWhitespace key = false /\
     JsText.endsWithWhitespace key = false) /\
  (forall custom,
     SseServer.xTodoistToken headers = Some (SseServer.Single custom) ->
     custom <> "" ->
     JsText.trim custom = "" ->
     SseServer.admission headers = SseServer.MissingToken).
Proof.
  split.
  - intros key H. unfold SseServer.admission in H.
    destruct (SseServer.extractTodoistToken headers) as [token|] eqn:E;
      [|discriminate H].
    destruct (Js.truthy token) eqn:Et; [|discriminate H]. cbn [negb] in H.
    destruct (Js.includes "{{" token || Js.includes "}}" token) eqn:Eb;
      [discriminate H|].
    injection H as <-. apply orb_false_iff in Eb. destruct Eb as [Eb1 Eb2].
    destruct (extractTodoistToken_trimmed headers token E) as [Hs He].
    apply truthy_true_iff in Et. auto 10.
  - intros custom Hcustom Hne Hblank.
    unfold SseServer.admission, SseServer.extractTodoistToken.
    rewrite Hcustom. apply truthy_true_iff in Hne. rewrite Hne, Hblank. reflexivity.
Qed.

Lemma admission_token_witness :
  SseServer.admission
    {| SseServer.xTodoistToken := Some (SseServer.Single "   ");
       SseServer.authorization := Some "Bearer c24a059c" |}
  = SseServer.MissingToken.
Proof.
  apply (proj2 (admission_token
                  {| SseServer.xTodoistToken := Some (SseServer.Single "   ");
                     SseServer.authorization := Some "Bearer c24a059c" |})
               "   " eq_refl); [discriminate | reflexivity].
Defined.
